(** * Booking lifecycle of the rental server

    A shallow embedding of the booking, availability and review handlers of
    [routes/guest.js] and [routes/host.js], with the tables they touch
    ([schema.prisma]: Property, Booking, Review) kept as lists of rows.

    Conventions of the embedding:
    - a [DateTime] is its time value, an integer number of milliseconds ([Z]);
      [new Date(str)] of a request is a [Js.Date], which may be Invalid Date;
    - a [Decimal] and every JavaScript number that is not an integer by
      construction is a rational ([Q]), with exact arithmetic;
    - numeric request fields are JSON numbers; identifiers and guest counts
      are integers, on which [parseInt] is the identity;
    - a handler is a computation that either sends a response early or goes
      on ([Handler]); the store is threaded explicitly, and the clock
      ([new Date()]) is an argument of the handlers that read it. *)

From Stdlib Require Import ZArith QArith Qround List String Bool Lia.
Import ListNotations.
Local Open Scope Z_scope.

(** ** JavaScript values used by the handlers *)

Module Js.

(** The result of [new Date(str)]. *)
Inductive Date : Type :=
| ValidDate (ms : Z)
| InvalidDate.

(** The number a [Date] is compared as; [None] stands for NaN. *)
Definition valueOf (d : Date) : option Z :=
  match d with
  | ValidDate ms => Some ms
  | InvalidDate => None
  end.

(** [a < b], [a > b], [a >= b] on numbers: false as soon as one is NaN. *)
Definition lt (a b : option Z) : bool :=
  match a, b with
  | Some x, Some y => x <? y
  | _, _ => false
  end.

Definition gt (a b : option Z) : bool := lt b a.

Definition ge (a b : option Z) : bool :=
  match a, b with
  | Some x, Some y => y <=? x
  | _, _ => false
  end.

(** [!x] for a numeric field: absent, or the number 0. *)
Definition falsy (x : option Z) : bool :=
  match x with
  | Some 0 => true
  | Some _ => false
  | None => true
  end.

Definition falsyQ (x : option Q) : bool :=
  match x with
  | Some q => Qeq_bool q 0
  | None => true
  end.

(** [a < b] on rationals. *)
Definition Qltb (a b : Q) : bool := negb (Qle_bool b a).

(** [parseInt(x)] of a number: the digits before the decimal point, that
    is truncation towards zero (for magnitudes printed without an
    exponent, the only ones a handler passes). *)
Definition parseInt (q : Q) : Z := Z.quot (Qnum q) (Zpos (Qden q)).

(** [Math.abs] and [Math.ceil]. *)
Definition abs (z : Z) : Z := Z.abs z.
Definition ceil (q : Q) : Z := Qceiling q.

End Js.

(** ** The schema *)

Inductive UserRole : Type := ADMIN | HOST | GUEST.

Definition UserRole_eqb (a b : UserRole) : bool :=
  match a, b with
  | ADMIN, ADMIN | HOST, HOST | GUEST, GUEST => true
  | _, _ => false
  end.

Inductive RentalPeriod : Type := DAY | MONTH | YEAR.

(** [req.user]: the authenticated user of the session. *)
Module User.
Record t : Type := mk { id : Z; role : UserRole }.
End User.

Module Property.
Record t : Type := mk {
  id : Z;
  hostId : Z;
  price : Q;
  rentalPeriod : option RentalPeriod;
  isAvailable : bool;
  availableFrom : option Z;
  availableTo : option Z
}.
End Property.

Module Booking.
Record t : Type := mk {
  id : Z;
  propertyId : Z;
  guestId : Z;
  startDate : Z;
  endDate : Z;
  totalPrice : Q;
  guestCount : Z;
  status : string;
  paymentStatus : string
}.

Definition withStatus (st : string) (b : t) : t :=
  mk (id b) (propertyId b) (guestId b) (startDate b) (endDate b)
     (totalPrice b) (guestCount b) st (paymentStatus b).
End Booking.

Module Review.
Record t : Type := mk {
  id : Z;
  propertyId : Z;
  userId : Z;
  bookingId : Z;
  rating : Z;
  comment : option string
}.
End Review.

Definition pending : string := "pending".
Definition confirmed : string := "confirmed".
Definition cancelled : string := "cancelled".
Definition completed : string := "completed".
Definition unpaid : string := "unpaid".

(** [list.includes(x)] on strings. *)
Definition includes (l : list string) (x : string) : bool :=
  existsb (String.eqb x) l.

(** ** The store and the queries the handlers issue *)

Module Store.
Record t : Type := mk {
  properties : list Property.t;
  bookings : list Booking.t;
  reviews : list Review.t;
  nextBookingId : Z;
  nextReviewId : Z
}.
End Store.

Module Prisma.

(** [prisma.property.findUnique({ where: { id } })] *)
Definition propertyFindUnique (s : Store.t) (id : Z) : option Property.t :=
  find (fun p => Property.id p =? id) (Store.properties s).

(** [prisma.booking.findUnique({ where: { id } })] *)
Definition bookingFindUnique (s : Store.t) (id : Z) : option Booking.t :=
  find (fun b => Booking.id b =? id) (Store.bookings s).

(** [prisma.review.findUnique({ where: { bookingId } })] *)
Definition reviewFindUnique (s : Store.t) (bookingId : Z) : option Review.t :=
  find (fun r => Review.bookingId r =? bookingId) (Store.reviews s).

(** The [where] clause shared by the two overlap queries:
    [propertyId], [status: { in: ["pending", "confirmed"] }],
    [startDate: { lte: end }], [endDate: { gte: start }]. *)
Definition overlapWhere (propertyId start end_ : Z) (b : Booking.t) : bool :=
  (Booking.propertyId b =? propertyId)
  && includes [pending; confirmed] (Booking.status b)
  && (Booking.startDate b <=? end_)
  && (Booking.endDate b >=? start).

(** [prisma.booking.findMany({ where: ... })] *)
Definition bookingFindMany (s : Store.t) (propertyId start end_ : Z)
  : list Booking.t :=
  filter (overlapWhere propertyId start end_) (Store.bookings s).

(** [prisma.booking.create({ data })]: the row gets the next
    auto-increment id. *)
Definition bookingCreate (s : Store.t)
    (propertyId guestId startDate endDate guestCount : Z) (totalPrice : Q)
    (status paymentStatus : string) : Booking.t * Store.t :=
  let b := Booking.mk (Store.nextBookingId s) propertyId guestId startDate
             endDate totalPrice guestCount status paymentStatus in
  (b, Store.mk (Store.properties s) (Store.bookings s ++ [b])
        (Store.reviews s) (Store.nextBookingId s + 1) (Store.nextReviewId s)).

(** The row of the primary key [id] gets the new status. *)
Fixpoint setStatus (id : Z) (st : string) (l : list Booking.t)
  : list Booking.t :=
  match l with
  | [] => []
  | b :: l' =>
      if Booking.id b =? id then Booking.withStatus st b :: l'
      else b :: setStatus id st l'
  end.

(** [prisma.booking.update({ where: { id }, data: { status } })];
    [None] when no row has this id (the call throws). *)
Definition bookingUpdate (s : Store.t) (id : Z) (st : string)
  : option (Booking.t * Store.t) :=
  match bookingFindUnique s id with
  | Some b =>
      Some (Booking.withStatus st b,
            Store.mk (Store.properties s) (setStatus id st (Store.bookings s))
              (Store.reviews s) (Store.nextBookingId s) (Store.nextReviewId s))
  | None => None
  end.

(** [prisma.review.create({ data })] *)
Definition reviewCreate (s : Store.t)
    (bookingId propertyId userId rating : Z) (comment : option string)
  : Review.t * Store.t :=
  let r := Review.mk (Store.nextReviewId s) propertyId userId bookingId
             rating comment in
  (r, Store.mk (Store.properties s) (Store.bookings s)
        (Store.reviews s ++ [r]) (Store.nextBookingId s)
        (Store.nextReviewId s + 1)).

End Prisma.

(** ** Responses *)

(** The [message] strings of the handlers; a template literal keeps the
    value it interpolates. *)
Inductive Msg : Type :=
| Unauthorized               (* "Unauthorized" *)
| Forbidden                  (* "Forbidden: Insufficient permissions" *)
| ServerError                (* "Server error" *)
| DatesRequired              (* "Start and end dates are required" *)
| PropertyNotFound           (* "Property not found" *)
| PropertyNotAvailable       (* "Property is not available" *)
| OnlyAvailableFrom (d : Z)  (* `Property is only available from ${...}` *)
| OnlyAvailableUntil (d : Z) (* `Property is only available until ${...}` *)
| AlreadyBooked              (* "Property is already booked for the selected dates" *)
| AllFieldsRequired          (* "All fields are required" *)
| CannotBookOwn              (* "You cannot book your own property" *)
| EndAfterStart              (* "End date must be after start date" *)
| StartInPast                (* "Start date cannot be in the past" *)
| BookingCreated             (* "Booking created successfully" *)
| BookingNotFound            (* "Booking not found" *)
| NotAuthorizedCancel        (* "Not authorized to cancel this booking" *)
| CannotCancel (st : string) (* `Cannot cancel a booking with status: ${st}` *)
| CancelTooLate              (* "Cancellations must be made at least 24 hours ..." *)
| HasBeen (st : string)      (* `Booking for ${title} has been ${st}` *)
| ReviewFieldsRequired       (* "Booking ID, property ID, and rating are required" *)
| RatingRange                (* "Rating must be between 1 and 5" *)
| NotAuthorizedReview        (* "Not authorized to review this booking" *)
| PropertyMismatch           (* "Booking and property do not match" *)
| OnlyCompleted              (* "Can only review completed bookings" *)
| ReviewExists               (* "Review already exists for this booking" *)
| ReviewSubmitted            (* "Review submitted successfully" *)
| InvalidStatus              (* "Invalid status" *)
| NotAuthorizedUpdate.       (* "Not authorized to update this booking" *)

Module Response.
(** The HTTP status and the keys of the JSON object sent. *)
Record t : Type := mk {
  code : Z;
  message : option Msg;
  available : option bool;
  conflictingDates : option (list (Z * Z));
  booking : option Booking.t;
  review : option Review.t
}.

(** [res.status(code).json({ message })] *)
Definition error (code : Z) (m : Msg) : t :=
  mk code (Some m) None None None None.
End Response.

(** ** Handlers: early return *)

Definition Handler (A : Type) : Type := (Response.t + A)%type.

Definition ret {A : Type} (a : A) : Handler A := inr a.

Definition bind {A B : Type} (c : Handler A) (k : A -> Handler B) : Handler B :=
  match c with
  | inl r => inl r
  | inr a => k a
  end.

Declare Scope handler_scope.
Delimit Scope handler_scope with handler.
Notation "x <- c ;; k" := (bind c (fun x => k))
  (at level 61, c at next level, right associativity) : handler_scope.
Notation "' pat <- c ;; k" := (bind c (fun x => match x with pat => k end))
  (at level 61, pat pattern, c at next level, right associativity)
  : handler_scope.
Notation "c ;; k" := (bind c (fun _ => k))
  (at level 61, right associativity) : handler_scope.
Local Open Scope handler_scope.

(** [if (cond) return res...;] *)
Definition reject (cond : bool) (r : Response.t) : Handler unit :=
  if cond then inl r else inr tt.

(** [const x = await ...; if (!x) return res...;] *)
Definition orElse {A : Type} (x : option A) (r : Response.t) : Handler A :=
  match x with
  | Some a => inr a
  | None => inl r
  end.

(** A [Date] handed to a query: the client refuses an Invalid Date, the
    call throws and the handler's [catch] answers 500. *)
Definition queryDate (d : Js.Date) : Handler Z :=
  orElse (Js.valueOf d) (Response.error 500 ServerError).

(** The response of a handler that changes the store only with its last
    statement: an early return leaves the store as it was. *)
Definition respond (s : Store.t) (h : Handler (Response.t * Store.t))
  : Response.t * Store.t :=
  match h with
  | inl r => (r, s)
  | inr x => x
  end.

(** ** Middleware of [routes/auth.js] *)

Definition isAuthenticated (session : option User.t) : Handler User.t :=
  orElse session (Response.error 401 Unauthorized).

Definition hasRole (roles : list UserRole) (session : option User.t)
  : Handler User.t :=
  user <- orElse session (Response.error 401 Unauthorized) ;;
  reject (negb (existsb (UserRole_eqb (User.role user)) roles))
         (Response.error 403 Forbidden) ;;
  ret user.

Definition isHostOrAdmin : option User.t -> Handler User.t :=
  hasRole [HOST; ADMIN].

(** ** Guest routes ([routes/guest.js]) *)

(** [GET /properties/:id/availability?startDate&endDate].  The query
    strings are given as the dates they parse to, [None] when absent. *)
Definition checkAvailability (id : Z) (startDate endDate : option Js.Date)
    (s : Store.t) : Response.t :=
  let h : Handler Response.t :=
    start <- orElse startDate (Response.error 400 DatesRequired) ;;
    end_ <- orElse endDate (Response.error 400 DatesRequired) ;;
    property <- orElse (Prisma.propertyFindUnique s id)
                       (Response.error 404 PropertyNotFound) ;;
    reject (negb (Property.isAvailable property))
      (Response.mk 200 (Some PropertyNotAvailable) (Some false) None None None) ;;
    match Property.availableFrom property with
    | Some from =>
        reject (Js.lt (Js.valueOf start) (Some from))
          (Response.mk 200 (Some (OnlyAvailableFrom from)) (Some false)
             None None None)
    | None => ret tt
    end ;;
    match Property.availableTo property with
    | Some to =>
        reject (Js.gt (Js.valueOf end_) (Some to))
          (Response.mk 200 (Some (OnlyAvailableUntil to)) (Some false)
             None None None)
    | None => ret tt
    end ;;
    lte <- queryDate end_ ;;
    gte <- queryDate start ;;
    let existingBookings := Prisma.bookingFindMany s id gte lte in
    reject (0 <? List.length existingBookings)%nat
      (Response.mk 200 (Some AlreadyBooked) (Some false)
         (Some (map (fun b => (Booking.startDate b, Booking.endDate b))
                    existingBookings))
         None None) ;;
    ret (Response.mk 200 None (Some true) None None None)
  in
  match h with
  | inl r => r
  | inr r => r
  end.

Module BookingRequest.
(** The body of [POST /bookings]; the dates as [new Date] reads them. *)
Record t : Type := mk {
  propertyId : option Z;
  startDate : option Js.Date;
  endDate : option Js.Date;
  guestCount : option Z
}.
End BookingRequest.

(** The price computation of [POST /bookings]. *)
Definition totalPriceOf (property : Property.t) (start end_ : Z) : Q :=
  let diffTime := Js.abs (end_ - start) in
  let days := Js.ceil (inject_Z diffTime / inject_Z (1000 * 60 * 60 * 24)) in
  let days := if days =? 0 then 1 else days in
  match Property.rentalPeriod property with
  | Some DAY => Property.price property * inject_Z days
  | Some MONTH => Property.price property * (inject_Z days / inject_Z 30)
  | Some YEAR => Property.price property * (inject_Z days / inject_Z 365)
  | None => Property.price property
  end%Q.

(** [POST /bookings], called at time [now]. *)
Definition createBooking (now : Z) (session : option User.t)
    (rq : BookingRequest.t) (s : Store.t) : Response.t * Store.t :=
  respond s (
    user <- isAuthenticated session ;;
    reject (Js.falsy (BookingRequest.propertyId rq)
            || match BookingRequest.startDate rq with None => true | _ => false end
            || match BookingRequest.endDate rq with None => true | _ => false end
            || Js.falsy (BookingRequest.guestCount rq))
           (Response.error 400 AllFieldsRequired) ;;
    propertyId <- orElse (BookingRequest.propertyId rq)
                         (Response.error 400 AllFieldsRequired) ;;
    start <- orElse (BookingRequest.startDate rq)
                    (Response.error 400 AllFieldsRequired) ;;
    end_ <- orElse (BookingRequest.endDate rq)
                   (Response.error 400 AllFieldsRequired) ;;
    guestCount <- orElse (BookingRequest.guestCount rq)
                         (Response.error 400 AllFieldsRequired) ;;
    property <- orElse (Prisma.propertyFindUnique s propertyId)
                       (Response.error 404 PropertyNotFound) ;;
    reject (negb (Property.isAvailable property))
           (Response.error 400 PropertyNotAvailable) ;;
    reject (Property.hostId property =? User.id user)
           (Response.error 400 CannotBookOwn) ;;
    reject (Js.ge (Js.valueOf start) (Js.valueOf end_))
           (Response.error 400 EndAfterStart) ;;
    reject (Js.lt (Js.valueOf start) (Some now))
           (Response.error 400 StartInPast) ;;
    lte <- queryDate end_ ;;
    gte <- queryDate start ;;
    let existingBookings := Prisma.bookingFindMany s propertyId gte lte in
    reject (0 <? List.length existingBookings)%nat
           (Response.error 400 AlreadyBooked) ;;
    let totalPrice := totalPriceOf property gte lte in
    let '(booking, s') :=
      Prisma.bookingCreate s propertyId (User.id user) gte lte guestCount
        totalPrice pending unpaid in
    ret (Response.mk 201 (Some BookingCreated) None None (Some booking) None,
         s')).

(** [PUT /bookings/:id/cancel], called at time [now]. *)
Definition cancelBooking (now : Z) (session : option User.t) (id : Z)
    (s : Store.t) : Response.t * Store.t :=
  respond s (
    user <- isAuthenticated session ;;
    booking <- orElse (Prisma.bookingFindUnique s id)
                      (Response.error 404 BookingNotFound) ;;
    reject (negb (Booking.guestId booking =? User.id user))
           (Response.error 403 NotAuthorizedCancel) ;;
    reject (negb (String.eqb (Booking.status booking) pending)
            && negb (String.eqb (Booking.status booking) confirmed))
           (Response.error 400 (CannotCancel (Booking.status booking))) ;;
    let hoursUntilStart :=
      (inject_Z (Booking.startDate booking - now)
       / inject_Z (1000 * 60 * 60))%Q in
    reject (Js.Qltb hoursUntilStart 24%Q)
           (Response.error 400 CancelTooLate) ;;
    '(updatedBooking, s') <- orElse (Prisma.bookingUpdate s id cancelled)
                                    (Response.error 500 ServerError) ;;
    ret (Response.mk 200 (Some (HasBeen cancelled)) None None
           (Some updatedBooking) None,
         s')).

Module ReviewRequest.
(** The body of [POST /reviews]. *)
Record t : Type := mk {
  bookingId : option Z;
  propertyId : option Z;
  rating : option Q;
  comment : option string
}.
End ReviewRequest.

(** [POST /reviews] *)
Definition addReview (session : option User.t) (rq : ReviewRequest.t)
    (s : Store.t) : Response.t * Store.t :=
  respond s (
    user <- isAuthenticated session ;;
    reject (Js.falsy (ReviewRequest.bookingId rq)
            || Js.falsy (ReviewRequest.propertyId rq)
            || Js.falsyQ (ReviewRequest.rating rq))
           (Response.error 400 ReviewFieldsRequired) ;;
    bookingId <- orElse (ReviewRequest.bookingId rq)
                        (Response.error 400 ReviewFieldsRequired) ;;
    propertyId <- orElse (ReviewRequest.propertyId rq)
                         (Response.error 400 ReviewFieldsRequired) ;;
    rating <- orElse (ReviewRequest.rating rq)
                     (Response.error 400 ReviewFieldsRequired) ;;
    reject (Js.Qltb rating 1%Q || Js.Qltb 5%Q rating)
           (Response.error 400 RatingRange) ;;
    booking <- orElse (Prisma.bookingFindUnique s bookingId)
                      (Response.error 404 BookingNotFound) ;;
    reject (negb (Booking.guestId booking =? User.id user))
           (Response.error 403 NotAuthorizedReview) ;;
    reject (negb (Booking.propertyId booking =? propertyId))
           (Response.error 400 PropertyMismatch) ;;
    reject (negb (String.eqb (Booking.status booking) completed))
           (Response.error 400 OnlyCompleted) ;;
    match Prisma.reviewFindUnique s bookingId with
    | Some existingReview => inl (Response.error 400 ReviewExists)
    | None =>
        let '(review, s') :=
          Prisma.reviewCreate s bookingId propertyId (User.id user)
            (Js.parseInt rating) (ReviewRequest.comment rq) in
        ret (Response.mk 201 (Some ReviewSubmitted) None None None
               (Some review),
             s')
    end).

(** ** Host routes ([routes/host.js]) *)

(** [PUT /bookings/:id/status]; [status] is the body's field, [None] when
    absent. *)
Definition updateBookingStatus (session : option User.t) (id : Z)
    (status : option string) (s : Store.t) : Response.t * Store.t :=
  respond s (
    user <- isHostOrAdmin session ;;
    status <- orElse status (Response.error 400 InvalidStatus) ;;
    reject (negb (includes [confirmed; cancelled; completed] status))
           (Response.error 400 InvalidStatus) ;;
    booking <- orElse (Prisma.bookingFindUnique s id)
                      (Response.error 404 BookingNotFound) ;;
    (* [include: { property }]: the relation is required, reading
       [booking.property.hostId] of a missing one throws *)
    property <- orElse (Prisma.propertyFindUnique s (Booking.propertyId booking))
                       (Response.error 500 ServerError) ;;
    reject (negb (Property.hostId property =? User.id user)
            && negb (UserRole_eqb (User.role user) ADMIN))
           (Response.error 403 NotAuthorizedUpdate) ;;
    '(updatedBooking, s') <- orElse (Prisma.bookingUpdate s id status)
                                    (Response.error 500 ServerError) ;;
    ret (Response.mk 200 (Some (HasBeen status)) None None
           (Some updatedBooking) None,
         s')).

(** ** The system: requests served one after the other *)

Inductive Op : Type :=
| CreateBooking (now : Z) (session : option User.t) (rq : BookingRequest.t)
| CancelBooking (now : Z) (session : option User.t) (id : Z)
| UpdateBookingStatus (session : option User.t) (id : Z) (status : option string)
| AddReview (session : option User.t) (rq : ReviewRequest.t).

Definition handle (op : Op) (s : Store.t) : Response.t * Store.t :=
  match op with
  | CreateBooking now session rq => createBooking now session rq s
  | CancelBooking now session id => cancelBooking now session id s
  | UpdateBookingStatus session id status =>
      updateBookingStatus session id status s
  | AddReview session rq => addReview session rq s
  end.

Definition step (s : Store.t) (op : Op) : Store.t := snd (handle op s).

Definition run (s : Store.t) (ops : list Op) : Store.t := fold_left step ops s.

(** ** Vocabulary of the specification *)

(** A booking that blocks its dates: [status] in {pending, confirmed}. *)
Definition active (b : Booking.t) : Prop :=
  Booking.status b = pending \/ Booking.status b = confirmed.

(** The same as the test of the queries. *)
Definition activeb (b : Booking.t) : bool :=
  includes [pending; confirmed] (Booking.status b).

(** cancelled and completed. *)
Definition terminal (st : string) : Prop := st = cancelled \/ st = completed.

(** The inclusive overlap test on two bookings. *)
Definition overlap (b1 b2 : Booking.t) : Prop :=
  Booking.startDate b1 <= Booking.endDate b2
  /\ Booking.endDate b1 >= Booking.startDate b2.

(** No two distinct rows of one property are both active on overlapping
    dates. *)
Definition NoActiveOverlap (s : Store.t) : Prop :=
  forall b1 b2,
    In b1 (Store.bookings s) -> In b2 (Store.bookings s) ->
    Booking.id b1 <> Booking.id b2 ->
    Booking.propertyId b1 = Booking.propertyId b2 ->
    active b1 -> active b2 -> ~ overlap b1 b2.

(** The primary key of the booking table: ids are pairwise distinct and
    below the auto-increment counter. *)
Definition bookingKeys (s : Store.t) : Prop :=
  NoDup (map Booking.id (Store.bookings s))
  /\ forall b, In b (Store.bookings s) -> Booking.id b < Store.nextBookingId s.

(** The status of the booking [id], if there is one. *)
Definition statusOf (s : Store.t) (id : Z) : option string :=
  option_map Booking.status (Prisma.bookingFindUnique s id).



(** A status update addressed to the booking [id]. *)
Definition updatesStatusOf (id : Z) (op : Op) : bool :=
  match op with
  | UpdateBookingStatus _ id' _ => id' =? id
  | _ => false
  end.

(** The number of days billed, as the specification words it: the ceiling
    of the duration in days, at least 1. *)
Definition billedDays (start end_ : Z) : Z :=
  Z.max 1 ((end_ - start + 86399999) / 86400000).

(** A rating that is a whole number. *)
Definition isInteger (q : Q) : Prop := exists z : Z, q == inject_Z z.


(** ** Outcomes of the handlers *)

(** The conditions under which [createBooking] goes through. *)
Definition canBook (now : Z) (session : option User.t) (rq : BookingRequest.t)
    (s : Store.t) (user : User.t) (p : Property.t)
    (pid sd ed gc : Z) : Prop :=
  session = Some user
  /\ rq = BookingRequest.mk (Some pid) (Some (Js.ValidDate sd))
            (Some (Js.ValidDate ed)) (Some gc)
  /\ pid <> 0 /\ gc <> 0
  /\ Prisma.propertyFindUnique s pid = Some p
  /\ Property.isAvailable p = true
  /\ Property.hostId p <> User.id user
  /\ sd < ed /\ now <= sd
  /\ Prisma.bookingFindMany s pid sd ed = [].

(** The row it inserts. *)
Definition created (s : Store.t) (user : User.t) (p : Property.t)
    (pid sd ed gc : Z) : Booking.t :=
  Booking.mk (Store.nextBookingId s) pid (User.id user) sd ed
    (totalPriceOf p sd ed) gc pending unpaid.

(** A refusal: an error response, and the store as it was. *)
Definition refused (codes : list Z) (out : Response.t * Store.t) (s : Store.t)
  : Prop :=
  exists code msg,
    out = (Response.error code msg, s) /\ In code codes.

(** The bookings that block the dates [sd .. ed] of the property [id]. *)
Definition conflicts (s : Store.t) (id sd ed : Z) (b : Booking.t) : Prop :=
  In b (Store.bookings s)
  /\ Booking.propertyId b = id
  /\ active b
  /\ Booking.startDate b <= ed
  /\ Booking.endDate b >= sd.

(** The requested range starts before the window of the property. *)
Definition beforeWindow (p : Property.t) (sd : Z) : bool :=
  match Property.availableFrom p with
  | Some from => sd <? from
  | None => false
  end.

(** The requested range ends after the window of the property. *)
Definition afterWindow (p : Property.t) (ed : Z) : bool :=
  match Property.availableTo p with
  | Some to => to <? ed
  | None => false
  end.

(** The conditions under which the guest's cancellation goes through. *)
Definition canCancel (now : Z) (b : Booking.t) : Prop :=
  active b /\ now + 24 * 3600000 <= Booking.startDate b.

(** The conditions under which [addReview] goes through. *)
Definition canReview (session : option User.t) (rq : ReviewRequest.t)
    (s : Store.t) (user : User.t) (b : Booking.t) (bid pid : Z) (rating : Q)
  : Prop :=
  session = Some user
  /\ ReviewRequest.bookingId rq = Some bid
  /\ ReviewRequest.propertyId rq = Some pid
  /\ ReviewRequest.rating rq = Some rating
  /\ bid <> 0 /\ pid <> 0
  /\ (1 <= rating /\ rating <= 5)%Q
  /\ Prisma.bookingFindUnique s bid = Some b
  /\ Booking.guestId b = User.id user
  /\ Booking.propertyId b = pid
  /\ Booking.status b = completed
  /\ Prisma.reviewFindUnique s bid = None.

(** The row it inserts. *)
Definition reviewed (s : Store.t) (user : User.t) (rq : ReviewRequest.t)
    (bid pid : Z) (rating : Q) : Review.t :=
  Review.mk (Store.nextReviewId s) pid (User.id user) bid
    (Js.parseInt rating) (ReviewRequest.comment rq).

(** ** A small data set *)

Module Scenario.

Definition host : User.t := User.mk 10 HOST.
Definition guest : User.t := User.mk 20 GUEST.
Definition other : User.t := User.mk 21 GUEST.

(** 2024-01-01, 2024-01-04 and 2023-12-01, midnight UTC. *)
Definition jan1 : Z := 1704067200000.
Definition jan4 : Z := 1704326400000.
Definition dec1 : Z := 1701388800000.
Definition hour : Z := 3600000.
Definition day : Z := 86400000.

(** A flat rented by the day at 100, open from 2024-02-01 on. *)
Definition flat : Property.t :=
  Property.mk 1 10 (100 # 1) (Some DAY) true (Some (jan1 + 31 * day)) None.

(** A house rented by the month at 3000, with no window. *)
Definition house : Property.t :=
  Property.mk 2 10 (3000 # 1) (Some MONTH) true None None.

Definition store0 : Store.t := Store.mk [flat; house] [] [] 1 1.

Definition request (start end_ : Z) : BookingRequest.t :=
  BookingRequest.mk (Some 1) (Some (Js.ValidDate start))
    (Some (Js.ValidDate end_)) (Some 2).

(** Booked, cancelled by the host, booked again by somebody else on
    overlapping dates, then set to confirmed by the host. *)
Definition doubleBooking : list Op :=
  [ CreateBooking dec1 (Some guest) (request jan1 jan4);
    UpdateBookingStatus (Some host) 1 (Some cancelled);
    CreateBooking dec1 (Some other) (request (jan1 + day) (jan4 + day));
    UpdateBookingStatus (Some host) 1 (Some confirmed) ].


(** A stay that the host marked completed. *)
Definition stayed : Store.t :=
  run store0
    [ CreateBooking dec1 (Some guest) (request jan1 jan4);
      UpdateBookingStatus (Some host) 1 (Some completed) ].

(** The house, taken from 2024-01-01 to 2024-01-04. *)
Definition houseTaken : Store.t :=
  run store0
    [ CreateBooking dec1 (Some guest)
        (BookingRequest.mk (Some 2) (Some (Js.ValidDate jan1))
           (Some (Js.ValidDate jan4)) (Some 2)) ].

Definition reviewRequest (rating : Q) : ReviewRequest.t :=
  ReviewRequest.mk (Some 1) (Some 1) (Some rating) None.

End Scenario.

(** * The other routes

    The routes around the booking lifecycle: the listings of bookings, the
    dashboard of the host, the pages and ratings of the public listing,
    the wishlists, the images of a property and its removal, and the
    password rule of [routes/auth.js].

    What is outside the embedding: the files of the images on the disk,
    the columns of the tables that no route modelled here reads, and the
    tables of users, categories and amenities.  The rows of a table are
    kept in the order of their insertion, which is also that of their
    [createdAt]. *)

(** ** More on the bookings *)

(** The conditions under which a status update goes through. *)
Definition canUpdateStatus (session : option User.t) (status : option string)
    (s : Store.t) (id : Z) (user : User.t) (st : string) (b : Booking.t)
    (p : Property.t) : Prop :=
  session = Some user
  /\ (User.role user = HOST \/ User.role user = ADMIN)
  /\ status = Some st
  /\ (st = confirmed \/ st = cancelled \/ st = completed)
  /\ Prisma.bookingFindUnique s id = Some b
  /\ Prisma.propertyFindUnique s (Booking.propertyId b) = Some p
  /\ (Property.hostId p = User.id user \/ User.role user = ADMIN).

(** The session a request comes with. *)
Definition sessionOf (op : Op) : option User.t :=
  match op with
  | CreateBooking _ session _ => session
  | CancelBooking _ session _ => session
  | UpdateBookingStatus session _ _ => session
  | AddReview session _ => session
  end.

(** A requester who is a stranger to the booking: not its guest, not the
    host of its property and not an administrator. *)
Definition stranger (s : Store.t) (b : Booking.t) (u : User.t) : Prop :=
  Booking.guestId b <> User.id u
  /\ User.role u <> ADMIN
  /\ forall p, Prisma.propertyFindUnique s (Booking.propertyId b) = Some p ->
               Property.hostId p <> User.id u.

(** A booking row without its status. *)
Definition eraseStatus (b : Booking.t) : Booking.t :=
  Booking.withStatus EmptyString b.

(** One of the four status values of the schema's comment. *)
Definition knownStatus (b : Booking.t) : Prop :=
  includes [pending; confirmed; cancelled; completed] (Booking.status b) = true.


(** ** Listings and the dashboard *)

(** The optional [status] filter of the two booking listings: it applies
    only when the query value is one of the four status names. *)
Definition statusFilter (status : option string) (b : Booking.t) : bool :=
  match status with
  | Some st =>
      if includes [pending; confirmed; cancelled; completed] st
      then String.eqb (Booking.status b) st
      else true
  | None => true
  end.

(** [orderBy: { createdAt: "desc" }]: the rows are kept in the order of
    their insertion, which is that of [createdAt]. *)
Definition newestFirst {A : Type} (rows : list A) : list A := rev rows.


(** [where: { property: { hostId } }] *)
Definition hostedBy (s : Store.t) (hostId : Z) (b : Booking.t) : bool :=
  match Prisma.propertyFindUnique s (Booking.propertyId b) with
  | Some p => Property.hostId p =? hostId
  | None => false
  end.

(** [GET /bookings] of the host routes. *)
Definition getHostBookings (session : option User.t) (status : option string)
    (s : Store.t) : Handler (list Booking.t) :=
  user <- isHostOrAdmin session ;;
  ret (newestFirst
         (filter (fun b => hostedBy s (User.id user) b && statusFilter status b)
                 (Store.bookings s))).

(** A JavaScript object with numeric values, as the keys it has. *)
Definition Obj : Type := string -> option Z.

Definition objSet (o : Obj) (key : string) (v : Z) : Obj :=
  fun k => if String.eqb k key then Some v else o k.

(** [o[key] += n]; a missing key would give NaN, kept as absent. *)
Definition objAdd (o : Obj) (key : string) (n : Z) : Obj :=
  match o key with
  | Some v => objSet o key (v + n)
  | None => o
  end.

(** One more row in the group of [key]. *)
Fixpoint countIn (key : string) (groups : list (string * Z))
  : list (string * Z) :=
  match groups with
  | [] => [(key, 1)]
  | (k, n) :: groups' =>
      if String.eqb k key then (k, n + 1) :: groups'
      else (k, n) :: countIn key groups'
  end.

(** [prisma.booking.groupBy({ by: ["status"], _count: { id: true } })]:
    one group per status value, with the number of its rows. *)
Definition groupByStatus (rows : list Booking.t) : list (string * Z) :=
  fold_right (fun b groups => countIn (Booking.status b) groups) [] rows.

Module Dashboard.
Record t : Type := mk {
  properties_total : Z;
  bookings : Obj;
  revenue_total : Q;
  recentBookings : list Booking.t
}.
End Dashboard.

(** [GET /dashboard] of the host routes. *)
Definition getDashboard (session : option User.t) (s : Store.t)
  : Handler Dashboard.t :=
  user <- isHostOrAdmin session ;;
  let userId := User.id user in
  let propertiesCount :=
    Z.of_nat (List.length (filter (fun p => Property.hostId p =? userId)
                             (Store.properties s))) in
  let bookingsStats :=
    groupByStatus (filter (hostedBy s userId) (Store.bookings s)) in
  let bookings : Obj :=
    fun k =>
      if includes ["total"%string; pending; confirmed; cancelled; completed] k
      then Some 0 else None in
  let bookings :=
    fold_left (fun o stat => objAdd (objSet o (fst stat) (snd stat))
                               "total" (snd stat))
      bookingsStats bookings in
  let revenue : option Q :=
    match filter (fun b => hostedBy s userId b
                           && includes [confirmed; completed] (Booking.status b))
                 (Store.bookings s) with
    | [] => None
    | rows => Some (fold_right Qplus 0%Q (map Booking.totalPrice rows))
    end in
  let recentBookings :=
    firstn 5 (newestFirst (filter (hostedBy s userId) (Store.bookings s))) in
  ret (Dashboard.mk propertiesCount bookings
         (match revenue with Some total => total | None => 0%Q end)
         recentBookings).

(** The number of rows of a group, 0 when there is no such group. *)
Definition groupCount (groups : list (string * Z)) (key : string) : Z :=
  match find (fun g => String.eqb (fst g) key) groups with
  | Some g => snd g
  | None => 0
  end.

(** The number of rows with a given status. *)
Definition countStatus (key : string) (rows : list Booking.t) : Z :=
  Z.of_nat (List.length
              (filter (fun b => String.eqb (Booking.status b) key) rows)).

(** What a booking brings in: its total price once it is confirmed or
    completed. *)
Definition earning (b : Booking.t) : Q :=
  if includes [confirmed; completed] (Booking.status b)
  then Booking.totalPrice b else 0%Q.

(** The revenue of a host: what the bookings of the properties they host
    bring in. *)
Definition revenueOf (s : Store.t) (hostId : Z) : Q :=
  fold_right Qplus 0%Q
    (map (fun b => if hostedBy s hostId b then earning b else 0%Q)
       (Store.bookings s)).

(** ** The public listing of [routes/guest.js] *)



(** [findMany({ ..., skip, take })] on the rows that match, in the order
    asked for: Prisma refuses a negative [skip] (the call throws), and with
    a negative [take] it counts from the end of the rows. *)
Definition findManyPage {A : Type} (skip take : Z) (rows : list A)
  : option (list A) :=
  if skip <? 0 then None
  else if take <? 0
       then Some (rev (firstn (Z.to_nat (- take))
                         (skipn (Z.to_nat skip) (rev rows))))
       else Some (firstn (Z.to_nat take) (skipn (Z.to_nat skip) rows)).

Module Pagination.
(** [pages] is [None] when [Math.ceil(total / limit)] is not a number of
    the JSON format ([limit] is 0). *)
Record t : Type := mk {
  total : Z;
  page : Z;
  limit : Z;
  pages : option Z
}.
End Pagination.

(** The pagination of [GET /properties]: [page] and [limit] are the
    integers [parseInt] reads from the query, [rows] the properties that
    match the filters of the request, in the order asked for.  The items
    sent are those of [findMany]; the catch block answers 500 when it
    throws. *)
Definition listPage {A : Type} (page limit : Z) (rows : list A)
  : Handler (list A * Pagination.t) :=
  let skip := (page - 1) * limit in
  let take := limit in
  let total := Z.of_nat (List.length rows) in
  properties <- orElse (findManyPage skip take rows)
                       (Response.error 500 ServerError) ;;
  ret (properties,
       Pagination.mk total page limit
         (if limit =? 0 then None
          else Some (Js.ceil (inject_Z total / inject_Z limit)))).

(** ** The password rule of [routes/auth.js] *)

Module Regex.

(** A JavaScript string, as its UTF-16 code units. *)
Definition Str : Type := list N.

(** The constructs the pattern uses: a character class, a class under [*],
    a class under [{n,}], a sequence, a lookahead [(?=...)] and [$]. *)
Inductive t : Type :=
| Class (c : N -> bool)
| Star (c : N -> bool)
| AtLeast (n : nat) (c : N -> bool)
| Seq (a b : t)
| Lookahead (a : t)
| End.

(** Backtracking over [c*]: every number of repetitions is tried. *)
Fixpoint star (c : N -> bool) (k : Str -> bool) (s : Str) : bool :=
  k s
  || match s with
     | x :: s' => c x && star c k s'
     | [] => false
     end.

Fixpoint times (n : nat) (c : N -> bool) (k : Str -> bool) (s : Str) : bool :=
  match n with
  | O => k s
  | S n' =>
      match s with
      | x :: s' => c x && times n' c k s'
      | [] => false
      end
  end.

(** [r] matches a prefix of [s] and [k] accepts what follows. *)
Fixpoint matchK (r : t) (k : Str -> bool) (s : Str) : bool :=
  match r with
  | Class c =>
      match s with
      | x :: s' => c x && k s'
      | [] => false
      end
  | Star c => star c k s
  | AtLeast n c => times n c (star c k) s
  | Seq a b => matchK a (matchK b k) s
  | Lookahead a => matchK a (fun _ => true) s && k s
  | End =>
      match s with
      | [] => k s
      | _ :: _ => false
      end
  end.

(** [regex.test(s)] for a pattern that begins with [^]: a match can only
    start at the beginning of the input. *)
Definition test (r : t) (s : Str) : bool := matchK r (fun _ => true) s.

End Regex.

Definition between (lo hi x : N) : bool := ((lo <=? x) && (x <=? hi))%N.

(** [[a-z]], [[A-Z]], [\d] and [[@$!%*?&]] *)
Definition lowercase : N -> bool := between 97 122.
Definition uppercase : N -> bool := between 65 90.
Definition digit : N -> bool := between 48 57.
Definition special (x : N) : bool :=
  existsb (N.eqb x) [64; 36; 33; 37; 42; 63; 38]%N.

(** [.]: any code unit but the line terminators. *)
Definition dot (x : N) : bool :=
  negb (existsb (N.eqb x) [10; 13; 8232; 8233]%N).

(** [[A-Za-z\d@$!%*?&]] *)
Definition allowed (x : N) : bool :=
  uppercase x || lowercase x || digit x || special x.

(** [/^(?=.*[a-z])(?=.*[A-Z])(?=.*\d)(?=.*[@$!%*?&])[A-Za-z\d@$!%*?&]{8,}$/] *)
Definition passwordRegex : Regex.t :=
  Regex.Seq (Regex.Lookahead (Regex.Seq (Regex.Star dot) (Regex.Class lowercase)))
    (Regex.Seq (Regex.Lookahead (Regex.Seq (Regex.Star dot) (Regex.Class uppercase)))
       (Regex.Seq (Regex.Lookahead (Regex.Seq (Regex.Star dot) (Regex.Class digit)))
          (Regex.Seq (Regex.Lookahead (Regex.Seq (Regex.Star dot) (Regex.Class special)))
             (Regex.Seq (Regex.AtLeast 8 allowed) Regex.End)))).

(** The code units of a text of ASCII characters. *)
Definition codeUnits (s : string) : Regex.Str :=
  map Ascii.N_of_ascii (list_ascii_of_string s).

(** The items of a page of the listing, none when the request fails. *)
Definition itemsOf {A : Type} (out : Handler (list A * Pagination.t))
  : list A :=
  match out with
  | inr (items, _) => items
  | inl _ => []
  end.

(** The direct reading of the password rule. *)
Definition strongPassword (s : Regex.Str) : Prop :=
  (8 <= List.length s)%nat
  /\ Forall (fun x => allowed x = true) s
  /\ Exists (fun x => lowercase x = true) s
  /\ Exists (fun x => uppercase x = true) s
  /\ Exists (fun x => digit x = true) s
  /\ Exists (fun x => special x = true) s.

(** ** Wishlists, images and the removal of a property *)

Module Wishlist.
(** [properties]: the ids of the properties connected to the wishlist. *)
Record t : Type := mk {
  id : Z;
  name : string;
  userId : Z;
  properties : list Z
}.
End Wishlist.

Module Image.
Record t : Type := mk {
  id : Z;
  url : string;
  propertyId : Z;
  isFeatured : bool
}.

Definition withFeatured (f : bool) (i : t) : t :=
  mk (id i) (url i) (propertyId i) f.
End Image.

Module Db.
(** The tables of [Store] with those of the wishlists and of the images. *)
Record t : Type := mk {
  store : Store.t;
  wishlists : list Wishlist.t;
  nextWishlistId : Z;
  images : list Image.t;
  nextImageId : Z
}.

Definition withStore (st : Store.t) (db : t) : t :=
  mk st (wishlists db) (nextWishlistId db) (images db) (nextImageId db).

Definition withWishlists (ws : list Wishlist.t) (db : t) : t :=
  mk (store db) ws (nextWishlistId db) (images db) (nextImageId db).

Definition withImages (imgs : list Image.t) (db : t) : t :=
  mk (store db) (wishlists db) (nextWishlistId db) imgs (nextImageId db).
End Db.

(** The [message] strings of these routes; [Common] is one shared with the
    booking routes. *)
Inductive Note : Type :=
| Common (m : Msg)
| WishlistNameRequired     (* "Wishlist name is required" *)
| WishlistExists           (* "Wishlist with this name already exists" *)
| WishlistCreated          (* "Wishlist created successfully" *)
| WishlistNotFound         (* "Wishlist not found" *)
| WishlistNotYoursToUpdate (* "Not authorized to update this wishlist" *)
| WishlistNotYoursToDelete (* "Not authorized to delete this wishlist" *)
| WishlistUpdated          (* "Wishlist updated successfully" *)
| WishlistDeleted          (* "Wishlist deleted successfully" *)
| PropertyIdRequired       (* "Property ID is required" *)
| AlreadyInWishlist        (* "Property is already in wishlist" *)
| AddedToWishlist          (* "Property added to wishlist successfully" *)
| RemovedFromWishlist      (* "Property removed from wishlist successfully" *)
| PropertyNotYoursToDelete (* "Not authorized to delete this property" *)
| PropertyHasBookings      (* "Cannot delete property with existing bookings" *)
| PropertyDeleted          (* "Property deleted successfully" *)
| PropertyNotYoursToUpdate (* "Not authorized to update this property" *)
| UploadRefused            (* the error of [multer], answered by Express *)
| NoImagesUploaded         (* "No images uploaded" *)
| TooManyImages            (* "Maximum of 20 images allowed per property" *)
| ImagesUploaded           (* "Images uploaded successfully" *)
| ImageNotFound            (* "Image not found" *)
| ImageDeleted             (* "Image deleted successfully" *)
| FeaturedUpdated.         (* "Featured image updated successfully" *)

Module Reply.
(** The HTTP status, the message and the entity sent with it, if any. *)
Record t : Type := mk {
  code : Z;
  note : Note;
  wishlist : option Wishlist.t;
  images : list Image.t
}.

Definition say (code : Z) (n : Note) : t := mk code n None [].
End Reply.

(** Routes that answer with a [Reply]. *)
Definition Route (A : Type) : Type := (Reply.t + A)%type.

Definition bindR {A B : Type} (c : Route A) (k : A -> Route B) : Route B :=
  match c with
  | inl r => inl r
  | inr a => k a
  end.

Declare Scope route_scope.
Delimit Scope route_scope with route.
Notation "x <- c ;; k" := (bindR c (fun x => k))
  (at level 61, c at next level, right associativity) : route_scope.
Notation "c ;; k" := (bindR c (fun _ => k))
  (at level 61, right associativity) : route_scope.

(** The middleware of [routes/auth.js] in front of such a route. *)
Definition guard {A : Type} (h : Handler A) : Route A :=
  match h with
  | inl r =>
      inl (Reply.say (Response.code r)
             (match Response.message r with
              | Some m => Common m
              | None => Common ServerError
              end))
  | inr a => inr a
  end.

(** [if (cond) return res...;] *)
Definition refuseIf (cond : bool) (r : Reply.t) : Route unit :=
  if cond then inl r else inr tt.

(** [if (!x) return res...;] *)
Definition need {A : Type} (x : option A) (r : Reply.t) : Route A :=
  match x with
  | Some a => inr a
  | None => inl r
  end.

(** An early return leaves the tables as they were. *)
Definition reply (db : Db.t) (h : Route (Reply.t * Db.t)) : Reply.t * Db.t :=
  match h with
  | inl r => (r, db)
  | inr x => x
  end.

(** [!name] for a string field: absent or empty. *)
Definition present (x : option string) : option string :=
  match x with
  | Some EmptyString => None
  | other => other
  end.

Module PrismaW.

(** [prisma.wishlist.findUnique({ where: { id } })] *)
Definition findUnique (db : Db.t) (id : Z) : option Wishlist.t :=
  find (fun w => Wishlist.id w =? id) (Db.wishlists db).

(** [prisma.wishlist.findUnique({ where: { userId_name: { userId, name } } })] *)
Definition findByName (db : Db.t) (userId : Z) (name : string)
  : option Wishlist.t :=
  find (fun w => (Wishlist.userId w =? userId)
                 && String.eqb (Wishlist.name w) name)
       (Db.wishlists db).

(** The row of the primary key [id] is replaced by [f] of it. *)
Fixpoint change (id : Z) (f : Wishlist.t -> Wishlist.t) (l : list Wishlist.t)
  : list Wishlist.t :=
  match l with
  | [] => []
  | w :: l' =>
      if Wishlist.id w =? id then f w :: l' else w :: change id f l'
  end.

(** [prisma.wishlist.delete({ where: { id } })] *)
Fixpoint remove (id : Z) (l : list Wishlist.t) : list Wishlist.t :=
  match l with
  | [] => []
  | w :: l' => if Wishlist.id w =? id then l' else w :: remove id l'
  end.

Definition rename (name : string) (w : Wishlist.t) : Wishlist.t :=
  Wishlist.mk (Wishlist.id w) name (Wishlist.userId w) (Wishlist.properties w).

(** [properties: { connect: { id } }] *)
Definition connect (propertyId : Z) (w : Wishlist.t) : Wishlist.t :=
  Wishlist.mk (Wishlist.id w) (Wishlist.name w) (Wishlist.userId w)
    (Wishlist.properties w ++ [propertyId]).

(** [properties: { disconnect: { id } }]; nothing happens when the property
    is not connected. *)
Definition disconnect (propertyId : Z) (w : Wishlist.t) : Wishlist.t :=
  Wishlist.mk (Wishlist.id w) (Wishlist.name w) (Wishlist.userId w)
    (filter (fun p => negb (p =? propertyId)) (Wishlist.properties w)).

End PrismaW.

Local Open Scope route_scope.

(** [GET /wishlists] *)
Definition getWishlists (session : option User.t) (db : Db.t)
  : Route (list Wishlist.t) :=
  user <- guard (isAuthenticated session) ;;
  inr (filter (fun w => Wishlist.userId w =? User.id user) (Db.wishlists db)).

(** [POST /wishlists] *)
Definition createWishlist (session : option User.t) (name : option string)
    (db : Db.t) : Reply.t * Db.t :=
  reply db (
    user <- guard (isAuthenticated session) ;;
    name <- need (present name) (Reply.say 400 WishlistNameRequired) ;;
    refuseIf (match PrismaW.findByName db (User.id user) name with
              | Some existingWishlist => true
              | None => false
              end)
             (Reply.say 409 WishlistExists) ;;
    let wishlist := Wishlist.mk (Db.nextWishlistId db) name (User.id user) [] in
    inr (Reply.mk 201 WishlistCreated (Some wishlist) [],
         Db.mk (Db.store db) (Db.wishlists db ++ [wishlist])
           (Db.nextWishlistId db + 1) (Db.images db) (Db.nextImageId db))).

(** [PUT /wishlists/:id] *)
Definition renameWishlist (session : option User.t) (id : Z)
    (name : option string) (db : Db.t) : Reply.t * Db.t :=
  reply db (
    user <- guard (isAuthenticated session) ;;
    name <- need (present name) (Reply.say 400 WishlistNameRequired) ;;
    wishlist <- need (PrismaW.findUnique db id)
                     (Reply.say 404 WishlistNotFound) ;;
    refuseIf (negb (Wishlist.userId wishlist =? User.id user))
             (Reply.say 403 WishlistNotYoursToUpdate) ;;
    refuseIf (negb (String.eqb name (Wishlist.name wishlist))
              && match PrismaW.findByName db (User.id user) name with
                 | Some existingWishlist => true
                 | None => false
                 end)
             (Reply.say 409 WishlistExists) ;;
    inr (Reply.mk 200 WishlistUpdated
           (Some (PrismaW.rename name wishlist)) [],
         Db.withWishlists
           (PrismaW.change id (PrismaW.rename name) (Db.wishlists db)) db)).

(** [DELETE /wishlists/:id] *)
Definition deleteWishlist (session : option User.t) (id : Z) (db : Db.t)
  : Reply.t * Db.t :=
  reply db (
    user <- guard (isAuthenticated session) ;;
    wishlist <- need (PrismaW.findUnique db id)
                     (Reply.say 404 WishlistNotFound) ;;
    refuseIf (negb (Wishlist.userId wishlist =? User.id user))
             (Reply.say 403 WishlistNotYoursToDelete) ;;
    inr (Reply.say 200 WishlistDeleted,
         Db.withWishlists (PrismaW.remove id (Db.wishlists db)) db)).

(** [POST /wishlists/:id/properties] *)
Definition addToWishlist (session : option User.t) (id : Z)
    (propertyId : option Z) (db : Db.t) : Reply.t * Db.t :=
  reply db (
    user <- guard (isAuthenticated session) ;;
    refuseIf (Js.falsy propertyId) (Reply.say 400 PropertyIdRequired) ;;
    propertyId <- need propertyId (Reply.say 400 PropertyIdRequired) ;;
    wishlist <- need (PrismaW.findUnique db id)
                     (Reply.say 404 WishlistNotFound) ;;
    refuseIf (negb (Wishlist.userId wishlist =? User.id user))
             (Reply.say 403 WishlistNotYoursToUpdate) ;;
    property <- need (Prisma.propertyFindUnique (Db.store db) propertyId)
                     (Reply.say 404 (Common PropertyNotFound)) ;;
    refuseIf (existsb (Z.eqb propertyId) (Wishlist.properties wishlist))
             (Reply.say 400 AlreadyInWishlist) ;;
    inr (Reply.say 200 AddedToWishlist,
         Db.withWishlists
           (PrismaW.change id (PrismaW.connect propertyId) (Db.wishlists db))
           db)).

(** [DELETE /wishlists/:id/properties/:propertyId] *)
Definition removeFromWishlist (session : option User.t) (id propertyId : Z)
    (db : Db.t) : Reply.t * Db.t :=
  reply db (
    user <- guard (isAuthenticated session) ;;
    wishlist <- need (PrismaW.findUnique db id)
                     (Reply.say 404 WishlistNotFound) ;;
    refuseIf (negb (Wishlist.userId wishlist =? User.id user))
             (Reply.say 403 WishlistNotYoursToUpdate) ;;
    inr (Reply.say 200 RemovedFromWishlist,
         Db.withWishlists
           (PrismaW.change id (PrismaW.disconnect propertyId)
              (Db.wishlists db))
           db)).

Module PrismaI.

(** [prisma.propertyImage.count({ where: { propertyId } })] *)
Definition count (db : Db.t) (propertyId : Z) : Z :=
  Z.of_nat (List.length
              (filter (fun i => Image.propertyId i =? propertyId)
                      (Db.images db))).

(** [prisma.propertyImage.updateMany({ where: { propertyId, isFeatured: true },
    data: { isFeatured: false } })] *)
Definition unsetFeatured (propertyId : Z) (l : list Image.t) : list Image.t :=
  map (fun i => if (Image.propertyId i =? propertyId) && Image.isFeatured i
                then Image.withFeatured false i else i) l.

(** The rows created for the uploaded files, in the order of the files:
    only the first one can be featured. *)
Fixpoint create (next propertyId : Z) (featured : bool) (files : list string)
  : list Image.t :=
  match files with
  | [] => []
  | filename :: files' =>
      Image.mk next ("/uploads/properties/" ++ filename) propertyId featured
      :: create (next + 1) propertyId false files'
  end.

(** [prisma.propertyImage.findUnique({ where: { id } })] *)
Definition findUnique (l : list Image.t) (id : Z) : option Image.t :=
  find (fun i => Image.id i =? id) l.

(** [prisma.propertyImage.findUnique({ where: { id, propertyId } })] *)
Definition findUniqueOf (l : list Image.t) (id propertyId : Z)
  : option Image.t :=
  find (fun i => (Image.id i =? id) && (Image.propertyId i =? propertyId)) l.

(** [prisma.propertyImage.findFirst({ where: { propertyId } })] *)
Definition findFirst (l : list Image.t) (propertyId : Z) : option Image.t :=
  find (fun i => Image.propertyId i =? propertyId) l.

(** [prisma.propertyImage.delete({ where: { id } })] *)
Fixpoint remove (id : Z) (l : list Image.t) : list Image.t :=
  match l with
  | [] => []
  | i :: l' => if Image.id i =? id then l' else i :: remove id l'
  end.

(** [prisma.propertyImage.update({ where: { id }, data: { isFeatured: true } })] *)
Fixpoint setFeatured (id : Z) (l : list Image.t) : list Image.t :=
  match l with
  | [] => []
  | i :: l' =>
      if Image.id i =? id then Image.withFeatured true i :: l'
      else i :: setFeatured id l'
  end.

(** [prisma.propertyImage.deleteMany({ where: { propertyId } })] *)
Definition removeOf (propertyId : Z) (l : list Image.t) : list Image.t :=
  filter (fun i => negb (Image.propertyId i =? propertyId)) l.

End PrismaI.

(** The check shared by the host routes on one property: it exists, and
    the requester hosts it or is an administrator. *)
Definition ownProperty (user : User.t) (db : Db.t) (id : Z) (denied : Note)
  : Route Property.t :=
  property <- need (Prisma.propertyFindUnique (Db.store db) id)
                   (Reply.say 404 (Common PropertyNotFound)) ;;
  refuseIf (negb (Property.hostId property =? User.id user)
            && negb (UserRole_eqb (User.role user) ADMIN))
           (Reply.say 403 denied) ;;
  inr property.

(** [POST /properties/:id/images]; [files] are the names [multer] gave to
    the uploaded files, all of them images within the size limit, and
    [isFeatured] is the field of the form.  [upload.array("images", 10)]
    comes after the two checks of the session: with more than 10 files it
    hands an error to Express, which answers 500, and the route is not
    entered. *)
Definition uploadImages (session : option User.t) (id : Z)
    (isFeatured : option string) (files : list string) (db : Db.t)
  : Reply.t * Db.t :=
  reply db (
    user <- guard (isHostOrAdmin session) ;;
    refuseIf (10 <? Z.of_nat (List.length files))
             (Reply.say 500 UploadRefused) ;;
    property <- ownProperty user db id PropertyNotYoursToUpdate ;;
    refuseIf (Nat.eqb (List.length files) 0)
             (Reply.say 400 NoImagesUploaded) ;;
    let currentImagesCount := PrismaI.count db id in
    refuseIf (20 <? currentImagesCount + Z.of_nat (List.length files))
             (Reply.say 400 TooManyImages) ;;
    let shouldSetFeatured :=
      match isFeatured with
      | Some v => String.eqb v "true"
      | None => false
      end in
    let shouldSetFeatured :=
      if currentImagesCount =? 0 then true else shouldSetFeatured in
    let kept :=
      if shouldSetFeatured then PrismaI.unsetFeatured id (Db.images db)
      else Db.images db in
    let images :=
      PrismaI.create (Db.nextImageId db) id shouldSetFeatured files in
    inr (Reply.mk 201 ImagesUploaded None images,
         Db.mk (Db.store db) (Db.wishlists db) (Db.nextWishlistId db)
           (kept ++ images)
           (Db.nextImageId db + Z.of_nat (List.length files)))).

(** [DELETE /properties/:propertyId/images/:imageId] *)
Definition deleteImage (session : option User.t) (propertyId imageId : Z)
    (db : Db.t) : Reply.t * Db.t :=
  reply db (
    user <- guard (isHostOrAdmin session) ;;
    property <- ownProperty user db propertyId PropertyNotYoursToUpdate ;;
    image <- need (PrismaI.findUnique (Db.images db) imageId)
                  (Reply.say 404 ImageNotFound) ;;
    let left := PrismaI.remove imageId (Db.images db) in
    let left :=
      if Image.isFeatured image then
        match PrismaI.findFirst left propertyId with
        | Some anotherImage => PrismaI.setFeatured (Image.id anotherImage) left
        | None => left
        end
      else left in
    inr (Reply.say 200 ImageDeleted, Db.withImages left db)).

(** [PUT /properties/:propertyId/images/:imageId/featured] *)
Definition setFeaturedImage (session : option User.t) (propertyId imageId : Z)
    (db : Db.t) : Reply.t * Db.t :=
  reply db (
    user <- guard (isHostOrAdmin session) ;;
    property <- ownProperty user db propertyId PropertyNotYoursToUpdate ;;
    image <- need (PrismaI.findUniqueOf (Db.images db) imageId propertyId)
                  (Reply.say 404 ImageNotFound) ;;
    inr (Reply.say 200 FeaturedUpdated,
         Db.withImages
           (PrismaI.setFeatured imageId
              (PrismaI.unsetFeatured propertyId (Db.images db)))
           db)).

(** [prisma.property.delete({ where: { id } })] on the table. *)
Fixpoint removeProperty (id : Z) (l : list Property.t) : list Property.t :=
  match l with
  | [] => []
  | p :: l' => if Property.id p =? id then l' else p :: removeProperty id l'
  end.

(** [DELETE /properties/:id].  The files of the images are removed from the
    disk before the transaction; the transaction deletes the image rows and
    the property, which the reviews of the property forbid (the call throws
    and nothing is deleted) and which takes the property out of every
    wishlist. *)
Definition deleteProperty (session : option User.t) (id : Z) (db : Db.t)
  : Reply.t * Db.t :=
  reply db (
    user <- guard (isHostOrAdmin session) ;;
    existingProperty <- ownProperty user db id PropertyNotYoursToDelete ;;
    let bookingsCount :=
      List.length (filter (fun b => Booking.propertyId b =? id)
                     (Store.bookings (Db.store db))) in
    refuseIf (0 <? bookingsCount)%nat (Reply.say 400 PropertyHasBookings) ;;
    refuseIf (existsb (fun r => Review.propertyId r =? id)
                (Store.reviews (Db.store db)))
             (Reply.say 500 (Common ServerError)) ;;
    let s := Db.store db in
    inr (Reply.say 200 PropertyDeleted,
         Db.mk
           (Store.mk (removeProperty id (Store.properties s))
              (Store.bookings s) (Store.reviews s) (Store.nextBookingId s)
              (Store.nextReviewId s))
           (map (PrismaW.disconnect id) (Db.wishlists db))
           (Db.nextWishlistId db)
           (PrismaI.removeOf id (Db.images db))
           (Db.nextImageId db))).

(** ** All the requests modelled, served one after the other *)

Inductive Request : Type :=
| OnBookings (op : Op)
| CreateWishlist (session : option User.t) (name : option string)
| RenameWishlist (session : option User.t) (id : Z) (name : option string)
| DeleteWishlist (session : option User.t) (id : Z)
| AddToWishlist (session : option User.t) (id : Z) (propertyId : option Z)
| RemoveFromWishlist (session : option User.t) (id propertyId : Z)
| UploadImages (session : option User.t) (id : Z) (isFeatured : option string)
    (files : list string)
| DeleteImage (session : option User.t) (propertyId imageId : Z)
| SetFeaturedImage (session : option User.t) (propertyId imageId : Z)
| DeleteProperty (session : option User.t) (id : Z).

Definition serve (db : Db.t) (rq : Request) : Db.t :=
  match rq with
  | OnBookings op => Db.withStore (step (Db.store db) op) db
  | CreateWishlist session name => snd (createWishlist session name db)
  | RenameWishlist session id name => snd (renameWishlist session id name db)
  | DeleteWishlist session id => snd (deleteWishlist session id db)
  | AddToWishlist session id propertyId =>
      snd (addToWishlist session id propertyId db)
  | RemoveFromWishlist session id propertyId =>
      snd (removeFromWishlist session id propertyId db)
  | UploadImages session id isFeatured files =>
      snd (uploadImages session id isFeatured files db)
  | DeleteImage session propertyId imageId =>
      snd (deleteImage session propertyId imageId db)
  | SetFeaturedImage session propertyId imageId =>
      snd (setFeaturedImage session propertyId imageId db)
  | DeleteProperty session id => snd (deleteProperty session id db)
  end.

Definition serveAll (db : Db.t) (rqs : list Request) : Db.t :=
  fold_left serve rqs db.

Local Close Scope route_scope.

(** The key of the constraint [@@unique([userId, name])]. *)
Definition wishlistKey (w : Wishlist.t) : Z * string :=
  (Wishlist.userId w, Wishlist.name w).

Definition uniqueNames (db : Db.t) : Prop :=
  NoDup (map wishlistKey (Db.wishlists db)).

(** The session of a request on the wishlists. *)
Definition wishlistSession (rq : Request) : option (option User.t) :=
  match rq with
  | CreateWishlist session _ => Some session
  | RenameWishlist session _ _ => Some session
  | DeleteWishlist session _ => Some session
  | AddToWishlist session _ _ => Some session
  | RemoveFromWishlist session _ _ => Some session
  | _ => None
  end.

(** What serving one request does to the tables: nothing, or the one
    change of the route, under the checks the route made. *)
Inductive Served (db : Db.t) : Request -> Db.t -> Prop :=
| ServedUnchanged rq : Served db rq db
| ServedBookings op :
    Served db (OnBookings op) (Db.withStore (step (Db.store db) op) db)
| ServedCreateWishlist user name :
    name <> EmptyString ->
    PrismaW.findByName db (User.id user) name = None ->
    Served db (CreateWishlist (Some user) (Some name))
      (Db.mk (Db.store db)
         (Db.wishlists db
          ++ [Wishlist.mk (Db.nextWishlistId db) name (User.id user) []])
         (Db.nextWishlistId db + 1) (Db.images db) (Db.nextImageId db))
| ServedRenameWishlist user id name w :
    PrismaW.findUnique db id = Some w ->
    Wishlist.userId w = User.id user ->
    name = Wishlist.name w
    \/ PrismaW.findByName db (User.id user) name = None ->
    Served db (RenameWishlist (Some user) id (Some name))
      (Db.withWishlists
         (PrismaW.change id (PrismaW.rename name) (Db.wishlists db)) db)
| ServedDeleteWishlist user id w :
    PrismaW.findUnique db id = Some w ->
    Wishlist.userId w = User.id user ->
    Served db (DeleteWishlist (Some user) id)
      (Db.withWishlists (PrismaW.remove id (Db.wishlists db)) db)
| ServedAddToWishlist user id propertyId w p :
    PrismaW.findUnique db id = Some w ->
    Wishlist.userId w = User.id user ->
    Prisma.propertyFindUnique (Db.store db) propertyId = Some p ->
    ~ In propertyId (Wishlist.properties w) ->
    Served db (AddToWishlist (Some user) id (Some propertyId))
      (Db.withWishlists
         (PrismaW.change id (PrismaW.connect propertyId) (Db.wishlists db)) db)
| ServedRemoveFromWishlist user id propertyId w :
    PrismaW.findUnique db id = Some w ->
    Wishlist.userId w = User.id user ->
    Served db (RemoveFromWishlist (Some user) id propertyId)
      (Db.withWishlists
         (PrismaW.change id (PrismaW.disconnect propertyId) (Db.wishlists db))
         db)
| ServedUploadImages session id isFeatured files p featured :
    Prisma.propertyFindUnique (Db.store db) id = Some p ->
    files <> [] ->
    PrismaI.count db id + Z.of_nat (List.length files) <= 20 ->
    (PrismaI.count db id = 0 -> featured = true) ->
    Served db (UploadImages session id isFeatured files)
      (Db.mk (Db.store db) (Db.wishlists db) (Db.nextWishlistId db)
         ((if featured then PrismaI.unsetFeatured id (Db.images db)
           else Db.images db)
          ++ PrismaI.create (Db.nextImageId db) id featured files)
         (Db.nextImageId db + Z.of_nat (List.length files)))
| ServedDeleteImage session propertyId imageId p image :
    Prisma.propertyFindUnique (Db.store db) propertyId = Some p ->
    PrismaI.findUnique (Db.images db) imageId = Some image ->
    Served db (DeleteImage session propertyId imageId)
      (Db.withImages
         (let left := PrismaI.remove imageId (Db.images db) in
          if Image.isFeatured image then
            match PrismaI.findFirst left propertyId with
            | Some anotherImage =>
                PrismaI.setFeatured (Image.id anotherImage) left
            | None => left
            end
          else left)
         db)
| ServedSetFeaturedImage session propertyId imageId p image :
    Prisma.propertyFindUnique (Db.store db) propertyId = Some p ->
    PrismaI.findUniqueOf (Db.images db) imageId propertyId = Some image ->
    Served db (SetFeaturedImage session propertyId imageId)
      (Db.withImages
         (PrismaI.setFeatured imageId
            (PrismaI.unsetFeatured propertyId (Db.images db)))
         db)
| ServedDeleteProperty session id p :
    Prisma.propertyFindUnique (Db.store db) id = Some p ->
    (forall b, In b (Store.bookings (Db.store db)) ->
               Booking.propertyId b <> id) ->
    (forall r, In r (Store.reviews (Db.store db)) ->
               Review.propertyId r <> id) ->
    Served db (DeleteProperty session id)
      (Db.mk
         (Store.mk (removeProperty id (Store.properties (Db.store db)))
            (Store.bookings (Db.store db)) (Store.reviews (Db.store db))
            (Store.nextBookingId (Db.store db))
            (Store.nextReviewId (Db.store db)))
         (map (PrismaW.disconnect id) (Db.wishlists db))
         (Db.nextWishlistId db)
         (PrismaI.removeOf id (Db.images db))
         (Db.nextImageId db)).

(** There is a property with this id. *)
Definition propertyExists (db : Db.t) (propertyId : Z) : Prop :=
  exists p, Prisma.propertyFindUnique (Db.store db) propertyId = Some p.

(** Every booking, review, wishlist entry and image names a property that
    exists. *)
Definition integrity (db : Db.t) : Prop :=
  (forall b, In b (Store.bookings (Db.store db)) ->
             propertyExists db (Booking.propertyId b))
  /\ (forall r, In r (Store.reviews (Db.store db)) ->
                propertyExists db (Review.propertyId r))
  /\ (forall w pid, In w (Db.wishlists db) ->
                    In pid (Wishlist.properties w) -> propertyExists db pid)
  /\ (forall i, In i (Db.images db) ->
                propertyExists db (Image.propertyId i)).

(** ** Images *)

(** The number of images of a property, and of its featured images. *)
Definition imagesOf (propertyId : Z) (l : list Image.t) : nat :=
  List.length (filter (fun i => Image.propertyId i =? propertyId) l).

Definition featuredOf (propertyId : Z) (l : list Image.t) : nat :=
  List.length
    (filter (fun i => (Image.propertyId i =? propertyId) && Image.isFeatured i)
       l).

(** The primary key of the image table. *)
Definition imageKeys (db : Db.t) : Prop :=
  NoDup (map Image.id (Db.images db))
  /\ forall i, In i (Db.images db) -> Image.id i < Db.nextImageId db.

(** At most 20 images per property. *)
Definition withinLimit (db : Db.t) : Prop :=
  forall pid, (imagesOf pid (Db.images db) <= 20)%nat.

(** A property with images has exactly one featured image. *)
Definition oneFeatured (db : Db.t) : Prop :=
  forall pid,
    featuredOf pid (Db.images db)
    = match imagesOf pid (Db.images db) with O => O | S _ => 1%nat end.

(** A request to delete an image that names the property of the image. *)
Definition wellAddressed (db : Db.t) (rq : Request) : bool :=
  match rq with
  | DeleteImage _ propertyId imageId =>
      match PrismaI.findUnique (Db.images db) imageId with
      | Some image => Image.propertyId image =? propertyId
      | None => true
      end
  | _ => true
  end.

Fixpoint allWellAddressed (db : Db.t) (rqs : list Request) : bool :=
  match rqs with
  | [] => true
  | rq :: rqs' => wellAddressed db rq && allWellAddressed (serve db rq) rqs'
  end.

(** ** More data *)

Module Cases.

(** A host who has no property. *)
Definition otherHost : User.t := User.mk 11 HOST.

(** The flat of [Scenario], booked by the guest from 2024-01-01 to
    2024-01-04. *)
Definition stay : Booking.t :=
  Booking.mk 1 1 20 Scenario.jan1 Scenario.jan4 (300 # 1) 2 pending unpaid.

Definition booked : Store.t :=
  Store.mk [Scenario.flat; Scenario.house] [stay] [] 2 1.


(** The tables with no wishlist and no image. *)
Definition db0 : Db.t := Db.mk Scenario.store0 [] 1 [] 1.

(** The guest has one wishlist. *)
Definition summer : Wishlist.t := Wishlist.mk 1 "Summer" 20 [].

Definition listed : Db.t := Db.mk Scenario.store0 [summer] 2 [] 1.

(** The guest asks twice for a wishlist "Summer", then for "Winter", and
    tries to rename the second one to "Summer". *)
Definition wishes : list Request :=
  [ CreateWishlist (Some Scenario.guest) (Some "Summer"%string);
    CreateWishlist (Some Scenario.guest) (Some "Summer"%string);
    CreateWishlist (Some Scenario.guest) (Some "Winter"%string);
    RenameWishlist (Some Scenario.guest) 2 (Some "Summer"%string) ].

(** The flat has one image, the house has none. *)
Definition photo : Image.t :=
  Image.mk 1 "/uploads/properties/a.png" 1 true.

Definition gallery : Db.t := Db.mk Scenario.store0 [] 1 [photo] 2.

(** Two images for the flat, the second one made the featured one, then
    deleted. *)
Definition uploads : list Request :=
  [ UploadImages (Some Scenario.host) 1 None
      ["a.png"%string; "b.png"%string];
    SetFeaturedImage (Some Scenario.host) 1 2;
    DeleteImage (Some Scenario.host) 1 2 ].

(** The guest puts the house on a wishlist, the host adds an image to it
    and then deletes the house. *)
Definition houseRemoved : list Request :=
  [ AddToWishlist (Some Scenario.guest) 1 (Some 2);
    UploadImages (Some Scenario.host) 2 None ["h.png"%string];
    DeleteProperty (Some Scenario.host) 2 ].

End Cases.

(** * Properties *)

(** ** Auxiliary facts *)

Lemma falsy_false x : Js.falsy x = false -> exists z, x = Some z /\ z <> 0.
Proof.
  destruct x as [z|]; cbn; [|discriminate].
  destruct z; try discriminate; intros _; eexists; split; eauto; lia.
Qed.

Ltac refuse := right; eexists _, _; split; [reflexivity | cbn; tauto].

Lemma refused_code codes out s :
  refused codes out s -> In (Response.code (fst out)) codes.
Proof. intros (c & m & -> & H). exact H. Qed.

Lemma refused_snd codes out s : refused codes out s -> snd out = s.
Proof. intros (c & m & -> & _). reflexivity. Qed.

Lemma Qltb_false a b : Js.Qltb a b = false <-> (b <= a)%Q.
Proof.
  unfold Js.Qltb. rewrite negb_false_iff. apply Qle_bool_iff.
Qed.

Lemma find_append {A : Type} (f : A -> bool) (l l' : list A) :
  find f (l ++ l') =
  match find f l with
  | Some x => Some x
  | None => find f l'
  end.
Proof.
  induction l as [|a l IH]; cbn; [reflexivity|].
  destruct (f a); [reflexivity|exact IH].
Qed.

Lemma includes_active b : activeb b = true <-> active b.
Proof.
  unfold activeb, active, includes. cbn [existsb].
  rewrite !orb_true_iff, !String.eqb_eq. intuition discriminate.
Qed.

Lemma overlapWhere_iff id sd ed b :
  Prisma.overlapWhere id sd ed b = true <->
  Booking.propertyId b = id /\ active b
  /\ Booking.startDate b <= ed /\ Booking.endDate b >= sd.
Proof.
  unfold Prisma.overlapWhere.
  rewrite !andb_true_iff, Z.eqb_eq, Z.leb_le, Z.geb_le.
  fold (activeb b). rewrite includes_active. intuition lia.
Qed.

Lemma bookingFindMany_In s id sd ed b :
  In b (Prisma.bookingFindMany s id sd ed) <-> conflicts s id sd ed b.
Proof.
  unfold Prisma.bookingFindMany, conflicts.
  rewrite filter_In, overlapWhere_iff. tauto.
Qed.

Lemma bookingFindMany_nil s id sd ed :
  Prisma.bookingFindMany s id sd ed = [] <->
  ~ exists b, conflicts s id sd ed b.
Proof.
  split.
  - intros E (b & Hb). apply bookingFindMany_In in Hb. rewrite E in Hb.
    exact Hb.
  - intros N. destruct (Prisma.bookingFindMany s id sd ed) as [|b l] eqn:E;
      [reflexivity|].
    exfalso. apply N. exists b. apply bookingFindMany_In. rewrite E.
    now left.
Qed.

(** ** The price of a booking *)

Lemma ceil_days d : 0 < d ->
  Js.ceil (inject_Z d / inject_Z (1000 * 60 * 60 * 24)) = (d + 86399999) / 86400000.
Proof.
  intros Hd. unfold Js.ceil, Qceiling, Qfloor, Qdiv, Qmult, Qinv, Qopp, inject_Z.
  cbn. rewrite Z.mul_1_r.
  Z.to_euclidean_division_equations. lia.
Qed.

Lemma billedDays_spec sd ed : sd < ed ->
  (let days := Js.ceil (inject_Z (Js.abs (ed - sd)) / inject_Z (1000 * 60 * 60 * 24)) in
   if days =? 0 then 1 else days) = billedDays sd ed.
Proof.
  intros H. unfold Js.abs. rewrite Z.abs_eq by lia.
  cbv zeta. rewrite ceil_days by lia. unfold billedDays.
  destruct (Z.eqb_spec ((ed - sd + 86399999) / 86400000) 0) as [E|E];
    Z.to_euclidean_division_equations; lia.
Qed.

Lemma totalPriceOf_spec p sd ed : sd < ed ->
  totalPriceOf p sd ed =
    match Property.rentalPeriod p with
    | Some DAY => Property.price p * inject_Z (billedDays sd ed)
    | Some MONTH => Property.price p * (inject_Z (billedDays sd ed) / inject_Z 30)
    | Some YEAR => Property.price p * (inject_Z (billedDays sd ed) / inject_Z 365)
    | None => Property.price p
    end%Q.
Proof.
  intros H. unfold totalPriceOf. cbv zeta.
  pose proof (billedDays_spec sd ed H) as E. cbv zeta in E. rewrite E.
  reflexivity.
Qed.

(** ** Booking creation *)

Lemma createBooking_accepts now session rq s user p pid sd ed gc :
  canBook now session rq s user p pid sd ed gc ->
  createBooking now session rq s =
    (Response.mk 201 (Some BookingCreated) None None
       (Some (created s user p pid sd ed gc)) None,
     Store.mk (Store.properties s)
       (Store.bookings s ++ [created s user p pid sd ed gc])
       (Store.reviews s) (Store.nextBookingId s + 1) (Store.nextReviewId s)).
Proof.
  intros (-> & -> & Hpid & Hgc & Hp & Hav & Hhost & Hlt & Hnow & Hfree).
  unfold createBooking, isAuthenticated. cbn.
  destruct pid; try lia; destruct gc; try lia; cbn; rewrite Hp; cbn;
    rewrite Hav; cbn;
    (destruct (Z.eqb_spec (Property.hostId p) (User.id user)); [contradiction|]);
    (destruct (Z.leb_spec ed sd); [lia|]);
    (destruct (Z.ltb_spec sd now); [lia|]);
    cbn; rewrite Hfree; reflexivity.
Qed.

(** [createBooking] either goes through, under [canBook], or refuses. *)
Lemma createBooking_cases now session rq s :
  (exists user p pid sd ed gc, canBook now session rq s user p pid sd ed gc)
  \/ refused [400; 401; 404; 500] (createBooking now session rq s) s.
Proof.
  unfold createBooking, isAuthenticated, refused.
  destruct session as [user|]; cbn [orElse bind]; [|refuse].
  destruct rq as [pid sd ed gc]; cbn [BookingRequest.propertyId
    BookingRequest.startDate BookingRequest.endDate BookingRequest.guestCount].
  destruct (Js.falsy pid) eqn:Hpid; cbn [orb reject bind]; [refuse|].
  apply falsy_false in Hpid as (pid' & -> & Hpid).
  destruct sd as [sd|]; cbn [orb reject bind orElse]; [|refuse].
  destruct ed as [ed|]; cbn [orb reject bind orElse]; [|refuse].
  destruct (Js.falsy gc) eqn:Hgc; cbn [orb reject bind]; [refuse|].
  apply falsy_false in Hgc as (gc' & -> & Hgc). cbn [orElse bind].
  destruct (Prisma.propertyFindUnique s pid') as [p|] eqn:Hp;
    cbn [orElse bind]; [|refuse].
  destruct (Property.isAvailable p) eqn:Hav; cbn [negb reject bind]; [|refuse].
  destruct (Z.eqb_spec (Property.hostId p) (User.id user));
    cbn [reject bind]; [refuse|].
  destruct sd as [sd|], ed as [ed|];
    cbn [Js.valueOf Js.ge Js.lt reject bind queryDate orElse];
    try (destruct (Z.leb_spec ed sd); cbn [reject bind]; [refuse|]);
    try (destruct (Z.ltb_spec sd now); cbn [reject bind]; [refuse|]);
    try refuse.
  destruct (Prisma.bookingFindMany s pid' sd ed) eqn:Hfree;
    cbn [List.length Nat.ltb Nat.leb reject bind]; [|refuse].
  left. exists user, p, pid', sd, ed, gc'. unfold canBook. tauto.
Qed.




(** C8.  A [createBooking] whose start date lies before the time of the
    call is refused and creates nothing, whatever the other fields are. *)
Theorem createBooking_past_start now session rq s sd :
  BookingRequest.startDate rq = Some (Js.ValidDate sd) ->
  sd < now ->
  Response.code (fst (createBooking now session rq s)) <> 201
  /\ Response.booking (fst (createBooking now session rq s)) = None
  /\ snd (createBooking now session rq s) = s.
Proof.
  intros Hsd Hpast.
  destruct (createBooking_cases now session rq s)
    as [(user & p & pid & sd' & ed & gc & Hcan)|(c & m & -> & Hc)].
  - destruct Hcan as (_ & -> & _ & _ & _ & _ & _ & _ & Hnow & _).
    cbn in Hsd. injection Hsd as ->. lia.
  - cbn in *. repeat split; auto. intros ->.
    repeat destruct Hc as [Hc|Hc]; try discriminate Hc; contradiction.
Qed.

(** The day before the call, with every other field in order. *)
Lemma createBooking_past_start_witness :
  Response.code
    (fst (createBooking Scenario.jan4 (Some Scenario.guest)
            (Scenario.request Scenario.jan1 Scenario.jan4) Scenario.store0))
  <> 201
  /\ snd (createBooking Scenario.jan4 (Some Scenario.guest)
            (Scenario.request Scenario.jan1 Scenario.jan4) Scenario.store0)
     = Scenario.store0.
Proof.
  destruct (createBooking_past_start Scenario.jan4 (Some Scenario.guest)
              (Scenario.request Scenario.jan1 Scenario.jan4) Scenario.store0
              Scenario.jan1) as (H1 & _ & H2).
  - reflexivity.
  - vm_compute. reflexivity.
  - split; assumption.
Defined.

(** C9.  A [createBooking] by the host of the property named in the
    request is refused with a 400 and creates nothing, whatever the dates
    are (valid or not, present or not). *)
Theorem createBooking_own_property now user rq s pid p :
  BookingRequest.propertyId rq = Some pid ->
  Prisma.propertyFindUnique s pid = Some p ->
  Property.hostId p = User.id user ->
  Response.code (fst (createBooking now (Some user) rq s)) = 400
  /\ Response.booking (fst (createBooking now (Some user) rq s)) = None
  /\ snd (createBooking now (Some user) rq s) = s
  /\ (pid <> 0 ->
      BookingRequest.startDate rq <> None ->
      BookingRequest.endDate rq <> None ->
      Js.falsy (BookingRequest.guestCount rq) = false ->
      Property.isAvailable p = true ->
      Response.message (fst (createBooking now (Some user) rq s))
      = Some CannotBookOwn).
Proof.
  intros Hpid Hp Hhost. unfold createBooking, isAuthenticated.
  destruct rq as [pid' sd ed gc]. cbn in Hpid. subst pid'.
  cbn [orElse bind BookingRequest.propertyId BookingRequest.startDate
       BookingRequest.endDate BookingRequest.guestCount].
  destruct (Js.falsy (Some pid)) eqn:Fp; cbn [orb reject bind];
    [cbn; repeat split; intros; destruct pid; cbn in Fp; congruence|].
  destruct sd as [sd|]; cbn [orb reject bind orElse];
    [|cbn; repeat split; intros; congruence].
  destruct ed as [ed|]; cbn [orb reject bind orElse];
    [|cbn; repeat split; intros; congruence].
  destruct (Js.falsy gc) eqn:Fg; cbn [orb reject bind];
    [cbn; repeat split; intros; discriminate|].
  apply falsy_false in Fg as (gc' & -> & _). cbn [orElse bind].
  rewrite Hp. cbn [orElse bind].
  destruct (Property.isAvailable p); cbn [negb reject bind];
    [|cbn; repeat split; intros; discriminate].
  rewrite Hhost, Z.eqb_refl. cbn. repeat split; reflexivity.
Qed.

(** The host of the flat asks for it, once with good dates and once with
    dates that do not parse. *)
Lemma createBooking_own_property_witness :
  Response.code
    (fst (createBooking Scenario.dec1 (Some Scenario.host)
            (Scenario.request Scenario.jan1 Scenario.jan4) Scenario.store0))
  = 400
  /\ Response.code
       (fst (createBooking Scenario.dec1 (Some Scenario.host)
               (BookingRequest.mk (Some 1) (Some Js.InvalidDate)
                  (Some Js.InvalidDate) (Some 2)) Scenario.store0))
     = 400.
Proof.
  split.
  - apply (createBooking_own_property Scenario.dec1 Scenario.host
             (Scenario.request Scenario.jan1 Scenario.jan4) Scenario.store0
             1 Scenario.flat); reflexivity.
  - apply (createBooking_own_property Scenario.dec1 Scenario.host
             (BookingRequest.mk (Some 1) (Some Js.InvalidDate)
                (Some Js.InvalidDate) (Some 2)) Scenario.store0
             1 Scenario.flat); reflexivity.
Defined.

(** ** The availability check *)

Lemma beforeWindow_iff p sd :
  beforeWindow p sd = true <->
  exists from, Property.availableFrom p = Some from /\ sd < from.
Proof.
  unfold beforeWindow. destruct (Property.availableFrom p) as [from|].
  - rewrite Z.ltb_lt. split; [eauto|]. intros (f & [= <-] & H). exact H.
  - split; [discriminate|]. intros (f & [=] & _).
Qed.

Lemma afterWindow_iff p ed :
  afterWindow p ed = true <->
  exists to, Property.availableTo p = Some to /\ ed > to.
Proof.
  unfold afterWindow. destruct (Property.availableTo p) as [to|].
  - rewrite Z.ltb_lt. split; [intros; exists to; split; [reflexivity|lia]|].
    intros (f & [= <-] & H). lia.
  - split; [discriminate|]. intros (f & [=] & _).
Qed.

(** The answers of the availability check on well-formed dates, one per
    exit of the handler. *)
Lemma checkAvailability_exits s id p sd ed :
  Prisma.propertyFindUnique s id = Some p ->
  let r := checkAvailability id (Some (Js.ValidDate sd))
             (Some (Js.ValidDate ed)) s in
  Response.code r = 200
  /\ Response.available r =
     Some (Property.isAvailable p
           && negb (beforeWindow p sd) && negb (afterWindow p ed)
           && match Prisma.bookingFindMany s id sd ed with
              | [] => true
              | _ => false
              end)
  /\ (Property.isAvailable p = true -> beforeWindow p sd = false ->
      afterWindow p ed = false ->
      Prisma.bookingFindMany s id sd ed <> [] ->
      Response.conflictingDates r =
        Some (map (fun b => (Booking.startDate b, Booking.endDate b))
                (Prisma.bookingFindMany s id sd ed))).
Proof.
  intros Hp r. subst r. unfold checkAvailability, beforeWindow, afterWindow.
  cbn [orElse bind]. rewrite Hp. cbn [orElse bind].
  destruct (Property.isAvailable p); cbn [negb reject bind andb];
    [|cbn; repeat split; discriminate].
  destruct (Property.availableFrom p) as [from|];
    cbn [Js.valueOf Js.lt ret bind];
    [destruct (sd <? from); cbn [negb reject bind andb];
     [cbn; repeat split; discriminate|]|];
    (destruct (Property.availableTo p) as [to|];
     cbn [Js.valueOf Js.gt Js.lt ret bind negb andb];
     [destruct (to <? ed); cbn [negb reject bind andb];
      [cbn; repeat split; discriminate|]|]);
    cbn [queryDate orElse Js.valueOf bind];
    (destruct (Prisma.bookingFindMany s id sd ed) as [|b0 l];
     cbn [List.length Nat.ltb Nat.leb reject bind ret];
     cbn; repeat split; congruence).
Qed.

(** C4.  For a property that exists and a requested range, the
    availability check answers not-available exactly when the property is
    flagged unavailable, or the range starts before [availableFrom], or ends
    after [availableTo], or an active booking of the property overlaps it
    (bounds included); when it gets as far as the overlap test and that
    fires, the response lists the dates of the conflicting bookings. *)
Theorem checkAvailability_spec s id p sd ed :
  Prisma.propertyFindUnique s id = Some p ->
  let r := checkAvailability id (Some (Js.ValidDate sd))
             (Some (Js.ValidDate ed)) s in
  Response.code r = 200
  /\ (exists a, Response.available r = Some a)
  /\ (Response.available r = Some false <->
        Property.isAvailable p = false
        \/ (exists from, Property.availableFrom p = Some from /\ sd < from)
        \/ (exists to, Property.availableTo p = Some to /\ ed > to)
        \/ (exists b, conflicts s id sd ed b))
  /\ (Property.isAvailable p = true ->
      (forall from, Property.availableFrom p = Some from -> from <= sd) ->
      (forall to, Property.availableTo p = Some to -> ed <= to) ->
      (exists b, conflicts s id sd ed b) ->
      Response.conflictingDates r =
        Some (map (fun b => (Booking.startDate b, Booking.endDate b))
                (Prisma.bookingFindMany s id sd ed))).
Proof.
  intros Hp r. subst r.
  destruct (checkAvailability_exits s id p sd ed Hp) as (Hc & Ha & Hd).
  split; [exact Hc|]. split; [eauto|]. split.
  - rewrite Ha.
    rewrite <- beforeWindow_iff, <- afterWindow_iff.
    assert (Hn : (exists b, conflicts s id sd ed b) <->
                 Prisma.bookingFindMany s id sd ed <> []).
    { split.
      - intros (b & Hb) E. apply bookingFindMany_In in Hb.
        rewrite E in Hb. exact Hb.
      - destruct (Prisma.bookingFindMany s id sd ed) as [|b0 l] eqn:E;
          [congruence|].
        intros _. exists b0. apply bookingFindMany_In. rewrite E. now left. }
    rewrite Hn.
    destruct (Property.isAvailable p), (beforeWindow p sd),
      (afterWindow p ed), (Prisma.bookingFindMany s id sd ed);
      cbn; intuition congruence.
  - intros Hav Hfrom Hto Hb. apply Hd; auto.
    + destruct (beforeWindow p sd) eqn:E; [|reflexivity].
      apply beforeWindow_iff in E as (f & Hf & ?).
      specialize (Hfrom _ Hf). lia.
    + destruct (afterWindow p ed) eqn:E; [|reflexivity].
      apply afterWindow_iff in E as (t & Ht & ?).
      specialize (Hto _ Ht). lia.
    + intros E. apply bookingFindMany_nil in E. contradiction.
Qed.

(** A range that starts on the day the house is handed back. *)
Lemma checkAvailability_spec_witness :
  let r := checkAvailability 2 (Some (Js.ValidDate Scenario.jan4))
             (Some (Js.ValidDate (Scenario.jan4 + Scenario.day)))
             Scenario.houseTaken in
  Response.available r = Some false
  /\ Response.conflictingDates r = Some [(Scenario.jan1, Scenario.jan4)].
Proof.
  destruct (checkAvailability_spec Scenario.houseTaken 2 Scenario.house
              Scenario.jan4 (Scenario.jan4 + Scenario.day) eq_refl)
    as (_ & _ & Ha & Hd).
  assert (Hb : exists b,
             conflicts Scenario.houseTaken 2 Scenario.jan4
               (Scenario.jan4 + Scenario.day) b).
  { eexists. unfold conflicts. split; [left; reflexivity|].
    split; [reflexivity|]. split; [left; reflexivity|].
    vm_compute. split; discriminate. }
  split.
  - apply Ha. right. right. right. exact Hb.
  - rewrite Hd; [reflexivity | reflexivity | discriminate | discriminate
                | exact Hb].
Defined.

(** C10.  [createBooking] never looks at the availability window: with an
    available property, a requester who is not its host, dates in order and
    not in the past, and no active booking on overlapping dates, the booking
    is created as pending and unpaid whatever [availableFrom] and
    [availableTo] are, also where the availability check answers
    not-available for the same dates. *)
Theorem createBooking_ignores_window now session rq s user p pid sd ed gc :
  canBook now session rq s user p pid sd ed gc ->
  (exists b,
     createBooking now session rq s
     = (Response.mk 201 (Some BookingCreated) None None (Some b) None,
        Store.mk (Store.properties s) (Store.bookings s ++ [b])
          (Store.reviews s) (Store.nextBookingId s + 1)
          (Store.nextReviewId s))
     /\ Booking.propertyId b = pid
     /\ Booking.startDate b = sd /\ Booking.endDate b = ed
     /\ Booking.status b = pending /\ Booking.paymentStatus b = unpaid)
  /\ ((exists from, Property.availableFrom p = Some from /\ sd < from)
      \/ (exists to, Property.availableTo p = Some to /\ ed > to) ->
      Response.available
        (checkAvailability pid (Some (Js.ValidDate sd))
           (Some (Js.ValidDate ed)) s)
      = Some false).
Proof.
  intros Hcan. split.
  - exists (created s user p pid sd ed gc).
    rewrite (createBooking_accepts _ _ _ _ _ _ _ _ _ _ Hcan).
    repeat split; reflexivity.
  - intros Hout. destruct Hcan as (_ & _ & _ & _ & Hp & _).
    destruct (checkAvailability_exits s pid p sd ed Hp) as (_ & Ha & _).
    rewrite Ha. f_equal.
    destruct Hout as [H|H];
      [apply beforeWindow_iff in H | apply afterWindow_iff in H];
      rewrite H; cbn; rewrite ?andb_false_r; reflexivity.
Qed.

(** The flat opens on 2024-02-01; it is booked for the first days of
    January all the same. *)
Lemma createBooking_ignores_window_witness :
  Response.code
    (fst (createBooking Scenario.dec1 (Some Scenario.guest)
            (Scenario.request Scenario.jan1 Scenario.jan4) Scenario.store0))
  = 201
  /\ Response.available
       (checkAvailability 1 (Some (Js.ValidDate Scenario.jan1))
          (Some (Js.ValidDate Scenario.jan4)) Scenario.store0)
     = Some false.
Proof.
  destruct (createBooking_ignores_window Scenario.dec1 (Some Scenario.guest)
              (Scenario.request Scenario.jan1 Scenario.jan4) Scenario.store0
              Scenario.guest Scenario.flat 1 Scenario.jan1 Scenario.jan4 2)
    as ((b & Hb & _) & Hw).
  - unfold canBook. repeat split; try reflexivity; try discriminate.
  - split.
    + rewrite Hb. reflexivity.
    + apply Hw. left. eexists. split; [reflexivity|]. reflexivity.
Defined.

(** ** Guest cancellation *)

Lemma find_setStatus id id' st l :
  find (fun b => Booking.id b =? id') (Prisma.setStatus id st l) =
  if id =? id'
  then option_map (Booking.withStatus st) (find (fun b => Booking.id b =? id') l)
  else find (fun b => Booking.id b =? id') l.
Proof.
  induction l as [|b l IH]; cbn [Prisma.setStatus find].
  - destruct (id =? id'); reflexivity.
  - destruct (Z.eqb_spec (Booking.id b) id) as [E|E]; cbn [find].
    + change (Booking.id (Booking.withStatus st b)) with (Booking.id b).
      rewrite E. destruct (Z.eqb_spec id id'); reflexivity.
    + destruct (Z.eqb_spec (Booking.id b) id') as [E'|E'].
      * destruct (Z.eqb_spec id id'); [congruence|reflexivity].
      * exact IH.
Qed.

Lemma statusOf_bookingUpdate s id st b s' id' :
  Prisma.bookingUpdate s id st = Some (b, s') ->
  statusOf s' id' = if id =? id' then Some st else statusOf s id'.
Proof.
  unfold Prisma.bookingUpdate, statusOf, Prisma.bookingFindUnique.
  destruct (find _ (Store.bookings s)) as [b0|] eqn:E; [|discriminate].
  intros [= <- <-]. cbn [Store.bookings]. rewrite find_setStatus.
  destruct (Z.eqb_spec id id') as [<-|N]; [|reflexivity].
  rewrite E. reflexivity.
Qed.

Lemma hoursUntilStart_lt start now :
  Js.Qltb (inject_Z (start - now) / inject_Z (1000 * 60 * 60)) 24%Q
  = (start - now <? 86400000).
Proof.
  unfold Js.Qltb, Qle_bool, Qdiv, Qmult, Qinv, inject_Z. cbn.
  rewrite Z.ltb_antisym. f_equal. f_equal. lia.
Qed.

(** C5.  For a booking and its own guest, the cancellation succeeds
    exactly when the booking is pending or confirmed and the call comes at
    least 24 hours before the start date; it then sets the booking to
    cancelled, and otherwise answers 400 and changes nothing. *)
Theorem cancelBooking_spec now user id s b :
  Prisma.bookingFindUnique s id = Some b ->
  Booking.guestId b = User.id user ->
  let out := cancelBooking now (Some user) id s in
  (Response.code (fst out) = 200 <-> canCancel now b)
  /\ (canCancel now b ->
      statusOf (snd out) id = Some cancelled
      /\ Response.booking (fst out) = Some (Booking.withStatus cancelled b))
  /\ (~ canCancel now b -> Response.code (fst out) = 400 /\ snd out = s).
Proof.
  intros Hb Hg out. subst out. unfold cancelBooking, isAuthenticated, canCancel.
  cbn [orElse bind]. rewrite Hb. cbn [orElse bind].
  rewrite Hg, Z.eqb_refl. cbn [negb reject bind].
  rewrite <- includes_active. unfold activeb, includes. cbn [existsb].
  rewrite orb_false_r.
  destruct (String.eqb (Booking.status b) pending) eqn:E1;
    destruct (String.eqb (Booking.status b) confirmed) eqn:E2;
    cbn [negb andb orb reject bind].
  4:{ cbn. repeat split; try tauto; try discriminate.
      - intros (H & _). discriminate H.
      - exfalso. destruct H as (H & _); discriminate H.
      - exfalso. destruct H as (H & _); discriminate H. }
  all: rewrite hoursUntilStart_lt;
    destruct (Z.ltb_spec (Booking.startDate b - now) 86400000);
    cbn [reject bind];
    [cbn; repeat split; try discriminate; try tauto; intros; exfalso; lia|].
  all: destruct (Prisma.bookingUpdate s id cancelled) as [[ub s']|] eqn:U;
    [|unfold Prisma.bookingUpdate in U; rewrite Hb in U; discriminate].
  all: cbn [orElse bind ret respond fst snd Response.code Response.booking].
  all: rewrite (statusOf_bookingUpdate _ _ _ _ _ id U), Z.eqb_refl.
  all: unfold Prisma.bookingUpdate in U; rewrite Hb in U;
    injection U as <- <-.
  all: repeat split; try reflexivity; try lia; try tauto.
Qed.

(** One minute short of 24 hours the cancellation is refused; at 24 hours
    sharp it goes through. *)
Lemma cancelBooking_spec_witness :
  let s := run Scenario.store0
             [ CreateBooking Scenario.dec1 (Some Scenario.guest)
                 (Scenario.request Scenario.jan1 Scenario.jan4) ] in
  Response.code
    (fst (cancelBooking (Scenario.jan1 - 24 * Scenario.hour + 60000)
            (Some Scenario.guest) 1 s)) = 400
  /\ Response.code
       (fst (cancelBooking (Scenario.jan1 - 24 * Scenario.hour)
               (Some Scenario.guest) 1 s)) = 200.
Proof.
  intros s. split.
  - eapply (cancelBooking_spec (Scenario.jan1 - 24 * Scenario.hour + 60000)
              Scenario.guest 1 s); [reflexivity|reflexivity|].
    intros (_ & H). vm_compute in H. apply H. reflexivity.
  - eapply (cancelBooking_spec (Scenario.jan1 - 24 * Scenario.hour)
              Scenario.guest 1 s); [reflexivity|reflexivity|].
    split; [left; reflexivity|]. vm_compute. discriminate.
Defined.

(** ** One review request *)

Lemma addReview_accepts session rq s user b bid pid rating :
  canReview session rq s user b bid pid rating ->
  addReview session rq s =
    (Response.mk 201 (Some ReviewSubmitted) None None None
       (Some (reviewed s user rq bid pid rating)),
     Store.mk (Store.properties s) (Store.bookings s)
       (Store.reviews s ++ [reviewed s user rq bid pid rating])
       (Store.nextBookingId s) (Store.nextReviewId s + 1)).
Proof.
  intros (-> & Hb & Hp & Hr & Nb & Np & (R1 & R5) & Hf & Hg & Hpid & Hst & Hnone).
  unfold addReview, isAuthenticated. cbn [orElse bind].
  rewrite Hb, Hp, Hr. cbn [orElse bind].
  assert (Fb : Js.falsy (Some bid) = false) by (destruct bid; [lia| |]; reflexivity).
  assert (Fp : Js.falsy (Some pid) = false) by (destruct pid; [lia| |]; reflexivity).
  assert (Fr : Js.falsyQ (Some rating) = false).
  { cbn. apply not_true_iff_false. rewrite Qeq_bool_iff. intros E.
    rewrite E in R1. revert R1. apply Qlt_not_le. reflexivity. }
  rewrite Fb, Fp, Fr. cbn [orb reject bind].
  apply Qltb_false in R1, R5. rewrite R1, R5. cbn [orb reject bind].
  rewrite Hf. cbn [orElse bind]. rewrite Hg, Hpid, !Z.eqb_refl, Hst.
  cbn [negb reject bind]. rewrite String.eqb_refl. cbn [negb reject bind].
  rewrite Hnone. reflexivity.
Qed.

Lemma addReview_cases session rq s :
  (exists user b bid pid rating, canReview session rq s user b bid pid rating)
  \/ refused [400; 401; 403; 404] (addReview session rq s) s.
Proof.
  unfold addReview, isAuthenticated, refused.
  destruct session as [user|]; cbn [orElse bind]; [|refuse].
  destruct rq as [bid pid rating comment]; cbn [ReviewRequest.bookingId
    ReviewRequest.propertyId ReviewRequest.rating ReviewRequest.comment].
  destruct (Js.falsy bid) eqn:Fb; cbn [orb reject bind]; [refuse|].
  apply falsy_false in Fb as (bid' & -> & Nb).
  destruct (Js.falsy pid) eqn:Fp; cbn [orb reject bind]; [refuse|].
  apply falsy_false in Fp as (pid' & -> & Np).
  destruct rating as [rating|]; cbn [Js.falsyQ]; [|refuse].
  destruct (Qeq_bool rating 0) eqn:F0; cbn [orb reject bind orElse]; [refuse|].
  destruct (Js.Qltb rating 1%Q) eqn:R1; cbn [orb reject bind];
    [refuse|].
  destruct (Js.Qltb 5%Q rating) eqn:R5; cbn [orb reject bind];
    [refuse|].
  apply Qltb_false in R1, R5.
  destruct (Prisma.bookingFindUnique s bid') as [b|] eqn:Hf;
    cbn [orElse bind]; [|refuse].
  destruct (Z.eqb_spec (Booking.guestId b) (User.id user));
    cbn [negb reject bind]; [|refuse].
  destruct (Z.eqb_spec (Booking.propertyId b) pid');
    cbn [negb reject bind]; [|refuse].
  destruct (String.eqb_spec (Booking.status b) completed);
    cbn [negb reject bind]; [|refuse].
  destruct (Prisma.reviewFindUnique s bid') eqn:Hnone; [refuse|].
  left. exists user, b, bid', pid', rating. unfold canReview. cbn. tauto.
Qed.

Lemma parseInt_in_range q :
  (1 <= q /\ q <= 5)%Q ->
  Js.parseInt q = Qfloor q /\ 1 <= Js.parseInt q <= 5.
Proof.
  destruct q as [n d]. unfold Qle, Js.parseInt, Qfloor.
  cbn [Qnum Qden]. intros (H1 & H5).
  rewrite Z.quot_div_nonneg by lia.
  split; [reflexivity|]. split.
  - apply Z.div_le_lower_bound; lia.
  - apply Z.div_le_upper_bound; lia.
Qed.

Lemma not_integer_9_2 : ~ isInteger (9 # 2).
Proof.
  intros (z & E). unfold Qeq in E. cbn in E. lia.
Qed.

(** C6, as the code has it.  A review goes through only with a rating
    between 1 and 5, bounds included, and what is stored is its integer
    part, an integer of [1,5]; a request whose rating is a number below 1
    or above 5 is refused and stores nothing. *)
Theorem addReview_rating session rq s :
  (Response.code (fst (addReview session rq s)) = 201 ->
   exists rating r,
     ReviewRequest.rating rq = Some rating
     /\ (1 <= rating /\ rating <= 5)%Q
     /\ Response.review (fst (addReview session rq s)) = Some r
     /\ Store.reviews (snd (addReview session rq s)) = Store.reviews s ++ [r]
     /\ Review.rating r = Qfloor rating
     /\ 1 <= Review.rating r <= 5)
  /\ (forall rating,
        ReviewRequest.rating rq = Some rating ->
        (rating < 1 \/ 5 < rating)%Q ->
        Response.code (fst (addReview session rq s)) <> 201
        /\ Response.review (fst (addReview session rq s)) = None
        /\ snd (addReview session rq s) = s).
Proof.
  destruct (addReview_cases session rq s)
    as [(user & b & bid & pid & rating & Hcan)|(c & m & E & Hc)].
  - rewrite (addReview_accepts _ _ _ _ _ _ _ _ Hcan).
    destruct Hcan as (_ & _ & _ & Hr & _ & _ & Hrange & _).
    destruct (parseInt_in_range rating Hrange) as (Hfloor & Hin).
    split.
    + intros _. exists rating, (reviewed s user rq bid pid rating).
      cbn. repeat split; tauto.
    + intros rating' Hr' Hout. rewrite Hr in Hr'. injection Hr' as <-.
      exfalso. destruct Hrange as (R1 & R5).
      destruct Hout as [H|H]; [apply (Qlt_not_le _ _ H R1)
                              | apply (Qlt_not_le _ _ H R5)].
  - rewrite E. cbn. split.
    + intros ->. cbn in Hc.
      repeat destruct Hc as [Hc|Hc]; try discriminate Hc; contradiction.
    + intros _ _ _. repeat split; auto. intros ->. cbn in Hc.
      repeat destruct Hc as [Hc|Hc]; try discriminate Hc; contradiction.
Qed.

(** Four stars are stored as 4; six stars are refused. *)
Lemma addReview_rating_witness :
  (exists r,
     Response.review
       (fst (addReview (Some Scenario.guest) (Scenario.reviewRequest 4)
               Scenario.stayed)) = Some r
     /\ Review.rating r = 4)
  /\ Response.code
       (fst (addReview (Some Scenario.guest) (Scenario.reviewRequest 6)
               Scenario.stayed)) <> 201.
Proof.
  split.
  - destruct (proj1 (addReview_rating (Some Scenario.guest)
                       (Scenario.reviewRequest 4) Scenario.stayed) eq_refl)
      as (rating & r & Hr & _ & Hrev & _ & Hfloor & _).
    exists r. split; [exact Hrev|].
    injection Hr as <-. rewrite Hfloor. reflexivity.
  - apply (proj2 (addReview_rating (Some Scenario.guest)
                    (Scenario.reviewRequest 6) Scenario.stayed) 6%Q eq_refl).
    right. reflexivity.
Defined.

(** C6 as stated fails: the guest of the completed stay rates it 4.5, the
    review goes through and 4 is stored. *)
Lemma addReview_rating_counterexample :
  Response.code
    (fst (addReview (Some Scenario.guest) (Scenario.reviewRequest (9 # 2))
            Scenario.stayed))
  = 201
  /\ ReviewRequest.rating (Scenario.reviewRequest (9 # 2)) = Some (9 # 2)
  /\ ~ isInteger (9 # 2)
  /\ map Review.rating
       (Store.reviews
          (snd (addReview (Some Scenario.guest)
                  (Scenario.reviewRequest (9 # 2)) Scenario.stayed)))
     = [4].
Proof.
  repeat split; try reflexivity. apply not_integer_9_2.
Qed.

(** ** What one request does to the store *)

Lemma step_CreateBooking s now session rq :
  step s (CreateBooking now session rq) = s
  \/ exists b,
       step s (CreateBooking now session rq)
       = Store.mk (Store.properties s) (Store.bookings s ++ [b])
           (Store.reviews s) (Store.nextBookingId s + 1) (Store.nextReviewId s)
       /\ Booking.id b = Store.nextBookingId s
       /\ Booking.status b = pending
       /\ Prisma.bookingFindMany s (Booking.propertyId b)
            (Booking.startDate b) (Booking.endDate b) = [].
Proof.
  unfold step, handle.
  destruct (createBooking_cases now session rq s)
    as [(user & p & pid & sd & ed & gc & Hcan)|R].
  - right. exists (created s user p pid sd ed gc).
    rewrite (createBooking_accepts _ _ _ _ _ _ _ _ _ _ Hcan).
    destruct Hcan as (_ & _ & _ & _ & _ & _ & _ & _ & _ & Hfree).
    cbn. auto.
  - left. eapply refused_snd, R.
Qed.

Lemma step_CancelBooking s now session id :
  step s (CancelBooking now session id) = s
  \/ exists b,
       Prisma.bookingFindUnique s id = Some b
       /\ active b
       /\ step s (CancelBooking now session id)
          = Store.mk (Store.properties s)
              (Prisma.setStatus id cancelled (Store.bookings s))
              (Store.reviews s) (Store.nextBookingId s) (Store.nextReviewId s).
Proof.
  unfold step, handle, cancelBooking, isAuthenticated.
  destruct session as [user|]; cbn [orElse bind]; [|now left].
  destruct (Prisma.bookingFindUnique s id) as [b|] eqn:Hb;
    cbn [orElse bind]; [|now left].
  destruct (negb (Booking.guestId b =? User.id user));
    cbn [reject bind]; [now left|].
  destruct (negb (String.eqb (Booking.status b) pending)
            && negb (String.eqb (Booking.status b) confirmed)) eqn:Hst;
    cbn [reject bind]; [now left|].
  destruct (Js.Qltb _ _); cbn [reject bind]; [now left|].
  unfold Prisma.bookingUpdate. rewrite Hb. cbn.
  right. exists b. repeat split; auto.
  apply includes_active. unfold activeb, includes. cbn [existsb].
  destruct (String.eqb (Booking.status b) pending),
    (String.eqb (Booking.status b) confirmed); cbn in *; congruence.
Qed.

Lemma step_UpdateBookingStatus s session id status :
  step s (UpdateBookingStatus session id status) = s
  \/ exists st b,
       status = Some st
       /\ includes [confirmed; cancelled; completed] st = true
       /\ Prisma.bookingFindUnique s id = Some b
       /\ step s (UpdateBookingStatus session id status)
          = Store.mk (Store.properties s)
              (Prisma.setStatus id st (Store.bookings s))
              (Store.reviews s) (Store.nextBookingId s) (Store.nextReviewId s).
Proof.
  unfold step, handle, updateBookingStatus, isHostOrAdmin, hasRole.
  destruct session as [user|]; cbn [orElse bind]; [|now left].
  destruct (negb (existsb _ _)); cbn [reject bind ret]; [now left|].
  destruct status as [st|]; cbn [orElse bind]; [|now left].
  destruct (includes [confirmed; cancelled; completed] st) eqn:Hst;
    cbn [negb reject bind]; [|now left].
  destruct (Prisma.bookingFindUnique s id) as [b|] eqn:Hb;
    cbn [orElse bind]; [|now left].
  destruct (Prisma.propertyFindUnique s (Booking.propertyId b)) as [p|];
    cbn [orElse bind]; [|now left].
  destruct (negb (Property.hostId p =? User.id user)
            && negb (UserRole_eqb (User.role user) ADMIN));
    cbn [reject bind]; [now left|].
  unfold Prisma.bookingUpdate. rewrite Hb. cbn.
  right. exists st, b. auto.
Qed.

Lemma step_AddReview s session rq :
  step s (AddReview session rq) = s
  \/ exists r bid,
       ReviewRequest.bookingId rq = Some bid
       /\ Review.bookingId r = bid
       /\ Prisma.reviewFindUnique s bid = None
       /\ step s (AddReview session rq)
          = Store.mk (Store.properties s) (Store.bookings s)
              (Store.reviews s ++ [r]) (Store.nextBookingId s)
              (Store.nextReviewId s + 1).
Proof.
  unfold step, handle.
  destruct (addReview_cases session rq s)
    as [(user & b & bid & pid & rating & Hcan)|R].
  - right. exists (reviewed s user rq bid pid rating), bid.
    rewrite (addReview_accepts _ _ _ _ _ _ _ _ Hcan).
    destruct Hcan as (_ & Hb & _ & _ & _ & _ & _ & _ & _ & _ & _ & Hnone).
    cbn. auto.
  - left. eapply refused_snd, R.
Qed.

(** ** One review per booking *)










(** ** Status changes *)

Lemma statusOf_setStatus s id st id' :
  statusOf (Store.mk (Store.properties s)
              (Prisma.setStatus id st (Store.bookings s))
              (Store.reviews s) (Store.nextBookingId s) (Store.nextReviewId s))
    id'
  = if id =? id' then option_map (fun _ => st) (statusOf s id')
    else statusOf s id'.
Proof.
  unfold statusOf, Prisma.bookingFindUnique. cbn [Store.bookings].
  rewrite find_setStatus. destruct (id =? id'); [|reflexivity].
  destruct (find _ _); reflexivity.
Qed.

Lemma active_not_terminal b : active b -> ~ terminal (Booking.status b).
Proof.
  unfold active, terminal, pending, confirmed, cancelled, completed.
  intros [-> | ->] [H | H]; discriminate H.
Qed.

(** C2, as the code has it.  Once a booking is cancelled or completed, no
    request other than a status update addressed to it changes its status:
    guest cancellation, booking creation and reviews leave it as it is. *)
Theorem terminal_status_kept s op id st :
  statusOf s id = Some st ->
  terminal st ->
  updatesStatusOf id op = false ->
  statusOf (step s op) id = Some st.
Proof.
  intros Hst Hterm Hop.
  destruct op as [now session rq|now session id0|session id0 status|session rq].
  - destruct (step_CreateBooking s now session rq) as [->|(b & -> & _)];
      [exact Hst|].
    unfold statusOf, Prisma.bookingFindUnique in *. cbn [Store.bookings].
    rewrite find_append. destruct (find _ (Store.bookings s)); [exact Hst|].
    discriminate.
  - destruct (step_CancelBooking s now session id0)
      as [->|(b & Hb & Hact & ->)]; [exact Hst|].
    rewrite statusOf_setStatus.
    destruct (Z.eqb_spec id0 id) as [->|N]; [|exact Hst].
    exfalso. unfold statusOf in Hst. rewrite Hb in Hst.
    injection Hst as <-. exact (active_not_terminal b Hact Hterm).
  - cbn in Hop.
    destruct (step_UpdateBookingStatus s session id0 status)
      as [->|(st' & b & _ & _ & _ & ->)]; [exact Hst|].
    rewrite statusOf_setStatus, Hop. exact Hst.
  - destruct (step_AddReview s session rq)
      as [->|(r & bid & _ & _ & _ & ->)]; exact Hst.
Qed.

(** The guest tries to cancel the stay that is already completed. *)
Lemma terminal_status_kept_witness :
  statusOf
    (step Scenario.stayed
       (CancelBooking Scenario.dec1 (Some Scenario.guest) 1)) 1
  = Some completed.
Proof.
  apply terminal_status_kept.
  - reflexivity.
  - right. reflexivity.
  - reflexivity.
Defined.

(** C2 as stated fails: the host sets the booking he had cancelled back to
    confirmed, and the status changes. *)
Lemma terminal_status_counterexample :
  let s := run Scenario.store0
             [ CreateBooking Scenario.dec1 (Some Scenario.guest)
                 (Scenario.request Scenario.jan1 Scenario.jan4);
               UpdateBookingStatus (Some Scenario.host) 1 (Some cancelled) ] in
  statusOf s 1 = Some cancelled
  /\ terminal cancelled
  /\ statusOf (step s (UpdateBookingStatus (Some Scenario.host) 1
                         (Some confirmed))) 1
     = Some confirmed
  /\ statusOf (step s (UpdateBookingStatus (Some Scenario.host) 1
                         (Some confirmed))) 1
     <> statusOf s 1.
Proof.
  repeat split; [left; reflexivity | discriminate].
Qed.

(** ** The overlap invariant *)


(** Every row after a status change comes from a row before it, with the
    same key, property and dates; it is active only if that row was,
    provided the change does not activate a row that was not. *)
Lemma setStatus_origin id st l b0 :
  find (fun b => Booking.id b =? id) l = Some b0 ->
  (includes [pending; confirmed] st = true -> active b0) ->
  forall b', In b' (Prisma.setStatus id st l) ->
  exists b, In b l
    /\ Booking.id b = Booking.id b'
    /\ Booking.propertyId b = Booking.propertyId b'
    /\ Booking.startDate b = Booking.startDate b'
    /\ Booking.endDate b = Booking.endDate b'
    /\ (active b' -> active b).
Proof.
  intros Hfind Hact. revert Hfind.
  induction l as [|b l IH]; cbn [Prisma.setStatus find]; [discriminate|].
  destruct (Booking.id b =? id).
  - intros [= ->] b' [<-|Hin].
    + exists b0. repeat split; [now left|].
      intros H. apply Hact. apply includes_active in H. exact H.
    + exists b'. repeat split; auto. now right.
  - intros Hfind b' [<-|Hin].
    + exists b. repeat split; auto. now left.
    + destruct (IH Hfind b' Hin) as (b1 & H1 & Hrest).
      exists b1. split; [now right|exact Hrest].
Qed.








(** * Properties of the other routes *)

(** ** Bookings *)

Lemma includes_update_status st :
  includes [confirmed; cancelled; completed] st = true <->
  st = confirmed \/ st = cancelled \/ st = completed.
Proof.
  unfold includes. cbn [existsb].
  rewrite !orb_true_iff, !String.eqb_eq. intuition discriminate.
Qed.

Lemma hasRole_host_or_admin user :
  existsb (UserRole_eqb (User.role user)) [HOST; ADMIN] = true <->
  User.role user = HOST \/ User.role user = ADMIN.
Proof. destruct (User.role user); cbn; intuition discriminate. Qed.

Lemma updateBookingStatus_accepts session status s id user st b p :
  canUpdateStatus session status s id user st b p ->
  updateBookingStatus session id status s =
    (Response.mk 200 (Some (HasBeen st)) None None
       (Some (Booking.withStatus st b)) None,
     Store.mk (Store.properties s) (Prisma.setStatus id st (Store.bookings s))
       (Store.reviews s) (Store.nextBookingId s) (Store.nextReviewId s)).
Proof.
  intros (-> & Hrole & -> & Hst & Hb & Hp & Hown).
  unfold updateBookingStatus, isHostOrAdmin, hasRole. cbn [orElse bind].
  apply hasRole_host_or_admin in Hrole. rewrite Hrole.
  cbn [negb reject bind ret orElse].
  apply includes_update_status in Hst. rewrite Hst.
  cbn [negb reject bind]. rewrite Hb. cbn [orElse bind].
  rewrite Hp. cbn [orElse bind].
  assert (E : negb (Property.hostId p =? User.id user)
              && negb (UserRole_eqb (User.role user) ADMIN) = false).
  { destruct Hown as [->| ->]; [rewrite Z.eqb_refl; reflexivity|].
    cbn. apply andb_false_r. }
  rewrite E. cbn [reject bind].
  unfold Prisma.bookingUpdate. rewrite Hb. reflexivity.
Qed.

Lemma updateBookingStatus_cases session status s id :
  (exists user st b p, canUpdateStatus session status s id user st b p)
  \/ refused [400; 401; 403; 404; 500]
       (updateBookingStatus session id status s) s.
Proof.
  unfold updateBookingStatus, isHostOrAdmin, hasRole, refused.
  destruct session as [user|]; cbn [orElse bind]; [|refuse].
  destruct (existsb (UserRole_eqb (User.role user)) [HOST; ADMIN]) eqn:Hrole;
    cbn [negb reject bind ret]; [|refuse].
  apply hasRole_host_or_admin in Hrole.
  destruct status as [st|]; cbn [orElse bind]; [|refuse].
  destruct (includes [confirmed; cancelled; completed] st) eqn:Hst;
    cbn [negb reject bind]; [|refuse].
  apply includes_update_status in Hst.
  destruct (Prisma.bookingFindUnique s id) as [b|] eqn:Hb;
    cbn [orElse bind]; [|refuse].
  destruct (Prisma.propertyFindUnique s (Booking.propertyId b)) as [p|] eqn:Hp;
    cbn [orElse bind]; [|refuse].
  destruct (negb (Property.hostId p =? User.id user)
            && negb (UserRole_eqb (User.role user) ADMIN)) eqn:Hown;
    cbn [reject bind]; [refuse|].
  left. exists user, st, b, p. unfold canUpdateStatus.
  repeat split; auto.
  apply andb_false_iff in Hown as [H|H]; apply negb_false_iff in H.
  - left. now apply Z.eqb_eq.
  - right. destruct (User.role user); cbn in H; congruence.
Qed.

(** X1.  [PUT /bookings/:id/status] answers 200 exactly when the requester
    is a host or an administrator, the status asked for is confirmed,
    cancelled or completed, the booking exists with its property, and the
    requester hosts that property or is an administrator.  The booking then
    has the status asked for and is sent back with it; on every other
    answer the tables are as they were. *)
Theorem updateBookingStatus_authorization session status s id :
  let out := updateBookingStatus session id status s in
  (Response.code (fst out) = 200 <->
   exists user st b p, canUpdateStatus session status s id user st b p)
  /\ (forall user st b p,
        canUpdateStatus session status s id user st b p ->
        statusOf (snd out) id = Some st
        /\ Response.booking (fst out) = Some (Booking.withStatus st b))
  /\ (Response.code (fst out) <> 200 -> snd out = s).
Proof.
  intros out. subst out.
  destruct (updateBookingStatus_cases session status s id)
    as [(user & st & b & p & Hcan)|R].
  - rewrite (updateBookingStatus_accepts _ _ _ _ _ _ _ _ Hcan). cbn.
    split; [split; eauto|]. split; [|congruence].
    intros user' st' b' p' Hcan'.
    destruct Hcan as (_ & _ & Hs & _ & Hb & _).
    destruct Hcan' as (_ & _ & Hs' & _ & Hb' & _).
    rewrite Hs in Hs'. injection Hs' as <-. rewrite Hb in Hb'.
    injection Hb' as <-. split; [|reflexivity].
    rewrite statusOf_setStatus, Z.eqb_refl. unfold statusOf. rewrite Hb.
    reflexivity.
  - pose proof (refused_code _ _ _ R) as Hc. pose proof (refused_snd _ _ _ R).
    split; [split|split]; auto.
    + intros E. rewrite E in Hc. cbn in Hc.
      repeat destruct Hc as [Hc|Hc]; try discriminate Hc; contradiction.
    + intros (user & st & b & p & Hcan).
      rewrite (updateBookingStatus_accepts _ _ _ _ _ _ _ _ Hcan) in R.
      destruct R as (c & m & E & _). discriminate E.
    + intros user st b p Hcan.
      rewrite (updateBookingStatus_accepts _ _ _ _ _ _ _ _ Hcan) in R.
      destruct R as (c & m & E & _). discriminate E.
Qed.


(** X3.  A booking request whose end date is not after its start date is
    refused and the tables stay as they were; when nothing else is wrong
    with the request (logged in, all fields, an available property of
    somebody else) the answer is 400 "End date must be after start date",
    also for a stay of zero length. *)
Theorem createBooking_dates_out_of_order now session rq s sd ed :
  BookingRequest.startDate rq = Some (Js.ValidDate sd) ->
  BookingRequest.endDate rq = Some (Js.ValidDate ed) ->
  ed <= sd ->
  refused [400; 401; 404] (createBooking now session rq s) s
  /\ (forall user p pid gc,
        session = Some user ->
        BookingRequest.propertyId rq = Some pid -> pid <> 0 ->
        BookingRequest.guestCount rq = Some gc -> gc <> 0 ->
        Prisma.propertyFindUnique s pid = Some p ->
        Property.isAvailable p = true ->
        Property.hostId p <> User.id user ->
        fst (createBooking now session rq s)
        = Response.error 400 EndAfterStart).
Proof.
  intros Hsd Hed Hle. unfold createBooking, isAuthenticated, refused.
  destruct rq as [pid0 sd0 ed0 gc0]. cbn in Hsd, Hed. subst sd0 ed0.
  cbn [BookingRequest.propertyId BookingRequest.startDate
       BookingRequest.endDate BookingRequest.guestCount].
  split.
  - destruct session as [user|]; cbn [orElse bind];
      [|eexists _, _; split; [reflexivity|cbn; tauto]].
    destruct (Js.falsy pid0) eqn:Hpid; cbn [orb reject bind];
      [eexists _, _; split; [reflexivity|cbn; tauto]|].
    apply falsy_false in Hpid as (pid' & -> & Hpid).
    destruct (Js.falsy gc0) eqn:Hgc; cbn [orb reject bind orElse];
      [eexists _, _; split; [reflexivity|cbn; tauto]|].
    apply falsy_false in Hgc as (gc' & -> & Hgc). cbn [orElse bind].
    destruct (Prisma.propertyFindUnique s pid') as [p|];
      cbn [orElse bind]; [|eexists _, _; split; [reflexivity|cbn; tauto]].
    destruct (Property.isAvailable p); cbn [negb reject bind];
      [|eexists _, _; split; [reflexivity|cbn; tauto]].
    destruct (Property.hostId p =? User.id user); cbn [reject bind];
      [eexists _, _; split; [reflexivity|cbn; tauto]|].
    cbn [Js.valueOf Js.ge].
    destruct (Z.leb_spec ed sd); [|lia]. cbn [reject bind].
    eexists _, _; split; [reflexivity|cbn; tauto].
  - intros user p pid gc -> [= ->] Hpid [= ->] Hgc Hp Hav Hhost.
    cbn [orElse bind].
    assert (Fp : Js.falsy (Some pid) = false)
      by (destruct pid; [lia| |]; reflexivity).
    assert (Fg : Js.falsy (Some gc) = false)
      by (destruct gc; [lia| |]; reflexivity).
    rewrite Fp, Fg. cbn [orb reject bind orElse]. rewrite Hp.
    cbn [orElse bind]. rewrite Hav. cbn [negb reject bind].
    destruct (Z.eqb_spec (Property.hostId p) (User.id user)); [contradiction|].
    cbn [reject bind Js.valueOf Js.ge].
    destruct (Z.leb_spec ed sd); [|lia]. reflexivity.
Qed.

(** The guest asks for the flat from 2024-01-04 to 2024-01-01, and for a
    stay that ends when it starts. *)
Lemma createBooking_dates_out_of_order_witness :
  fst (createBooking Scenario.dec1 (Some Scenario.guest)
         (Scenario.request Scenario.jan4 Scenario.jan1) Scenario.store0)
  = Response.error 400 EndAfterStart
  /\ fst (createBooking Scenario.dec1 (Some Scenario.guest)
            (Scenario.request Scenario.jan1 Scenario.jan1) Scenario.store0)
     = Response.error 400 EndAfterStart.
Proof.
  split.
  - assert (Hle : Scenario.jan1 <= Scenario.jan4) by discriminate.
    destruct (createBooking_dates_out_of_order Scenario.dec1
                (Some Scenario.guest)
                (Scenario.request Scenario.jan4 Scenario.jan1)
                Scenario.store0 Scenario.jan4 Scenario.jan1
                eq_refl eq_refl Hle) as [_ H].
    apply (H Scenario.guest Scenario.flat 1 2);
      try reflexivity; discriminate.
  - assert (Hle : Scenario.jan1 <= Scenario.jan1) by discriminate.
    destruct (createBooking_dates_out_of_order Scenario.dec1
                (Some Scenario.guest)
                (Scenario.request Scenario.jan1 Scenario.jan1)
                Scenario.store0 Scenario.jan1 Scenario.jan1
                eq_refl eq_refl Hle) as [_ H].
    apply (H Scenario.guest Scenario.flat 1 2);
      try reflexivity; discriminate.
Defined.

(** X4.  The availability check and the booking route agree in one
    direction: when [GET /properties/:id/availability] answers
    [available: true] for a range that starts before it ends and not in the
    past, a logged-in user who is not the host of the property and sends a
    guest count gets the booking (201). *)
Theorem available_then_bookable now user rq s pid sd ed gc p :
  rq = BookingRequest.mk (Some pid) (Some (Js.ValidDate sd))
         (Some (Js.ValidDate ed)) (Some gc) ->
  pid <> 0 -> gc <> 0 ->
  Prisma.propertyFindUnique s pid = Some p ->
  Response.available
    (checkAvailability pid (Some (Js.ValidDate sd)) (Some (Js.ValidDate ed)) s)
  = Some true ->
  Property.hostId p <> User.id user ->
  sd < ed -> now <= sd ->
  Response.code (fst (createBooking now (Some user) rq s)) = 201.
Proof.
  intros Hrq Hpid Hgc Hp Hav Hhost Hlt Hnow.
  destruct (checkAvailability_exits s pid p sd ed Hp) as (_ & Ha & _).
  rewrite Ha in Hav. injection Hav as Hav.
  apply andb_true_iff in Hav as (Hav & Hfree).
  apply andb_true_iff in Hav as (Hav & _).
  apply andb_true_iff in Hav as (Hav & _).
  assert (Hcan : canBook now (Some user) rq s user p pid sd ed gc).
  { unfold canBook. repeat split; auto.
    destruct (Prisma.bookingFindMany s pid sd ed); [reflexivity|discriminate]. }
  rewrite (createBooking_accepts _ _ _ _ _ _ _ _ _ _ Hcan). reflexivity.
Qed.

(** The house is free from 2024-01-01 to 2024-01-04, and the guest books
    it. *)
Lemma available_then_bookable_witness :
  Response.available
    (checkAvailability 2 (Some (Js.ValidDate Scenario.jan1))
       (Some (Js.ValidDate Scenario.jan4)) Scenario.store0)
  = Some true
  /\ Response.code
       (fst (createBooking Scenario.dec1 (Some Scenario.guest)
               (BookingRequest.mk (Some 2) (Some (Js.ValidDate Scenario.jan1))
                  (Some (Js.ValidDate Scenario.jan4)) (Some 2))
               Scenario.store0))
     = 201.
Proof.
  split; [reflexivity|].
  apply (available_then_bookable Scenario.dec1 Scenario.guest _
           Scenario.store0 2 Scenario.jan1 Scenario.jan4 2 Scenario.house);
    try reflexivity; try discriminate.
Defined.

Lemma bookingFindUnique_setStatus s id st id' :
  Prisma.bookingFindUnique
    (Store.mk (Store.properties s) (Prisma.setStatus id st (Store.bookings s))
       (Store.reviews s) (Store.nextBookingId s) (Store.nextReviewId s)) id'
  = if id =? id'
    then option_map (Booking.withStatus st) (Prisma.bookingFindUnique s id')
    else Prisma.bookingFindUnique s id'.
Proof. unfold Prisma.bookingFindUnique. cbn. apply find_setStatus. Qed.

Lemma bookingFindUnique_create s b id c :
  Prisma.bookingFindUnique s id = Some c ->
  Prisma.bookingFindUnique
    (Store.mk (Store.properties s) (Store.bookings s ++ [b])
       (Store.reviews s) (Store.nextBookingId s + 1) (Store.nextReviewId s)) id
  = Some c.
Proof.
  unfold Prisma.bookingFindUnique. cbn. intros H.
  rewrite find_append, H. reflexivity.
Qed.

Lemma step_properties s op : Store.properties (step s op) = Store.properties s.
Proof.
  destruct op as [now session rq|now session id|session id status|session rq].
  - destruct (step_CreateBooking s now session rq) as [->|(b & -> & _)];
      reflexivity.
  - destruct (step_CancelBooking s now session id) as [->|(b & _ & _ & ->)];
      reflexivity.
  - destruct (step_UpdateBookingStatus s session id status)
      as [->|(st & b & _ & _ & _ & ->)]; reflexivity.
  - destruct (step_AddReview s session rq)
      as [->|(r & bid & _ & _ & _ & ->)]; reflexivity.
Qed.

(** X5.  No request changes a booking of which the requester is neither
    the guest nor the host of the property nor an administrator: whatever
    the request of such a user (or of nobody) is, the row of the booking is
    afterwards what it was. *)
Theorem step_respects_ownership s op id b :
  Prisma.bookingFindUnique s id = Some b ->
  (forall u, sessionOf op = Some u -> stranger s b u) ->
  Prisma.bookingFindUnique (step s op) id = Some b.
Proof.
  intros Hb Hs.
  destruct op as [now session rq|now session id0|session id0 status|session rq];
    cbn [sessionOf] in Hs.
  - destruct (step_CreateBooking s now session rq) as [->|(c & -> & _)];
      [exact Hb|]. now apply bookingFindUnique_create.
  - unfold step, handle, cancelBooking, isAuthenticated.
    destruct session as [u|]; cbn [orElse bind]; [|exact Hb].
    destruct (Z.eqb_spec id0 id) as [->|N].
    + rewrite Hb. cbn [orElse bind].
      destruct (Hs u eq_refl) as (Hg & _).
      destruct (Z.eqb_spec (Booking.guestId b) (User.id u)); [contradiction|].
      exact Hb.
    + destruct (step_CancelBooking s now (Some u) id0)
        as [E|(c & _ & _ & E)]; unfold step, handle, cancelBooking,
        isAuthenticated in E; cbn [orElse bind] in E; rewrite E;
        [exact Hb|].
      rewrite bookingFindUnique_setStatus.
      destruct (Z.eqb_spec id0 id); [contradiction|exact Hb].
  - destruct (Z.eqb_spec id0 id) as [->|N].
    + destruct (updateBookingStatus_cases session status s id)
        as [(u & st & c & p & Hcan)|R].
      * exfalso. destruct Hcan as (-> & _ & _ & _ & Hc & Hp & Hown).
        rewrite Hb in Hc. injection Hc as <-.
        destruct (Hs u eq_refl) as (_ & Hadm & Hhost).
        destruct Hown as [H|H]; [exact (Hhost p Hp H)|contradiction].
      * unfold step, handle. rewrite (refused_snd _ _ _ R). exact Hb.
    + destruct (step_UpdateBookingStatus s session id0 status)
        as [->|(st & c & _ & _ & _ & ->)]; [exact Hb|].
      rewrite bookingFindUnique_setStatus.
      destruct (Z.eqb_spec id0 id); [contradiction|exact Hb].
  - destruct (step_AddReview s session rq)
      as [->|(r & bid & _ & _ & _ & ->)]; exact Hb.
Qed.

(** Another guest tries to cancel the stay, and a host of other properties
    tries to confirm it. *)
Lemma step_respects_ownership_witness :
  Prisma.bookingFindUnique
    (step Cases.booked (CancelBooking Scenario.dec1 (Some Scenario.other) 1)) 1
  = Some Cases.stay
  /\ Prisma.bookingFindUnique
       (step Cases.booked
          (UpdateBookingStatus (Some Cases.otherHost) 1 (Some confirmed))) 1
     = Some Cases.stay.
Proof.
  split.
  - apply (step_respects_ownership Cases.booked
             (CancelBooking Scenario.dec1 (Some Scenario.other) 1) 1
             Cases.stay eq_refl).
    intros u [= <-]. repeat split; try discriminate.
    intros p [= <-]. discriminate.
  - apply (step_respects_ownership Cases.booked
             (UpdateBookingStatus (Some Cases.otherHost) 1 (Some confirmed)) 1
             Cases.stay eq_refl).
    intros u [= <-]. repeat split; try discriminate.
    intros p [= <-]. discriminate.
Defined.

(** X6.  A requester who is neither an administrator nor the host of the
    property of a booking can do one thing to it at most: after any request
    of theirs the row is what it was, or what it was with the status
    cancelled. *)
Theorem guest_only_cancels s op id b :
  Prisma.bookingFindUnique s id = Some b ->
  (forall u, sessionOf op = Some u ->
     User.role u <> ADMIN
     /\ forall p, Prisma.propertyFindUnique s (Booking.propertyId b) = Some p ->
                  Property.hostId p <> User.id u) ->
  Prisma.bookingFindUnique (step s op) id = Some b
  \/ Prisma.bookingFindUnique (step s op) id
     = Some (Booking.withStatus cancelled b).
Proof.
  intros Hb Hs.
  destruct op as [now session rq|now session id0|session id0 status|session rq];
    cbn [sessionOf] in Hs.
  - left. destruct (step_CreateBooking s now session rq) as [->|(c & -> & _)];
      [exact Hb|]. now apply bookingFindUnique_create.
  - destruct (step_CancelBooking s now session id0)
      as [->|(c & _ & _ & ->)]; [now left|].
    rewrite bookingFindUnique_setStatus, Hb.
    destruct (id0 =? id); [now right|now left].
  - left. destruct (Z.eqb_spec id0 id) as [->|N].
    + destruct (updateBookingStatus_cases session status s id)
        as [(u & st & c & p & Hcan)|R].
      * exfalso. destruct Hcan as (-> & _ & _ & _ & Hc & Hp & Hown).
        rewrite Hb in Hc. injection Hc as <-.
        destruct (Hs u eq_refl) as (Hadm & Hhost).
        destruct Hown as [H|H]; [exact (Hhost p Hp H)|contradiction].
      * unfold step, handle. rewrite (refused_snd _ _ _ R). exact Hb.
    + destruct (step_UpdateBookingStatus s session id0 status)
        as [->|(st & c & _ & _ & _ & ->)]; [exact Hb|].
      rewrite bookingFindUnique_setStatus.
      destruct (Z.eqb_spec id0 id); [contradiction|exact Hb].
  - left. destruct (step_AddReview s session rq)
      as [->|(r & bid & _ & _ & _ & ->)]; exact Hb.
Qed.

(** The guest cancels the stay a month ahead. *)
Lemma guest_only_cancels_witness :
  Prisma.bookingFindUnique
    (step Cases.booked (CancelBooking Scenario.dec1 (Some Scenario.guest) 1)) 1
  = Some Cases.stay
  \/ Prisma.bookingFindUnique
       (step Cases.booked (CancelBooking Scenario.dec1 (Some Scenario.guest) 1))
       1
     = Some (Booking.withStatus cancelled Cases.stay).
Proof.
  apply (guest_only_cancels Cases.booked
           (CancelBooking Scenario.dec1 (Some Scenario.guest) 1) 1
           Cases.stay eq_refl).
  intros u [= <-]. split; [discriminate|].
  intros p [= <-]. discriminate.
Defined.

Lemma cancelBooking_cases now session id s :
  (exists user b,
     session = Some user
     /\ Prisma.bookingFindUnique s id = Some b
     /\ Booking.guestId b = User.id user
     /\ canCancel now b
     /\ cancelBooking now session id s
        = (Response.mk 200 (Some (HasBeen cancelled)) None None
             (Some (Booking.withStatus cancelled b)) None,
           Store.mk (Store.properties s)
             (Prisma.setStatus id cancelled (Store.bookings s))
             (Store.reviews s) (Store.nextBookingId s)
             (Store.nextReviewId s)))
  \/ refused [400; 401; 403; 404] (cancelBooking now session id s) s.
Proof.
  unfold cancelBooking, isAuthenticated, refused.
  destruct session as [user|]; cbn [orElse bind]; [|refuse].
  destruct (Prisma.bookingFindUnique s id) as [b|] eqn:Hb;
    cbn [orElse bind]; [|refuse].
  destruct (Z.eqb_spec (Booking.guestId b) (User.id user));
    cbn [negb reject bind]; [|refuse].
  destruct (negb (String.eqb (Booking.status b) pending)
            && negb (String.eqb (Booking.status b) confirmed)) eqn:Hst;
    cbn [reject bind]; [refuse|].
  rewrite hoursUntilStart_lt.
  destruct (Z.ltb_spec (Booking.startDate b - now) 86400000);
    cbn [reject bind]; [refuse|].
  left. exists user, b. unfold Prisma.bookingUpdate. rewrite Hb.
  repeat split; auto; [|lia].
  apply includes_active. unfold activeb, includes. cbn [existsb].
  destruct (String.eqb (Booking.status b) pending),
    (String.eqb (Booking.status b) confirmed); cbn in *; congruence.
Qed.

Lemma find_In_id l id b :
  find (fun c => Booking.id c =? id) l = Some b ->
  In b l /\ Booking.id b = id.
Proof. intros H. apply find_some in H as (H & E). now apply Z.eqb_eq in E. Qed.

Lemma unique_row l b c :
  NoDup (map Booking.id l) -> In b l -> In c l ->
  Booking.id b = Booking.id c -> b = c.
Proof.
  induction l as [|a l IH]; cbn; [tauto|].
  intros Hnd [->|Hb] [->|Hc] E; auto.
  - inversion Hnd as [|? ? Hn _]; subst. exfalso. apply Hn.
    rewrite E. now apply in_map.
  - inversion Hnd as [|? ? Hn _]; subst. exfalso. apply Hn.
    rewrite <- E. now apply in_map.
  - inversion Hnd; subst. auto.
Qed.

Lemma setStatus_row id st l b :
  NoDup (map Booking.id l) ->
  find (fun c => Booking.id c =? id) l = Some b ->
  forall c, In c (Prisma.setStatus id st l) -> Booking.id c = id ->
            c = Booking.withStatus st b.
Proof.
  induction l as [|a l IH]; cbn [Prisma.setStatus find map]; [discriminate|].
  intros Hnd. inversion Hnd as [|? ? Hn Hnd']; subst.
  destruct (Z.eqb_spec (Booking.id a) id) as [E|E].
  - intros [= ->] c [<-|Hc] Hid; [reflexivity|].
    exfalso. apply Hn. rewrite E, <- Hid. now apply in_map.
  - intros Hf c [<-|Hc] Hid; [contradiction|]. now apply IH.
Qed.

(** X7.  A cancellation gives the dates back: in tables with distinct
    booking ids and no two active bookings of one property on overlapping
    dates, after a guest's cancellation that is answered 200 the overlap
    query of the availability check and of the booking route finds nothing
    on the dates of the cancelled booking. *)
Theorem cancel_frees_dates now session id s b :
  bookingKeys s -> NoActiveOverlap s ->
  Prisma.bookingFindUnique s id = Some b ->
  Response.code (fst (cancelBooking now session id s)) = 200 ->
  Prisma.bookingFindMany (snd (cancelBooking now session id s))
    (Booking.propertyId b) (Booking.startDate b) (Booking.endDate b) = [].
Proof.
  intros (Hnd & _) Inv Hb H200.
  destruct (cancelBooking_cases now session id s)
    as [(user & b' & _ & Hb' & _ & (Hact & _) & E)|R].
  2:{ apply refused_code in R. rewrite H200 in R. cbn in R.
      repeat destruct R as [R|R]; try discriminate R; contradiction. }
  rewrite Hb in Hb'. injection Hb' as <-. rewrite E. cbn [snd].
  apply bookingFindMany_nil. intros (c & Hc & Hp & Hactc & Hs & He).
  cbn [Store.bookings] in Hc.
  destruct (find_In_id _ _ _ Hb) as (Hin & Hid).
  destruct (setStatus_origin id cancelled _ b Hb
              ltac:(intros H; discriminate H) c Hc)
    as (c0 & Hc0 & I0 & P0 & S0 & E0 & A0).
  destruct (Z.eq_dec (Booking.id c0) (Booking.id b)) as [Eid|Nid].
  - assert (c = Booking.withStatus cancelled b).
    { apply (setStatus_row id cancelled _ b Hnd Hb c Hc). congruence. }
    subst c. destruct Hactc as [H|H]; discriminate H.
  - apply (Inv c0 b Hc0 Hin Nid); [congruence|auto|exact Hact|].
    unfold overlap. rewrite S0, E0. auto.
Qed.

(** The guest cancels the stay a month ahead. *)
Lemma cancel_frees_dates_witness :
  Prisma.bookingFindMany
    (snd (cancelBooking Scenario.dec1 (Some Scenario.guest) 1 Cases.booked))
    1 Scenario.jan1 Scenario.jan4
  = [].
Proof.
  apply (cancel_frees_dates Scenario.dec1 (Some Scenario.guest) 1 Cases.booked
           Cases.stay).
  - split.
    + repeat constructor. intros [].
    + intros b [<-|[]]. reflexivity.
  - intros b1 b2 [<-|[]] [<-|[]] N. now contradiction N.
  - reflexivity.
  - reflexivity.
Defined.

Lemma map_eraseStatus_setStatus id st l :
  map eraseStatus (Prisma.setStatus id st l) = map eraseStatus l.
Proof.
  induction l as [|b l IH]; cbn [Prisma.setStatus map]; [reflexivity|].
  destruct (Booking.id b =? id); cbn [map]; [reflexivity|].
  now rewrite IH.
Qed.

Lemma step_bookings_grow s op :
  exists added,
    map eraseStatus (Store.bookings (step s op))
    = map eraseStatus (Store.bookings s) ++ map eraseStatus added
    /\ Forall (fun b => Booking.paymentStatus b = unpaid) added.
Proof.
  destruct op as [now session rq|now session id|session id status|session rq].
  - destruct (createBooking_cases now session rq s)
      as [(user & p & pid & sd & ed & gc & Hcan)|R].
    + unfold step, handle.
      rewrite (createBooking_accepts _ _ _ _ _ _ _ _ _ _ Hcan).
      exists [created s user p pid sd ed gc]. cbn [snd Store.bookings].
      rewrite map_app. split; [reflexivity|]. repeat constructor.
    + exists []. unfold step, handle. rewrite (refused_snd _ _ _ R).
      cbn. now rewrite app_nil_r.
  - exists []. rewrite app_nil_r. split; [|constructor].
    destruct (step_CancelBooking s now session id) as [->|(b & _ & _ & ->)];
      [reflexivity|apply map_eraseStatus_setStatus].
  - exists []. rewrite app_nil_r. split; [|constructor].
    destruct (step_UpdateBookingStatus s session id status)
      as [->|(st & b & _ & _ & _ & ->)];
      [reflexivity|apply map_eraseStatus_setStatus].
  - exists []. rewrite app_nil_r. split; [|constructor].
    destruct (step_AddReview s session rq)
      as [->|(r & bid & _ & _ & _ & ->)]; reflexivity.
Qed.

(** X8.  The booking table only grows: whatever requests are served, the
    rows there were are still there in the same order and the same in
    everything but their status, and the rows that came after them were
    inserted unpaid.  No request deletes a booking or changes its dates,
    price, guest or property. *)
Theorem bookings_only_grow ops : forall s,
  exists added,
    map eraseStatus (Store.bookings (run s ops))
    = map eraseStatus (Store.bookings s) ++ map eraseStatus added
    /\ Forall (fun b => Booking.paymentStatus b = unpaid) added.
Proof.
  induction ops as [|op ops IH]; intros s.
  - exists []. cbn. now rewrite app_nil_r.
  - cbn [run fold_left].
    destruct (IH (step s op)) as (added' & E' & U').
    destruct (step_bookings_grow s op) as (added & E & U).
    exists (added ++ added'). split.
    + unfold run in E'. rewrite E', E, map_app, app_assoc. reflexivity.
    + apply Forall_app. now split.
Qed.

Lemma setStatus_In_cases id st l c :
  In c (Prisma.setStatus id st l) ->
  In c l \/ exists b, In b l /\ c = Booking.withStatus st b.
Proof.
  induction l as [|a l IH]; cbn [Prisma.setStatus]; [tauto|].
  destruct (Booking.id a =? id).
  - intros [<-|H]; [right; exists a; split; [now left|reflexivity]|].
    left. now right.
  - intros [<-|H]; [left; now left|].
    destruct (IH H) as [H'|(b & Hb & ->)]; [left; now right|].
    right. exists b. split; [now right|reflexivity].
Qed.

Lemma step_knownStatus s op :
  Forall knownStatus (Store.bookings s) ->
  Forall knownStatus (Store.bookings (step s op)).
Proof.
  intros H.
  assert (Hset : forall id st,
    includes [pending; confirmed; cancelled; completed] st = true ->
    Forall knownStatus (Prisma.setStatus id st (Store.bookings s))).
  { intros id st Hst. apply Forall_forall. intros c Hc.
    apply setStatus_In_cases in Hc as [Hc|(b & _ & ->)];
      [now apply (proj1 (Forall_forall _ _) H)|exact Hst]. }
  destruct op as [now session rq|now session id|session id status|session rq].
  - destruct (step_CreateBooking s now session rq)
      as [->|(b & -> & _ & Hst & _)]; [exact H|].
    cbn [Store.bookings]. apply Forall_app. split; [exact H|].
    constructor; [|constructor]. unfold knownStatus. rewrite Hst.
    reflexivity.
  - destruct (step_CancelBooking s now session id) as [->|(b & _ & _ & ->)];
      [exact H|]. now apply Hset.
  - destruct (step_UpdateBookingStatus s session id status)
      as [->|(st & b & _ & Hst & _ & ->)]; [exact H|].
    apply Hset. apply includes_update_status in Hst.
    destruct Hst as [->|[->| ->]]; reflexivity.
  - destruct (step_AddReview s session rq)
      as [->|(r & bid & _ & _ & _ & ->)]; exact H.
Qed.

(** X9.  When every booking has one of the four status values pending,
    confirmed, cancelled and completed, this is still so after any requests
    have been served. *)
Theorem status_stays_known ops : forall s,
  Forall knownStatus (Store.bookings s) ->
  Forall knownStatus (Store.bookings (run s ops)).
Proof.
  induction ops as [|op ops IH]; intros s H; [exact H|].
  cbn [run fold_left]. apply IH, step_knownStatus, H.
Qed.

(** From the empty booking table, after the four requests of
    [Scenario.doubleBooking]. *)
Lemma status_stays_known_witness :
  Forall knownStatus
    (Store.bookings (run Scenario.store0 Scenario.doubleBooking)).
Proof.
  apply (status_stays_known Scenario.doubleBooking Scenario.store0).
  constructor.
Defined.





Lemma billedDays_mono sd ed ed' :
  ed <= ed' -> billedDays sd ed <= billedDays sd ed'.
Proof.
  intros H. unfold billedDays.
  apply Z.max_le_compat_l, Z.div_le_mono; lia.
Qed.


(** X11.  For a price that is not negative, a stay that starts on the same
    date and ends later never costs less, whatever the rental period of
    the property is. *)
Theorem totalPrice_monotone p sd ed ed' :
  (0 <= Property.price p)%Q ->
  sd < ed -> ed <= ed' ->
  (totalPriceOf p sd ed <= totalPriceOf p sd ed')%Q.
Proof.
  intros Hp Hlt Hle.
  rewrite !totalPriceOf_spec by lia.
  pose proof (billedDays_mono sd ed ed' Hle) as Hd.
  assert (Hq : (inject_Z (billedDays sd ed) <= inject_Z (billedDays sd ed'))%Q)
    by (rewrite <- Zle_Qle; exact Hd).
  destruct (Property.rentalPeriod p) as [[| |]|].
  - rewrite !(Qmult_comm (Property.price p)).
    apply Qmult_le_compat_r; assumption.
  - rewrite !(Qmult_comm (Property.price p)).
    apply Qmult_le_compat_r; [|assumption].
    unfold Qdiv. apply Qmult_le_compat_r; [assumption|discriminate].
  - rewrite !(Qmult_comm (Property.price p)).
    apply Qmult_le_compat_r; [|assumption].
    unfold Qdiv. apply Qmult_le_compat_r; [assumption|discriminate].
  - apply Qle_refl.
Qed.

(** The flat for three days, and for three days and one hour. *)
Lemma totalPrice_monotone_witness :
  (totalPriceOf Scenario.flat Scenario.jan1 Scenario.jan4
   <= totalPriceOf Scenario.flat Scenario.jan1
        (Scenario.jan4 + Scenario.hour))%Q.
Proof.
  apply (totalPrice_monotone Scenario.flat Scenario.jan1 Scenario.jan4
           (Scenario.jan4 + Scenario.hour)).
  - discriminate.
  - reflexivity.
  - discriminate.
Defined.

(** ** Listings *)

Lemma hostedBy_step s op h b :
  hostedBy (step s op) h b = hostedBy s h b.
Proof.
  unfold hostedBy, Prisma.propertyFindUnique. now rewrite step_properties.
Qed.

Lemma isHostOrAdmin_inv session user :
  isHostOrAdmin session = inr user ->
  session = Some user /\ (User.role user = HOST \/ User.role user = ADMIN).
Proof.
  unfold isHostOrAdmin, hasRole. destruct session as [u|]; cbn [orElse bind];
    [|discriminate].
  destruct (existsb (UserRole_eqb (User.role u)) [HOST; ADMIN]) eqn:E;
    cbn [negb reject bind ret]; [|discriminate].
  intros [= ->]. split; [reflexivity|]. now apply hasRole_host_or_admin.
Qed.

Lemma isHostOrAdmin_ok user :
  User.role user = HOST \/ User.role user = ADMIN ->
  isHostOrAdmin (Some user) = inr user.
Proof.
  intros H. unfold isHostOrAdmin, hasRole. cbn [orElse bind].
  apply hasRole_host_or_admin in H. rewrite H. reflexivity.
Qed.



Lemma find_unique_row l b :
  NoDup (map Booking.id l) -> In b l ->
  find (fun c => Booking.id c =? Booking.id b) l = Some b.
Proof.
  intros Hnd Hb.
  destruct (find _ l) as [c|] eqn:F.
  - apply find_In_id in F as (Hc & E). f_equal.
    now apply (unique_row l c b Hnd).
  - pose proof (find_none _ _ F b Hb) as N. cbn in N.
    rewrite Z.eqb_refl in N. discriminate.
Qed.

(** X13.  With distinct booking ids, every booking that [GET /bookings] of
    the host routes lists for a requester can be set by that requester to
    confirmed, cancelled or completed: [PUT /bookings/:id/status] answers
    200. *)
Theorem listed_then_updatable session status s l b st :
  bookingKeys s ->
  getHostBookings session status s = inr l ->
  In b l ->
  st = confirmed \/ st = cancelled \/ st = completed ->
  Response.code
    (fst (updateBookingStatus session (Booking.id b) (Some st) s)) = 200.
Proof.
  intros (Hnd & _) Hl Hb Hst. unfold getHostBookings in Hl.
  destruct (isHostOrAdmin session) as [r|user] eqn:Hs; cbn [bind ret] in Hl;
    [discriminate|].
  injection Hl as <-. apply isHostOrAdmin_inv in Hs as (-> & Hrole).
  unfold newestFirst in Hb. apply in_rev, filter_In in Hb as (Hb & Hf).
  apply andb_true_iff in Hf as (Hh & _). unfold hostedBy in Hh.
  destruct (Prisma.propertyFindUnique s (Booking.propertyId b)) as [p|] eqn:Hp;
    [|discriminate].
  apply Z.eqb_eq in Hh.
  rewrite (updateBookingStatus_accepts (Some user) (Some st) s (Booking.id b)
             user st b p); [reflexivity|].
  unfold canUpdateStatus. repeat split; auto.
  now apply find_unique_row.
Qed.

(** The host sees the stay and confirms it. *)
Lemma listed_then_updatable_witness :
  getHostBookings (Some Scenario.host) None Cases.booked = inr [Cases.stay]
  /\ Response.code
       (fst (updateBookingStatus (Some Scenario.host)
               (Booking.id Cases.stay) (Some confirmed) Cases.booked))
     = 200.
Proof.
  split; [reflexivity|].
  apply (listed_then_updatable (Some Scenario.host) None Cases.booked
           [Cases.stay] Cases.stay confirmed).
  - split.
    + repeat constructor. intros [].
    + intros b [<-|[]]. reflexivity.
  - reflexivity.
  - now left.
  - now left.
Defined.

(** *** The dashboard *)

Lemma groupCount_countIn key g k :
  groupCount (countIn key g) k
  = groupCount g k + (if String.eqb k key then 1 else 0).
Proof.
  unfold groupCount. induction g as [|[k0 n] g IH]; cbn [countIn find fst snd].
  - rewrite (String.eqb_sym key k). destruct (String.eqb k key); reflexivity.
  - destruct (String.eqb_spec k0 key) as [->|N]; cbn [find fst snd].
    + rewrite (String.eqb_sym key k).
      destruct (String.eqb k key); cbn; lia.
    + destruct (String.eqb_spec k0 k) as [->|N'].
      * destruct (String.eqb_spec k key); [congruence|]. cbn. lia.
      * exact IH.
Qed.

Lemma keys_countIn key g k :
  In k (map fst (countIn key g)) <-> k = key \/ In k (map fst g).
Proof.
  induction g as [|[k0 n] g IH]; cbn [countIn map fst In].
  - intuition.
  - destruct (String.eqb_spec k0 key) as [->|N]; cbn [map fst In].
    + intuition.
    + rewrite IH. intuition.
Qed.

Lemma NoDup_countIn key g :
  NoDup (map fst g) -> NoDup (map fst (countIn key g)).
Proof.
  induction g as [|[k0 n] g IH]; cbn [countIn map fst]; intros H.
  - repeat constructor. intros [].
  - inversion H as [|? ? Hn Hd]; subst.
    destruct (String.eqb_spec k0 key) as [->|N]; cbn [map fst].
    + constructor; assumption.
    + constructor; [|now apply IH].
      rewrite keys_countIn. intros [E|E]; [congruence|contradiction].
Qed.

Lemma sum_countIn key g :
  fold_right Z.add 0 (map snd (countIn key g))
  = fold_right Z.add 0 (map snd g) + 1.
Proof.
  induction g as [|[k0 n] g IH]; cbn [countIn map snd fold_right];
    [reflexivity|].
  destruct (String.eqb k0 key); cbn [map snd fold_right]; lia.
Qed.

Lemma groupByStatus_facts rows :
  NoDup (map fst (groupByStatus rows))
  /\ (forall k, groupCount (groupByStatus rows) k = countStatus k rows)
  /\ (forall k, In k (map fst (groupByStatus rows)) ->
                exists b, In b rows /\ Booking.status b = k)
  /\ fold_right Z.add 0 (map snd (groupByStatus rows))
     = Z.of_nat (List.length rows).
Proof.
  induction rows as [|b rows (Hnd & Hc & Hk & Hs)]; cbn [groupByStatus fold_right].
  - split; [constructor|]. split; [reflexivity|]. split; [|reflexivity].
    intros k [].
  - fold (groupByStatus rows). repeat split.
    + now apply NoDup_countIn.
    + intros k. rewrite groupCount_countIn, Hc. unfold countStatus.
      cbn [filter]. rewrite (String.eqb_sym k).
      destruct (String.eqb (Booking.status b) k); cbn [List.length]; lia.
    + intros k Hin. apply keys_countIn in Hin as [->|Hin].
      * exists b. split; [now left|reflexivity].
      * destruct (Hk k Hin) as (c & Hc' & E). exists c. split; [now right|auto].
    + rewrite sum_countIn, Hs. cbn [List.length]. lia.
Qed.

Lemma groupCount_absent g k : ~ In k (map fst g) -> groupCount g k = 0.
Proof.
  intros N. unfold groupCount.
  destruct (find _ g) as [[k0 n]|] eqn:F; [|reflexivity].
  apply find_some in F as (Hin & E). cbn in E. apply String.eqb_eq in E.
  subst k0. exfalso. apply N. change k with (fst (k, n)). now apply in_map.
Qed.

(** The object after the [forEach] over the groups. *)
Lemma forEach_stats g : forall o t,
  NoDup (map fst g) ->
  ~ In "total"%string (map fst g) ->
  o "total"%string = Some t ->
  let o' := fold_left (fun o stat => objAdd (objSet o (fst stat) (snd stat))
                                       "total" (snd stat)) g o in
  o' "total"%string = Some (t + fold_right Z.add 0 (map snd g))
  /\ forall k, k <> "total"%string ->
       o' k = if in_dec string_dec k (map fst g)
              then Some (groupCount g k) else o k.
Proof.
  induction g as [|[k0 n] g IH]; intros o t Hnd Hnt Ho; cbn [fold_left].
  - cbn. rewrite Ho. split; [f_equal; lia|reflexivity].
  - inversion Hnd as [|? ? Hn Hd]; subst. cbn [map fst In] in Hnt.
    assert (Hk0 : k0 <> "total"%string) by tauto.
    assert (Hnt' : ~ In "total"%string (map fst g)) by tauto.
    set (o1 := objAdd (objSet o k0 n) "total" n).
    assert (Ho1 : o1 "total"%string = Some (t + n)).
    { unfold o1, objAdd, objSet. cbn [fst snd].
      destruct (String.eqb_spec "total" k0); [congruence|].
      rewrite Ho. cbn. reflexivity. }
    assert (Hother : forall k, k <> "total"%string ->
                       o1 k = if String.eqb k k0 then Some n else o k).
    { intros k Hk. unfold o1, objAdd, objSet.
      destruct (String.eqb_spec "total" k0); [congruence|].
      rewrite Ho. destruct (String.eqb_spec k "total"); [contradiction|].
      reflexivity. }
    destruct (IH o1 (t + n) Hd Hnt' Ho1) as (Ht & Hrest).
    cbn [fst snd] in *. split.
    + fold o1. rewrite Ht. cbn [map snd fold_right]. f_equal. lia.
    + intros k Hk. fold o1. rewrite (Hrest k Hk), (Hother k Hk).
      unfold groupCount. cbn [find fst snd map].
      destruct (String.eqb_spec k0 k) as [->|N].
      * rewrite String.eqb_refl.
        destruct (in_dec string_dec k (map fst g)); [contradiction|].
        destruct (in_dec string_dec k (k :: map fst g)) as [_|N];
          [reflexivity|exfalso; apply N; now left].
      * destruct (String.eqb_spec k k0); [congruence|].
        destruct (in_dec string_dec k (map fst g)) as [I|I];
          destruct (in_dec string_dec k (k0 :: map fst g)) as [J|J];
          try reflexivity.
        -- exfalso. apply J. now right.
        -- exfalso. destruct J as [J|J]; [congruence|contradiction].
Qed.

Lemma knownStatus_total rows :
  Forall knownStatus rows ->
  Z.of_nat (List.length rows)
  = countStatus pending rows + countStatus confirmed rows
    + countStatus cancelled rows + countStatus completed rows.
Proof.
  unfold countStatus. induction 1 as [|b rows Hb _ IH]; [reflexivity|].
  cbn [List.length filter]. unfold knownStatus, includes in Hb.
  cbn [existsb] in Hb. rewrite orb_false_r in Hb.
  repeat rewrite orb_true_iff in Hb. rewrite !String.eqb_eq in Hb.
  destruct Hb as [E|[E|[E|E]]]; rewrite E;
    repeat match goal with
    | |- context [String.eqb ?a ?b] =>
        let v := eval vm_compute in (String.eqb a b) in
        change (String.eqb a b) with v
    end; cbn [List.length]; lia.
Qed.

(** X14.  When every booking has one of the four status values, the
    [bookings] object of [GET /dashboard] gives, for a host or an
    administrator, the number of bookings of the properties they host
    under each of the four status names, and under [total] the number of
    all of them, which is the sum of the four. *)
Theorem dashboard_counts user s :
  User.role user = HOST \/ User.role user = ADMIN ->
  Forall knownStatus (Store.bookings s) ->
  exists d,
    getDashboard (Some user) s = inr d
    /\ let rows := filter (hostedBy s (User.id user)) (Store.bookings s) in
       Dashboard.bookings d pending = Some (countStatus pending rows)
       /\ Dashboard.bookings d confirmed = Some (countStatus confirmed rows)
       /\ Dashboard.bookings d cancelled = Some (countStatus cancelled rows)
       /\ Dashboard.bookings d completed = Some (countStatus completed rows)
       /\ Dashboard.bookings d "total"%string
          = Some (Z.of_nat (List.length rows))
       /\ Z.of_nat (List.length rows)
          = countStatus pending rows + countStatus confirmed rows
            + countStatus cancelled rows + countStatus completed rows.
Proof.
  intros Hrole Hknown. unfold getDashboard.
  rewrite (isHostOrAdmin_ok _ Hrole). cbn [bind ret].
  eexists. split; [reflexivity|]. cbn [Dashboard.bookings].
  set (rows := filter (hostedBy s (User.id user)) (Store.bookings s)).
  assert (Hrows : Forall knownStatus rows).
  { apply Forall_forall. intros b Hb. apply filter_In in Hb as (Hb & _).
    now apply (proj1 (Forall_forall _ _) Hknown). }
  destruct (groupByStatus_facts rows) as (Hnd & Hc & Hk & Hsum).
  assert (Hnt : ~ In "total"%string (map fst (groupByStatus rows))).
  { intros Hin. destruct (Hk _ Hin) as (b & Hb & E).
    pose proof (proj1 (Forall_forall _ _) Hrows b Hb) as K.
    unfold knownStatus in K. rewrite E in K. discriminate K. }
  set (init := fun k : string =>
                 if includes ["total"%string; pending; confirmed; cancelled;
                              completed] k
                 then Some 0 else None).
  destruct (forEach_stats (groupByStatus rows) init 0 Hnd Hnt eq_refl)
    as (Ht & Hrest).
  assert (Hget : forall k, k <> "total"%string -> init k = Some 0 ->
            fold_left (fun o stat => objAdd (objSet o (fst stat) (snd stat))
                                       "total" (snd stat))
              (groupByStatus rows) init k
            = Some (countStatus k rows)).
  { intros k Hk0 Hinit. rewrite (Hrest k Hk0).
    destruct (in_dec string_dec k (map fst (groupByStatus rows))) as [I|I].
    - now rewrite Hc.
    - rewrite Hinit, <- Hc, (groupCount_absent _ _ I). reflexivity. }
  repeat split.
  - apply Hget; [discriminate|reflexivity].
  - apply Hget; [discriminate|reflexivity].
  - apply Hget; [discriminate|reflexivity].
  - apply Hget; [discriminate|reflexivity].
  - rewrite Ht, Hsum. reflexivity.
  - now apply knownStatus_total.
Qed.

(** The dashboard of the host after the requests of
    [Scenario.doubleBooking]: one booking is pending and one confirmed. *)
Lemma dashboard_counts_witness :
  exists d,
    getDashboard (Some Scenario.host)
      (run Scenario.store0 Scenario.doubleBooking) = inr d
    /\ Dashboard.bookings d pending = Some 1
    /\ Dashboard.bookings d confirmed = Some 1
    /\ Dashboard.bookings d "total"%string = Some 2.
Proof.
  assert (Hknown : Forall knownStatus
                     (Store.bookings
                        (run Scenario.store0 Scenario.doubleBooking)))
    by (repeat constructor).
  destruct (dashboard_counts Scenario.host
              (run Scenario.store0 Scenario.doubleBooking)
              (or_introl eq_refl) Hknown)
    as (d & Hd & H).
  cbv zeta in H. destruct H as (Hp & Hc & _ & _ & Ht & _).
  exists d. split; [exact Hd|]. split; [exact Hp|].
  split; [exact Hc|exact Ht].
Defined.

Lemma sum_filter (f : Booking.t -> Q) (keep : Booking.t -> bool) l :
  (fold_right Qplus 0 (map f (filter keep l))
   == fold_right Qplus 0 (map (fun b => if keep b then f b else 0) l))%Q.
Proof.
  induction l as [|b l IH]; cbn [filter map fold_right]; [reflexivity|].
  destruct (keep b); cbn [map fold_right]; rewrite IH; ring.
Qed.

Lemma dashboard_revenue user s :
  User.role user = HOST \/ User.role user = ADMIN ->
  exists d, getDashboard (Some user) s = inr d
            /\ (Dashboard.revenue_total d == revenueOf s (User.id user))%Q.
Proof.
  intros Hrole. unfold getDashboard. rewrite (isHostOrAdmin_ok _ Hrole).
  cbn [bind ret]. eexists. split; [reflexivity|]. cbn [Dashboard.revenue_total].
  unfold revenueOf.
  assert (E : forall b,
    (if hostedBy s (User.id user) b then earning b else 0)%Q
    = (if hostedBy s (User.id user) b
          && includes [confirmed; completed] (Booking.status b)
       then Booking.totalPrice b else 0)%Q).
  { intros b. unfold earning. destruct (hostedBy _ _ b); cbn [andb];
      [|reflexivity]. reflexivity. }
  rewrite (map_ext _ _ E), <- sum_filter.
  destruct (filter _ (Store.bookings s)); reflexivity.
Qed.

Lemma sum_setStatus (g : Booking.t -> Q) id st l b :
  find (fun c => Booking.id c =? id) l = Some b ->
  (fold_right Qplus 0 (map g (Prisma.setStatus id st l)) + g b
   == fold_right Qplus 0 (map g l) + g (Booking.withStatus st b))%Q.
Proof.
  induction l as [|a l IH]; cbn [find Prisma.setStatus]; [discriminate|].
  destruct (Booking.id a =? id).
  - intros [= ->]. cbn [map fold_right]. ring.
  - intros H. cbn [map fold_right]. rewrite <- Qplus_assoc, (IH H). ring.
Qed.

(** X15.  The revenue of [GET /dashboard] follows the status: when a status
    update of a booking of one of the host's properties is answered 200,
    the revenue shown to the host changes by what the booking brings in
    after the update less what it brought in before, where a booking brings
    in its total price while it is confirmed or completed and nothing
    otherwise. *)
Theorem revenue_follows_status session id st s user b :
  User.role user = HOST \/ User.role user = ADMIN ->
  Prisma.bookingFindUnique s id = Some b ->
  hostedBy s (User.id user) b = true ->
  Response.code (fst (updateBookingStatus session id (Some st) s)) = 200 ->
  exists d d',
    getDashboard (Some user) s = inr d
    /\ getDashboard (Some user) (snd (updateBookingStatus session id (Some st) s))
       = inr d'
    /\ (Dashboard.revenue_total d' + earning b
        == Dashboard.revenue_total d + earning (Booking.withStatus st b))%Q.
Proof.
  intros Hrole Hb Hh H200.
  destruct (updateBookingStatus_cases session (Some st) s id)
    as [(u & st' & b' & p & Hcan)|R].
  2:{ apply refused_code in R. rewrite H200 in R. cbn in R.
      repeat destruct R as [R|R]; try discriminate R; contradiction. }
  rewrite (updateBookingStatus_accepts _ _ _ _ _ _ _ _ Hcan). cbn [snd].
  destruct Hcan as (_ & _ & [= <-] & _ & _).
  destruct (dashboard_revenue user s Hrole) as (d & Hd & Ed).
  destruct (dashboard_revenue user
              (Store.mk (Store.properties s)
                 (Prisma.setStatus id st (Store.bookings s))
                 (Store.reviews s) (Store.nextBookingId s)
                 (Store.nextReviewId s)) Hrole) as (d' & Hd' & Ed').
  exists d, d'. split; [exact Hd|]. split; [exact Hd'|].
  rewrite Ed, Ed'. unfold revenueOf. cbn [Store.bookings].
  set (g := fun c => (if hostedBy s (User.id user) c then earning c else 0)%Q).
  assert (Eg : forall c,
    (if hostedBy
          (Store.mk (Store.properties s)
             (Prisma.setStatus id st (Store.bookings s))
             (Store.reviews s) (Store.nextBookingId s) (Store.nextReviewId s))
          (User.id user) c then earning c else 0)%Q = g c) by reflexivity.
  rewrite (map_ext _ _ Eg).
  assert (Gb : g b = earning b) by (unfold g; now rewrite Hh).
  assert (Gb' : g (Booking.withStatus st b) = earning (Booking.withStatus st b)).
  { unfold g. unfold hostedBy in *. cbn [Booking.withStatus Booking.propertyId].
    now rewrite Hh. }
  rewrite <- Gb, <- Gb'. now apply sum_setStatus.
Qed.

(** The host confirms the stay: the revenue goes from 0 to 300. *)
Lemma revenue_follows_status_witness :
  exists d d',
    getDashboard (Some Scenario.host) Cases.booked = inr d
    /\ getDashboard (Some Scenario.host)
         (snd (updateBookingStatus (Some Scenario.host) 1 (Some confirmed)
                 Cases.booked))
       = inr d'
    /\ (Dashboard.revenue_total d' + earning Cases.stay
        == Dashboard.revenue_total d
           + earning (Booking.withStatus confirmed Cases.stay))%Q
    /\ (Dashboard.revenue_total d == 0)%Q
    /\ (Dashboard.revenue_total d' == 300 # 1)%Q.
Proof.
  destruct (revenue_follows_status (Some Scenario.host) 1 confirmed
              Cases.booked Scenario.host Cases.stay
              (or_introl eq_refl) eq_refl eq_refl eq_refl)
    as (d & d' & Hd & Hd' & E).
  exists d, d'. split; [exact Hd|]. split; [exact Hd'|]. split; [exact E|].
  injection Hd as <-. injection Hd' as <-. split; reflexivity.
Defined.

(** ** Wishlists *)

Lemma guard_isAuthenticated session :
  guard (isAuthenticated session)
  = match session with
    | Some user => inr user
    | None => inl (Reply.say 401 (Common Unauthorized))
    end.
Proof. destruct session; reflexivity. Qed.

Lemma present_Some x name : present x = Some name -> x = Some name /\ name <> EmptyString.
Proof.
  destruct x as [[|c x]|]; cbn; try discriminate.
  intros [= <-]. split; [reflexivity|discriminate].
Qed.

Lemma findByName_None db u name :
  PrismaW.findByName db u name = None <->
  ~ In (u, name) (map wishlistKey (Db.wishlists db)).
Proof.
  unfold PrismaW.findByName. split.
  - intros E H. apply in_map_iff in H as (w & Hk & Hw).
    pose proof (find_none _ _ E w Hw) as F. cbn in F.
    unfold wishlistKey in Hk. injection Hk as Hu Hn.
    rewrite Hu, Hn, Z.eqb_refl, String.eqb_refl in F. discriminate.
  - intros N. destruct (find _ _) as [w|] eqn:E; [|reflexivity].
    apply find_some in E as (Hw & Hk). apply andb_true_iff in Hk as (H1 & H2).
    apply Z.eqb_eq in H1. apply String.eqb_eq in H2.
    exfalso. apply N. apply in_map_iff. exists w. split; [|exact Hw].
    unfold wishlistKey. now rewrite H1, H2.
Qed.

Lemma change_keeps_keys id f l :
  (forall w, wishlistKey (f w) = wishlistKey w) ->
  map wishlistKey (PrismaW.change id f l) = map wishlistKey l.
Proof.
  intros Hf. induction l as [|w l IH]; cbn [PrismaW.change map]; [reflexivity|].
  destruct (Wishlist.id w =? id); cbn [map]; [now rewrite Hf|now rewrite IH].
Qed.

Lemma rename_keeps_unique id name l w :
  NoDup (map wishlistKey l) ->
  find (fun v => Wishlist.id v =? id) l = Some w ->
  ~ In (Wishlist.userId w, name) (map wishlistKey l) ->
  NoDup (map wishlistKey (PrismaW.change id (PrismaW.rename name) l)).
Proof.
  induction l as [|v l IH]; cbn [PrismaW.change find map]; [discriminate|].
  intros Hnd Hf Hn. inversion Hnd as [|? ? Hv Hl]; subst.
  destruct (Wishlist.id v =? id).
  - injection Hf as ->. cbn [map]. constructor; [|exact Hl].
    intros H. apply Hn. now right.
  - cbn [map]. constructor.
    + intros H. apply Hv.
      assert (Hsub : forall k, In k (map wishlistKey
                                       (PrismaW.change id (PrismaW.rename name) l)) ->
                               In k (map wishlistKey l)
                               \/ k = (Wishlist.userId w, name)).
      { clear -Hf. revert Hf. induction l as [|x l IH];
          cbn [PrismaW.change find map]; [discriminate|].
        destruct (Wishlist.id x =? id).
        - intros [= ->] k [<-|H]; [now right|left; now right].
        - intros Hf k [<-|H]; [left; now left|].
          destruct (IH Hf k H) as [H'|H']; [left; now right|now right]. }
      destruct (Hsub _ H) as [H'|H']; [exact H'|].
      exfalso. apply Hn. left. exact H'.
    + apply IH; auto. intros H. apply Hn. now right.
Qed.

Lemma remove_keeps_unique id l :
  NoDup (map wishlistKey l) -> NoDup (map wishlistKey (PrismaW.remove id l)).
Proof.
  induction l as [|v l IH]; cbn [PrismaW.remove map]; [auto|].
  intros Hnd. inversion Hnd as [|? ? Hv Hl]; subst.
  destruct (Wishlist.id v =? id); [exact Hl|].
  cbn [map]. constructor; [|now apply IH].
  intros H. apply Hv. clear -H. revert H.
  induction l as [|x l IH]; cbn [PrismaW.remove map]; [auto|].
  destruct (Wishlist.id x =? id); [intros H; now right|].
  intros [<-|H]; [now left|right; now apply IH].
Qed.

Lemma rename_same w : PrismaW.rename (Wishlist.name w) w = w.
Proof. destruct w; reflexivity. Qed.

Lemma change_id_same id f l w :
  find (fun v => Wishlist.id v =? id) l = Some w -> f w = w ->
  PrismaW.change id f l = l.
Proof.
  induction l as [|v l IH]; cbn [PrismaW.change find]; [reflexivity|].
  destruct (Wishlist.id v =? id).
  - intros [= ->] ->. reflexivity.
  - intros H E. now rewrite IH.
Qed.

Lemma serve_uniqueNames db rq : uniqueNames db -> uniqueNames (serve db rq).
Proof.
  unfold uniqueNames. intros H.
  destruct rq as [op|session name|session id name|session id|session id pid
                 |session id pid|session id feat files|session pid iid
                 |session pid iid|session id]; cbn [serve].
  - exact H.
  - unfold createWishlist. rewrite guard_isAuthenticated.
    destruct session as [user|]; cbn [bindR reply snd]; [|exact H].
    destruct (present name) as [n|]; cbn [need bindR reply snd]; [|exact H].
    destruct (PrismaW.findByName db (User.id user) n) eqn:F;
      cbn [refuseIf bindR reply snd Db.wishlists]; [exact H|].
    rewrite map_app. apply NoDup_app; [exact H| |].
    + cbn. constructor; [tauto|constructor].
    + cbn. intros k Hk [<-|[]]. apply findByName_None in F. contradiction.
  - unfold renameWishlist. rewrite guard_isAuthenticated.
    destruct session as [user|]; cbn [bindR reply snd]; [|exact H].
    destruct (present name) as [n|]; cbn [need bindR reply snd]; [|exact H].
    destruct (PrismaW.findUnique db id) as [w|] eqn:Hw;
      cbn [need bindR reply snd]; [|exact H].
    destruct (Z.eqb_spec (Wishlist.userId w) (User.id user)) as [Hu|];
      cbn [negb refuseIf bindR reply snd]; [|exact H].
    destruct (String.eqb_spec n (Wishlist.name w)) as [->|Hne];
      cbn [negb andb refuseIf bindR reply snd Db.withWishlists Db.wishlists].
    + rewrite (change_id_same id _ _ w Hw (rename_same w)). exact H.
    + destruct (PrismaW.findByName db (User.id user) n) eqn:F;
        cbn [refuseIf bindR reply snd Db.withWishlists Db.wishlists];
        [exact H|].
      apply (rename_keeps_unique id n _ w H Hw).
      rewrite Hu. now apply findByName_None.
  - unfold deleteWishlist. rewrite guard_isAuthenticated.
    destruct session as [user|]; cbn [bindR reply snd]; [|exact H].
    destruct (PrismaW.findUnique db id) as [w|];
      cbn [need bindR reply snd]; [|exact H].
    destruct (negb (Wishlist.userId w =? User.id user));
      cbn [refuseIf bindR reply snd Db.withWishlists Db.wishlists]; [exact H|].
    now apply remove_keeps_unique.
  - unfold addToWishlist. rewrite guard_isAuthenticated.
    destruct session as [user|]; cbn [bindR reply snd]; [|exact H].
    destruct (Js.falsy pid); cbn [refuseIf bindR reply snd]; [exact H|].
    destruct pid as [pid|]; cbn [need bindR reply snd]; [|exact H].
    destruct (PrismaW.findUnique db id) as [w|];
      cbn [need bindR reply snd]; [|exact H].
    destruct (negb (Wishlist.userId w =? User.id user));
      cbn [refuseIf bindR reply snd]; [exact H|].
    destruct (Prisma.propertyFindUnique (Db.store db) pid);
      cbn [need bindR reply snd]; [|exact H].
    destruct (existsb (Z.eqb pid) (Wishlist.properties w));
      cbn [refuseIf bindR reply snd Db.withWishlists Db.wishlists]; [exact H|].
    rewrite change_keeps_keys; [exact H|reflexivity].
  - unfold removeFromWishlist. rewrite guard_isAuthenticated.
    destruct session as [user|]; cbn [bindR reply snd]; [|exact H].
    destruct (PrismaW.findUnique db id) as [w|];
      cbn [need bindR reply snd]; [|exact H].
    destruct (negb (Wishlist.userId w =? User.id user));
      cbn [refuseIf bindR reply snd Db.withWishlists Db.wishlists]; [exact H|].
    rewrite change_keeps_keys; [exact H|reflexivity].
  - unfold uploadImages.
    destruct (guard (isHostOrAdmin session)) as [r|user];
      cbn [bindR reply snd]; [exact H|].
    destruct (10 <? _); cbn [refuseIf bindR reply snd]; [exact H|].
    destruct (ownProperty user db id PropertyNotYoursToUpdate);
      cbn [bindR reply snd]; [exact H|].
    destruct (Nat.eqb _ 0); cbn [refuseIf bindR reply snd]; [exact H|].
    destruct (20 <? _); cbn [refuseIf bindR reply snd]; exact H.
  - unfold deleteImage.
    destruct (guard (isHostOrAdmin session)) as [r|user];
      cbn [bindR reply snd]; [exact H|].
    destruct (ownProperty user db pid PropertyNotYoursToUpdate);
      cbn [bindR reply snd]; [exact H|].
    destruct (PrismaI.findUnique (Db.images db) iid);
      cbn [need bindR reply snd]; exact H.
  - unfold setFeaturedImage.
    destruct (guard (isHostOrAdmin session)) as [r|user];
      cbn [bindR reply snd]; [exact H|].
    destruct (ownProperty user db pid PropertyNotYoursToUpdate);
      cbn [bindR reply snd]; [exact H|].
    destruct (PrismaI.findUniqueOf (Db.images db) iid pid);
      cbn [need bindR reply snd]; exact H.
  - unfold deleteProperty.
    destruct (guard (isHostOrAdmin session)) as [r|user];
      cbn [bindR reply snd]; [exact H|].
    destruct (ownProperty user db id PropertyNotYoursToDelete);
      cbn [bindR reply snd]; [exact H|].
    destruct (0 <? _)%nat; cbn [refuseIf bindR reply snd]; [exact H|].
    destruct (existsb _ _); cbn [refuseIf bindR reply snd Db.wishlists];
      [exact H|].
    rewrite map_map. exact H.
Qed.

(** X16.  The constraint [@@unique([userId, name])] of the schema is kept by
    the routes themselves: when no user has two wishlists of one name, this
    is still so after any requests have been served. *)
Theorem wishlist_names_stay_unique rqs : forall db,
  uniqueNames db -> uniqueNames (serveAll db rqs).
Proof.
  induction rqs as [|rq rqs IH]; intros db H; [exact H|].
  cbn [serveAll fold_left]. apply IH, serve_uniqueNames, H.
Qed.

(** From no wishlist at all, after the four requests of [Cases.wishes]:
    the guest has the wishlists "Summer" and "Winter". *)
Lemma wishlist_names_stay_unique_witness :
  uniqueNames (serveAll Cases.db0 Cases.wishes)
  /\ map Wishlist.name (Db.wishlists (serveAll Cases.db0 Cases.wishes))
     = ["Summer"%string; "Winter"%string].
Proof.
  split; [|reflexivity].
  apply (wishlist_names_stay_unique Cases.wishes Cases.db0). constructor.
Defined.

Lemma ownProperty_inv user db id denied p :
  ownProperty user db id denied = inr p ->
  Prisma.propertyFindUnique (Db.store db) id = Some p
  /\ (Property.hostId p = User.id user \/ User.role user = ADMIN).
Proof.
  unfold ownProperty.
  destruct (Prisma.propertyFindUnique (Db.store db) id) as [q|];
    cbn [need bindR]; [|discriminate].
  destruct (negb (Property.hostId q =? User.id user)
            && negb (UserRole_eqb (User.role user) ADMIN)) eqn:E;
    cbn [refuseIf bindR]; [discriminate|].
  intros [= ->]. split; [reflexivity|].
  apply andb_false_iff in E as [E|E]; apply negb_false_iff in E.
  - left. now apply Z.eqb_eq.
  - right. destruct (User.role user); cbn in E; congruence.
Qed.

Lemma existsb_Zeqb_false x l : existsb (Z.eqb x) l = false <-> ~ In x l.
Proof.
  rewrite <- not_true_iff_false, existsb_exists. split.
  - intros N H. apply N. exists x. split; [exact H|apply Z.eqb_refl].
  - intros N (y & Hy & E). apply Z.eqb_eq in E. subst y. contradiction.
Qed.

Lemma serve_Served db rq : Served db rq (serve db rq).
Proof.
  destruct rq as [op|session name|session id name|session id|session id pid
                 |session id pid|session id feat files|session pid iid
                 |session pid iid|session id]; cbn [serve].
  - constructor.
  - unfold createWishlist. rewrite guard_isAuthenticated.
    destruct session as [user|]; cbn [bindR reply snd]; [|constructor].
    destruct (present name) as [n|] eqn:Hn; cbn [need bindR reply snd];
      [|constructor].
    apply present_Some in Hn as (-> & Hn).
    destruct (PrismaW.findByName db (User.id user) n) eqn:F;
      cbn [refuseIf bindR reply snd]; [constructor|].
    now constructor.
  - unfold renameWishlist. rewrite guard_isAuthenticated.
    destruct session as [user|]; cbn [bindR reply snd]; [|constructor].
    destruct (present name) as [n|] eqn:Hn; cbn [need bindR reply snd];
      [|constructor].
    apply present_Some in Hn as (-> & Hn).
    destruct (PrismaW.findUnique db id) as [w|] eqn:Hw;
      cbn [need bindR reply snd]; [|constructor].
    destruct (Z.eqb_spec (Wishlist.userId w) (User.id user)) as [Hu|];
      cbn [negb refuseIf bindR reply snd]; [|constructor].
    destruct (String.eqb_spec n (Wishlist.name w)) as [E|Hne];
      cbn [negb andb refuseIf bindR reply snd].
    + apply (ServedRenameWishlist db user id n w); auto.
    + destruct (PrismaW.findByName db (User.id user) n) eqn:F;
        cbn [refuseIf bindR reply snd]; [constructor|].
      apply (ServedRenameWishlist db user id n w); auto.
  - unfold deleteWishlist. rewrite guard_isAuthenticated.
    destruct session as [user|]; cbn [bindR reply snd]; [|constructor].
    destruct (PrismaW.findUnique db id) as [w|] eqn:Hw;
      cbn [need bindR reply snd]; [|constructor].
    destruct (Z.eqb_spec (Wishlist.userId w) (User.id user));
      cbn [negb refuseIf bindR reply snd]; [|constructor].
    now apply (ServedDeleteWishlist db user id w).
  - unfold addToWishlist. rewrite guard_isAuthenticated.
    destruct session as [user|]; cbn [bindR reply snd]; [|constructor].
    destruct (Js.falsy pid); cbn [refuseIf bindR reply snd]; [constructor|].
    destruct pid as [pid|]; cbn [need bindR reply snd]; [|constructor].
    destruct (PrismaW.findUnique db id) as [w|] eqn:Hw;
      cbn [need bindR reply snd]; [|constructor].
    destruct (Z.eqb_spec (Wishlist.userId w) (User.id user));
      cbn [negb refuseIf bindR reply snd]; [|constructor].
    destruct (Prisma.propertyFindUnique (Db.store db) pid) as [p|] eqn:Hp;
      cbn [need bindR reply snd]; [|constructor].
    destruct (existsb (Z.eqb pid) (Wishlist.properties w)) eqn:Hin;
      cbn [refuseIf bindR reply snd]; [constructor|].
    apply (ServedAddToWishlist db user id pid w p); auto.
    now apply existsb_Zeqb_false.
  - unfold removeFromWishlist. rewrite guard_isAuthenticated.
    destruct session as [user|]; cbn [bindR reply snd]; [|constructor].
    destruct (PrismaW.findUnique db id) as [w|] eqn:Hw;
      cbn [need bindR reply snd]; [|constructor].
    destruct (Z.eqb_spec (Wishlist.userId w) (User.id user));
      cbn [negb refuseIf bindR reply snd]; [|constructor].
    now apply (ServedRemoveFromWishlist db user id pid w).
  - unfold uploadImages.
    destruct (guard (isHostOrAdmin session)) as [r|user];
      cbn [bindR reply snd]; [constructor|].
    destruct (10 <? _); cbn [refuseIf bindR reply snd]; [constructor|].
    destruct (ownProperty user db id PropertyNotYoursToUpdate) as [r|p] eqn:Ho;
      cbn [bindR reply snd]; [constructor|].
    apply ownProperty_inv in Ho as (Hp & _).
    destruct files as [|f files]; cbn [List.length Nat.eqb refuseIf bindR reply snd];
      [constructor|].
    destruct (Z.ltb_spec 20 (PrismaI.count db id
                             + Z.of_nat (S (List.length files))));
      cbn [refuseIf bindR reply snd]; [constructor|].
    apply (ServedUploadImages db session id feat (f :: files) p); auto.
    + discriminate.
    + intros ->. reflexivity.
  - unfold deleteImage.
    destruct (guard (isHostOrAdmin session)) as [r|user];
      cbn [bindR reply snd]; [constructor|].
    destruct (ownProperty user db pid PropertyNotYoursToUpdate) as [r|p] eqn:Ho;
      cbn [bindR reply snd]; [constructor|].
    apply ownProperty_inv in Ho as (Hp & _).
    destruct (PrismaI.findUnique (Db.images db) iid) as [image|] eqn:Hi;
      cbn [need bindR reply snd]; [|constructor].
    now apply (ServedDeleteImage db session pid iid p image).
  - unfold setFeaturedImage.
    destruct (guard (isHostOrAdmin session)) as [r|user];
      cbn [bindR reply snd]; [constructor|].
    destruct (ownProperty user db pid PropertyNotYoursToUpdate) as [r|p] eqn:Ho;
      cbn [bindR reply snd]; [constructor|].
    apply ownProperty_inv in Ho as (Hp & _).
    destruct (PrismaI.findUniqueOf (Db.images db) iid pid) as [image|] eqn:Hi;
      cbn [need bindR reply snd]; [|constructor].
    now apply (ServedSetFeaturedImage db session pid iid p image).
  - unfold deleteProperty.
    destruct (guard (isHostOrAdmin session)) as [r|user];
      cbn [bindR reply snd]; [constructor|].
    destruct (ownProperty user db id PropertyNotYoursToDelete) as [r|p] eqn:Ho;
      cbn [bindR reply snd]; [constructor|].
    apply ownProperty_inv in Ho as (Hp & _).
    destruct (filter (fun b => Booking.propertyId b =? id)
                (Store.bookings (Db.store db))) as [|b0 l0] eqn:Hb;
      cbn [List.length Nat.ltb Nat.leb refuseIf bindR reply snd];
      [|constructor].
    destruct (existsb (fun r => Review.propertyId r =? id)
                (Store.reviews (Db.store db))) eqn:Hr;
      cbn [refuseIf bindR reply snd]; [constructor|].
    apply (ServedDeleteProperty db session id p Hp).
    + intros b Hin E.
      assert (In b (filter (fun b => Booking.propertyId b =? id)
                      (Store.bookings (Db.store db)))).
      { apply filter_In. split; [exact Hin|now apply Z.eqb_eq]. }
      rewrite Hb in H. exact H.
    + intros r Hin E. apply not_true_iff_false in Hr. apply Hr.
      apply existsb_exists. exists r. split; [exact Hin|now apply Z.eqb_eq].
Qed.

Lemma others_change uid id f l w :
  find (fun v => Wishlist.id v =? id) l = Some w ->
  Wishlist.userId w <> uid ->
  Wishlist.userId (f w) = Wishlist.userId w ->
  filter (fun v => Wishlist.userId v =? uid) (PrismaW.change id f l)
  = filter (fun v => Wishlist.userId v =? uid) l.
Proof.
  intros Hf Hne Hk. revert Hf.
  induction l as [|v l IH]; cbn [PrismaW.change find filter]; [reflexivity|].
  destruct (Wishlist.id v =? id).
  - intros [= ->]. cbn [filter]. rewrite Hk.
    destruct (Z.eqb_spec (Wishlist.userId w) uid); [contradiction|reflexivity].
  - intros Hf. cbn [filter]. now rewrite IH.
Qed.

Lemma others_remove uid id l w :
  find (fun v => Wishlist.id v =? id) l = Some w ->
  Wishlist.userId w <> uid ->
  filter (fun v => Wishlist.userId v =? uid) (PrismaW.remove id l)
  = filter (fun v => Wishlist.userId v =? uid) l.
Proof.
  intros Hf Hne. revert Hf.
  induction l as [|v l IH]; cbn [PrismaW.remove find filter]; [reflexivity|].
  destruct (Wishlist.id v =? id).
  - intros [= ->].
    destruct (Z.eqb_spec (Wishlist.userId w) uid); [contradiction|reflexivity].
  - intros Hf. cbn [filter]. now rewrite IH.
Qed.

Lemma serve_keeps_others db rq session uid :
  wishlistSession rq = Some session ->
  (forall user, session = Some user -> User.id user <> uid) ->
  filter (fun w => Wishlist.userId w =? uid) (Db.wishlists (serve db rq))
  = filter (fun w => Wishlist.userId w =? uid) (Db.wishlists db).
Proof.
  intros Hs Hne.
  destruct (serve_Served db rq)
    as [rq|op|user name Hn Hf|user id name w Hw Hu Hname|user id w Hw Hu
       |user id pid w p Hw Hu Hp Hin|user id pid w Hw Hu
       |s id feat files p featured|s pid iid p image|s pid iid p image
       |s id p]; cbn [wishlistSession] in Hs; try discriminate Hs;
    try reflexivity; injection Hs as <-; specialize (Hne user eq_refl);
    cbn [Db.wishlists Db.withWishlists].
  - rewrite filter_app. cbn.
    destruct (Z.eqb_spec (User.id user) uid); [contradiction|].
    now rewrite app_nil_r.
  - apply (others_change uid id _ _ w Hw); [congruence|reflexivity].
  - apply (others_remove uid id _ w Hw). congruence.
  - apply (others_change uid id _ _ w Hw); [congruence|reflexivity].
  - apply (others_change uid id _ _ w Hw); [congruence|reflexivity].
Qed.

(** X17.  A request on the wishlists (create, rename, delete, add or remove
    a property) leaves the wishlists of every user other than the requester
    exactly as they were: [GET /wishlists] gives such a user the same
    answer before and after it. *)
Theorem wishlist_requests_isolated db rq session other :
  wishlistSession rq = Some session ->
  (forall user, session = Some user -> User.id user <> User.id other) ->
  getWishlists (Some other) (serve db rq) = getWishlists (Some other) db.
Proof.
  intros Hs Hne. unfold getWishlists. rewrite guard_isAuthenticated.
  cbn [bindR]. f_equal.
  now apply (serve_keeps_others db rq session (User.id other)).
Qed.

(** Another guest asks to delete the wishlist of the guest. *)
Lemma wishlist_requests_isolated_witness :
  getWishlists (Some Scenario.guest)
    (serve Cases.listed (DeleteWishlist (Some Scenario.other) 1))
  = inr [Cases.summer].
Proof.
  rewrite (wishlist_requests_isolated Cases.listed
             (DeleteWishlist (Some Scenario.other) 1)
             (Some Scenario.other) Scenario.guest eq_refl).
  - reflexivity.
  - intros user [= <-]. discriminate.
Defined.

Lemma findUnique_change db id f w :
  PrismaW.findUnique db id = Some w ->
  Wishlist.id (f w) = Wishlist.id w ->
  PrismaW.findUnique
    (Db.withWishlists (PrismaW.change id f (Db.wishlists db)) db) id
  = Some (f w).
Proof.
  unfold PrismaW.findUnique. cbn [Db.withWishlists Db.wishlists].
  intros Hf Hid. revert Hf.
  induction (Db.wishlists db) as [|v l IH]; cbn [PrismaW.change find];
    [discriminate|].
  destruct (Wishlist.id v =? id) eqn:E.
  - intros [= ->]. cbn [find]. rewrite Hid, E. reflexivity.
  - intros Hf. cbn [find]. rewrite E. now apply IH.
Qed.

Lemma change_change id f g l :
  (forall w, Wishlist.id (g w) = Wishlist.id w) ->
  PrismaW.change id f (PrismaW.change id g l)
  = PrismaW.change id (fun w => f (g w)) l.
Proof.
  intros Hg. induction l as [|v l IH]; cbn [PrismaW.change]; [reflexivity|].
  destruct (Wishlist.id v =? id) eqn:E; cbn [PrismaW.change].
  - now rewrite Hg, E.
  - now rewrite E, IH.
Qed.

Lemma filter_not_in pid l :
  ~ In pid l -> filter (fun p => negb (p =? pid)) l = l.
Proof.
  induction l as [|x l IH]; cbn [filter]; [reflexivity|].
  intros N. destruct (Z.eqb_spec x pid) as [->|_]; cbn [negb].
  - exfalso. apply N. now left.
  - rewrite IH; [reflexivity|]. intros H. apply N. now right.
Qed.

Lemma disconnect_connect pid w :
  ~ In pid (Wishlist.properties w) ->
  PrismaW.disconnect pid (PrismaW.connect pid w) = w.
Proof.
  intros N. destruct w as [i n u ps]. unfold PrismaW.disconnect,
    PrismaW.connect. cbn in *. f_equal.
  rewrite filter_app, (filter_not_in pid ps N). cbn.
  rewrite Z.eqb_refl. cbn. apply app_nil_r.
Qed.

Lemma withWishlists_same db : Db.withWishlists (Db.wishlists db) db = db.
Proof. destruct db; reflexivity. Qed.

Lemma addToWishlist_cases session id propertyId db :
  (exists user pid w p,
     session = Some user /\ propertyId = Some pid
     /\ PrismaW.findUnique db id = Some w
     /\ Wishlist.userId w = User.id user
     /\ Prisma.propertyFindUnique (Db.store db) pid = Some p
     /\ ~ In pid (Wishlist.properties w)
     /\ addToWishlist session id propertyId db
        = (Reply.say 200 AddedToWishlist,
           Db.withWishlists
             (PrismaW.change id (PrismaW.connect pid) (Db.wishlists db)) db))
  \/ exists code note,
       addToWishlist session id propertyId db = (Reply.say code note, db)
       /\ In code [400; 401; 403; 404].
Proof.
  unfold addToWishlist. rewrite guard_isAuthenticated.
  destruct session as [user|]; cbn [bindR reply];
    [|right; eexists _, _; split; [reflexivity|cbn; tauto]].
  destruct (Js.falsy propertyId); cbn [refuseIf bindR reply];
    [right; eexists _, _; split; [reflexivity|cbn; tauto]|].
  destruct propertyId as [pid|]; cbn [need bindR reply];
    [|right; eexists _, _; split; [reflexivity|cbn; tauto]].
  destruct (PrismaW.findUnique db id) as [w|] eqn:Hw; cbn [need bindR reply];
    [|right; eexists _, _; split; [reflexivity|cbn; tauto]].
  destruct (Z.eqb_spec (Wishlist.userId w) (User.id user));
    cbn [negb refuseIf bindR reply];
    [|right; eexists _, _; split; [reflexivity|cbn; tauto]].
  destruct (Prisma.propertyFindUnique (Db.store db) pid) as [p|] eqn:Hp;
    cbn [need bindR reply];
    [|right; eexists _, _; split; [reflexivity|cbn; tauto]].
  destruct (existsb (Z.eqb pid) (Wishlist.properties w)) eqn:Hin;
    cbn [refuseIf bindR reply];
    [right; eexists _, _; split; [reflexivity|cbn; tauto]|].
  left. exists user, pid, w, p. repeat split; auto.
  now apply existsb_Zeqb_false.
Qed.

(** X18.  After a property was added to a wishlist (200) it is among the
    properties of the wishlist, adding it again is refused with 400
    "Property is already in wishlist", and removing it gives back the
    tables as they were before it was added. *)
Theorem add_then_remove session id pid db :
  Reply.code (fst (addToWishlist session id (Some pid) db)) = 200 ->
  let db' := snd (addToWishlist session id (Some pid) db) in
  (exists w, PrismaW.findUnique db' id = Some w
             /\ In pid (Wishlist.properties w))
  /\ addToWishlist session id (Some pid) db'
     = (Reply.say 400 AlreadyInWishlist, db')
  /\ removeFromWishlist session id pid db'
     = (Reply.say 200 RemovedFromWishlist, db).
Proof.
  intros H200 db'. subst db'.
  destruct (addToWishlist_cases session id (Some pid) db)
    as [(user & pid' & w & p & -> & [= <-] & Hw & Hu & Hp & Hin & E)
       |(c & n & E & Hc)].
  2:{ rewrite E in H200. cbn in H200. subst c. cbn in Hc.
      repeat destruct Hc as [Hc|Hc]; try discriminate Hc; contradiction. }
  rewrite E. cbn [snd].
  pose proof (findUnique_change db id (PrismaW.connect pid) w Hw eq_refl)
    as Hw'.
  assert (Fp : Js.falsy (Some pid) = false).
  { destruct (Js.falsy (Some pid)) eqn:F; [|reflexivity].
    unfold addToWishlist in H200. rewrite guard_isAuthenticated in H200.
    cbn [bindR] in H200. rewrite F in H200. cbn in H200. discriminate. }
  split; [|split].
  - eexists. split; [exact Hw'|]. cbn. apply in_or_app. right. now left.
  - unfold addToWishlist. rewrite guard_isAuthenticated. cbn [bindR].
    rewrite Fp. cbn [refuseIf bindR need]. rewrite Hw'. cbn [need bindR].
    cbn [PrismaW.connect Wishlist.userId]. rewrite Hu, Z.eqb_refl.
    cbn [negb refuseIf bindR Db.withWishlists Db.store]. rewrite Hp.
    cbn [need bindR].
    change (Wishlist.properties (PrismaW.connect pid w))
      with (Wishlist.properties w ++ [pid]).
    rewrite existsb_app. cbn [existsb]. rewrite Z.eqb_refl, orb_true_r.
    reflexivity.
  - unfold removeFromWishlist. rewrite guard_isAuthenticated. cbn [bindR].
    rewrite Hw'. cbn [need bindR PrismaW.connect Wishlist.userId].
    rewrite Hu, Z.eqb_refl. cbn [negb refuseIf bindR reply].
    f_equal. unfold Db.withWishlists.
    cbn [Db.wishlists Db.store Db.nextWishlistId Db.images Db.nextImageId].
    rewrite change_change by reflexivity.
    rewrite (change_id_same id _ _ w Hw (disconnect_connect pid w Hin)).
    destruct db; reflexivity.
Qed.

(** The guest adds the flat to the wishlist and removes it again. *)
Lemma add_then_remove_witness :
  removeFromWishlist (Some Scenario.guest) 1 1
    (snd (addToWishlist (Some Scenario.guest) 1 (Some 1) Cases.listed))
  = (Reply.say 200 RemovedFromWishlist, Cases.listed)
  /\ snd (addToWishlist (Some Scenario.guest) 1 (Some 1) Cases.listed)
     <> Cases.listed.
Proof.
  split; [|discriminate].
  apply (add_then_remove (Some Scenario.guest) 1 1 Cases.listed eq_refl).
Defined.

(** X19.  Renaming one's own wishlist: to the name it has, the answer is 200
    and nothing changes, even though a wishlist of that name exists; to
    the name of another wishlist of the requester, the answer is 409 and
    nothing changes; to any other name that is not empty, the answer is 200
    and the wishlist has the new name. *)
Theorem renameWishlist_spec user id name db w :
  name <> EmptyString ->
  PrismaW.findUnique db id = Some w ->
  Wishlist.userId w = User.id user ->
  (name = Wishlist.name w ->
   renameWishlist (Some user) id (Some name) db
   = (Reply.mk 200 WishlistUpdated (Some w) [], db))
  /\ (name <> Wishlist.name w ->
      In (User.id user, name) (map wishlistKey (Db.wishlists db)) ->
      renameWishlist (Some user) id (Some name) db
      = (Reply.say 409 WishlistExists, db))
  /\ (name <> Wishlist.name w ->
      ~ In (User.id user, name) (map wishlistKey (Db.wishlists db)) ->
      renameWishlist (Some user) id (Some name) db
      = (Reply.mk 200 WishlistUpdated (Some (PrismaW.rename name w)) [],
         Db.withWishlists
           (PrismaW.change id (PrismaW.rename name) (Db.wishlists db)) db)).
Proof.
  intros Hn Hw Hu.
  assert (Hpre : present (Some name) = Some name)
    by (destruct name; [contradiction|reflexivity]).
  unfold renameWishlist. rewrite guard_isAuthenticated. cbn [bindR].
  rewrite Hpre. cbn [need bindR]. rewrite Hw. cbn [need bindR].
  rewrite Hu, Z.eqb_refl. cbn [negb refuseIf bindR].
  split; [|split].
  - intros ->. rewrite String.eqb_refl. cbn [negb andb refuseIf bindR reply].
    rewrite rename_same, (change_id_same id _ _ w Hw (rename_same w)).
    now rewrite withWishlists_same.
  - intros Hne Hin. destruct (String.eqb_spec name (Wishlist.name w));
      [contradiction|]. cbn [negb andb].
    destruct (PrismaW.findByName db (User.id user) name) eqn:F.
    + reflexivity.
    + apply findByName_None in F. contradiction.
  - intros Hne Hin. destruct (String.eqb_spec name (Wishlist.name w));
      [contradiction|]. cbn [negb andb].
    apply findByName_None in Hin. rewrite Hin. reflexivity.
Qed.

(** The guest renames the wishlist "Summer" to "Winter". *)
Lemma renameWishlist_spec_witness :
  renameWishlist (Some Scenario.guest) 1 (Some "Winter"%string) Cases.listed
  = (Reply.mk 200 WishlistUpdated
       (Some (Wishlist.mk 1 "Winter" 20 [])) [],
     Db.mk Scenario.store0 [Wishlist.mk 1 "Winter" 20 []] 2 [] 1)
  /\ renameWishlist (Some Scenario.guest) 1 (Some "Summer"%string)
       Cases.listed
     = (Reply.mk 200 WishlistUpdated (Some Cases.summer) [], Cases.listed).
Proof.
  split.
  - destruct (renameWishlist_spec Scenario.guest 1 "Winter" Cases.listed
                Cases.summer ltac:(discriminate) eq_refl eq_refl)
      as (_ & _ & H).
    apply H; [discriminate|]. intros [E|[]]. discriminate E.
  - destruct (renameWishlist_spec Scenario.guest 1 "Summer" Cases.listed
                Cases.summer ltac:(discriminate) eq_refl eq_refl)
      as (H & _).
    apply H. reflexivity.
Defined.

(** ** Referential integrity *)

Lemma find_removeProperty id pid l :
  pid <> id ->
  find (fun p => Property.id p =? pid) (removeProperty id l)
  = find (fun p => Property.id p =? pid) l.
Proof.
  intros N. induction l as [|p l IH]; cbn [removeProperty find]; [reflexivity|].
  destruct (Z.eqb_spec (Property.id p) id) as [E|E].
  - destruct (Z.eqb_spec (Property.id p) pid); [congruence|reflexivity].
  - cbn [find]. now rewrite IH.
Qed.

Lemma change_In id f l w' :
  In w' (PrismaW.change id f l) ->
  In w' l \/ exists w, In w l /\ w' = f w.
Proof.
  induction l as [|v l IH]; cbn [PrismaW.change]; [tauto|].
  destruct (Wishlist.id v =? id).
  - intros [<-|H]; [right; exists v; split; [now left|reflexivity]|].
    left. now right.
  - intros [<-|H]; [left; now left|].
    destruct (IH H) as [H'|(w & Hw & ->)]; [left; now right|].
    right. exists w. split; [now right|reflexivity].
Qed.

Lemma remove_In id l w : In w (PrismaW.remove id l) -> In w l.
Proof.
  induction l as [|v l IH]; cbn [PrismaW.remove]; [tauto|].
  destruct (Wishlist.id v =? id); [intros H; now right|].
  intros [<-|H]; [now left|right; now apply IH].
Qed.

Lemma imageRemove_In id l i : In i (PrismaI.remove id l) -> In i l.
Proof.
  induction l as [|v l IH]; cbn [PrismaI.remove]; [tauto|].
  destruct (Image.id v =? id); [intros H; now right|].
  intros [<-|H]; [now left|right; now apply IH].
Qed.

Lemma setFeatured_In id l i :
  In i (PrismaI.setFeatured id l) ->
  exists j, In j l /\ Image.id j = Image.id i
            /\ Image.propertyId j = Image.propertyId i.
Proof.
  induction l as [|v l IH]; cbn [PrismaI.setFeatured]; [intros []|].
  destruct (Image.id v =? id).
  - intros [<-|H].
    + exists v. repeat split. now left.
    + exists i. repeat split. now right.
  - intros [<-|H]; [exists v; repeat split; now left|].
    destruct (IH H) as (j & Hj & E). exists j. split; [now right|exact E].
Qed.

Lemma unsetFeatured_In pid l i :
  In i (PrismaI.unsetFeatured pid l) ->
  exists j, In j l /\ Image.id j = Image.id i
            /\ Image.propertyId j = Image.propertyId i.
Proof.
  unfold PrismaI.unsetFeatured. intros H. apply in_map_iff in H as (j & E & Hj).
  exists j. split; [exact Hj|].
  destruct ((Image.propertyId j =? pid) && Image.isFeatured j); subst i;
    split; reflexivity.
Qed.

Lemma create_In next pid featured files i :
  In i (PrismaI.create next pid featured files) ->
  Image.propertyId i = pid
  /\ next <= Image.id i < next + Z.of_nat (List.length files).
Proof.
  revert next featured.
  induction files as [|f files IH]; intros next featured; cbn [PrismaI.create];
    [intros []|].
  intros [<-|H]; cbn [Image.propertyId Image.id List.length]; [split; lia|].
  destruct (IH _ _ H) as (E & B). split; [exact E|lia].
Qed.

Lemma step_booking_property s op b :
  In b (Store.bookings (step s op)) ->
  (exists c, In c (Store.bookings s)
             /\ Booking.propertyId c = Booking.propertyId b)
  \/ exists p, Prisma.propertyFindUnique s (Booking.propertyId b) = Some p.
Proof.
  destruct op as [now session rq|now session id|session id status|session rq].
  - destruct (createBooking_cases now session rq s)
      as [(user & p & pid & sd & ed & gc & Hcan)|R]; unfold step, handle.
    + rewrite (createBooking_accepts _ _ _ _ _ _ _ _ _ _ Hcan).
      cbn [snd Store.bookings]. intros H.
      apply in_app_or in H as [H|[<-|[]]]; [left; eauto|].
      right. exists p. apply Hcan.
    + rewrite (refused_snd _ _ _ R). left. eauto.
  - destruct (step_CancelBooking s now session id) as [->|(c & _ & _ & ->)];
      [left; eauto|]. cbn [Store.bookings]. intros H.
    apply setStatus_In_cases in H as [H|(c' & Hc & ->)]; left; eauto.
  - destruct (step_UpdateBookingStatus s session id status)
      as [->|(st & c & _ & _ & _ & ->)]; [left; eauto|].
    cbn [Store.bookings]. intros H.
    apply setStatus_In_cases in H as [H|(c' & Hc & ->)]; left; eauto.
  - destruct (step_AddReview s session rq)
      as [->|(r & bid & _ & _ & _ & ->)]; left; eauto.
Qed.

Lemma step_review_property s op r :
  In r (Store.reviews (step s op)) ->
  In r (Store.reviews s)
  \/ exists b, In b (Store.bookings s)
               /\ Booking.propertyId b = Review.propertyId r.
Proof.
  destruct op as [now session rq|now session id|session id status|session rq].
  - destruct (step_CreateBooking s now session rq) as [->|(b & -> & _)];
      now left.
  - destruct (step_CancelBooking s now session id) as [->|(c & _ & _ & ->)];
      now left.
  - destruct (step_UpdateBookingStatus s session id status)
      as [->|(st & c & _ & _ & _ & ->)]; now left.
  - destruct (addReview_cases session rq s)
      as [(user & b & bid & pid & rating & Hcan)|R]; unfold step, handle.
    + rewrite (addReview_accepts _ _ _ _ _ _ _ _ Hcan).
      cbn [snd Store.reviews]. intros H.
      apply in_app_or in H as [H|[<-|[]]]; [now left|].
      right. exists b.
      destruct Hcan as (_ & _ & _ & _ & _ & _ & _ & Hb & _ & Hp & _).
      apply find_In_id in Hb as (Hb & _). split; [exact Hb|exact Hp].
    + rewrite (refused_snd _ _ _ R). now left.
Qed.

Lemma serve_integrity db rq : integrity db -> integrity (serve db rq).
Proof.
  intros (Hb & Hr & Hw & Hi).
  destruct (serve_Served db rq)
    as [rq|op|user name Hn Hf|user id name w Hfw Hu Hname|user id w Hfw Hu
       |user id pid w p Hfw Hu Hp Hin|user id pid w Hfw Hu
       |s id feat files p featured Hp Hfiles Hcount Hfeat
       |s pid iid p image Hp Himg|s pid iid p image Hp Himg
       |s id p Hp Hnob Hnor].
  - repeat split; assumption.
  - unfold integrity, propertyExists, Prisma.propertyFindUnique.
    cbn [Db.withStore Db.store Db.wishlists Db.images].
    rewrite step_properties. repeat split; try assumption.
    + intros b H. apply step_booking_property in H as [(c & Hc & <-)|H];
        [now apply Hb|exact H].
    + intros r H. apply step_review_property in H as [H|(b & Hc & <-)];
        [now apply Hr|now apply Hb].
  - repeat split; try assumption. cbn [Db.wishlists]. intros w pid H Hpid.
    apply in_app_or in H as [H|[<-|[]]]; [exact (Hw w pid H Hpid)|].
    destruct Hpid.
  - repeat split; try assumption. cbn [Db.withWishlists Db.wishlists].
    intros w' pid H Hpid.
    apply change_In in H as [H|(w0 & H0 & ->)];
      [exact (Hw w' pid H Hpid)|exact (Hw w0 pid H0 Hpid)].
  - repeat split; try assumption. cbn [Db.withWishlists Db.wishlists].
    intros w' pid H Hpid. apply remove_In in H. exact (Hw w' pid H Hpid).
  - repeat split; try assumption. cbn [Db.withWishlists Db.wishlists].
    intros w' pid' H Hpid.
    apply change_In in H as [H|(w0 & H0 & ->)]; [exact (Hw w' pid' H Hpid)|].
    cbn in Hpid. apply in_app_or in Hpid as [Hpid|[<-|[]]];
      [exact (Hw w0 pid' H0 Hpid)|]. exists p. exact Hp.
  - repeat split; try assumption. cbn [Db.withWishlists Db.wishlists].
    intros w' pid' H Hpid.
    apply change_In in H as [H|(w0 & H0 & ->)]; [exact (Hw w' pid' H Hpid)|].
    cbn in Hpid. apply filter_In in Hpid as (Hpid & _).
    exact (Hw w0 pid' H0 Hpid).
  - repeat split; try assumption. cbn [Db.images]. intros i H.
    apply in_app_or in H as [H|H].
    + destruct featured; [|now apply Hi].
      apply unsetFeatured_In in H as (j & Hj & _ & <-). now apply Hi.
    + apply create_In in H as (-> & _). exists p. exact Hp.
  - repeat split; try assumption. cbn [Db.withImages Db.images]. intros i H.
    assert (Hrem : forall j, In j (PrismaI.remove iid (Db.images db)) ->
                             propertyExists db (Image.propertyId j)).
    { intros j Hj. apply imageRemove_In in Hj. now apply Hi. }
    destruct (Image.isFeatured image); [|now apply Hrem].
    destruct (PrismaI.findFirst _ pid); [|now apply Hrem].
    apply setFeatured_In in H as (j & Hj & _ & <-). now apply Hrem.
  - repeat split; try assumption. cbn [Db.withImages Db.images]. intros i H.
    apply setFeatured_In in H as (j & Hj & _ & <-).
    apply unsetFeatured_In in Hj as (k & Hk & _ & <-). now apply Hi.
  - assert (Hkeep : forall pid, pid <> id -> propertyExists db pid ->
              exists q, find (fun p => Property.id p =? pid)
                          (removeProperty id (Store.properties (Db.store db)))
                        = Some q).
    { intros pid N (q & Hq). exists q. rewrite find_removeProperty by exact N.
      exact Hq. }
    unfold integrity, propertyExists, Prisma.propertyFindUnique.
    cbn [Db.store Db.wishlists Db.images Store.properties Store.bookings
         Store.reviews].
    repeat split.
    + intros b H. apply Hkeep; [now apply Hnob|now apply Hb].
    + intros r H. apply Hkeep; [now apply Hnor|now apply Hr].
    + intros w pid H Hpid. apply in_map_iff in H as (w0 & <- & H0).
      cbn in Hpid. apply filter_In in Hpid as (Hpid & N).
      apply Hkeep; [|exact (Hw w0 pid H0 Hpid)].
      apply negb_true_iff in N. now apply Z.eqb_neq.
    + intros i H. unfold PrismaI.removeOf in H.
      apply filter_In in H as (H & N). apply Hkeep; [|now apply Hi].
      apply negb_true_iff in N. now apply Z.eqb_neq.
Qed.

(** X20.  References stay valid: when every booking, review, wishlist entry
    and image names a property that exists, this is still so after any
    requests have been served, the deletion of properties included. *)
Theorem integrity_kept rqs : forall db,
  integrity db -> integrity (serveAll db rqs).
Proof.
  induction rqs as [|rq rqs IH]; intros db H; [exact H|].
  cbn [serveAll fold_left]. apply IH, serve_integrity, H.
Qed.

(** From the tables of [Cases.listed], after the requests of
    [Cases.houseRemoved]: the house is gone, and so are its image and the
    entry of the wishlist. *)
Lemma integrity_kept_witness :
  integrity (serveAll Cases.listed Cases.houseRemoved)
  /\ Prisma.propertyFindUnique
       (Db.store (serveAll Cases.listed Cases.houseRemoved)) 2 = None
  /\ Db.images (serveAll Cases.listed Cases.houseRemoved) = []
  /\ Db.wishlists (serveAll Cases.listed Cases.houseRemoved)
     = [Cases.summer].
Proof.
  split; [|repeat split].
  apply (integrity_kept Cases.houseRemoved Cases.listed).
  repeat split.
  - intros b [].
  - intros r [].
  - intros w pid [<-|[]] [].
  - intros i [].
Defined.



(** ** Images *)

Lemma count_is_imagesOf db pid :
  PrismaI.count db pid = Z.of_nat (imagesOf pid (Db.images db)).
Proof. reflexivity. Qed.

Lemma imagesOf_app pid l l' :
  imagesOf pid (l ++ l') = (imagesOf pid l + imagesOf pid l')%nat.
Proof. unfold imagesOf. now rewrite filter_app, length_app. Qed.

Lemma featuredOf_app pid l l' :
  featuredOf pid (l ++ l') = (featuredOf pid l + featuredOf pid l')%nat.
Proof. unfold featuredOf. now rewrite filter_app, length_app. Qed.

Lemma featuredOf_le pid l : (featuredOf pid l <= imagesOf pid l)%nat.
Proof.
  unfold featuredOf, imagesOf. induction l as [|i l IH]; cbn [filter];
    [apply Nat.le_refl|].
  destruct (Image.propertyId i =? pid), (Image.isFeatured i);
    cbn [andb List.length]; lia.
Qed.

Lemma imagesOf_unsetFeatured id pid l :
  imagesOf pid (PrismaI.unsetFeatured id l) = imagesOf pid l.
Proof.
  unfold imagesOf, PrismaI.unsetFeatured.
  induction l as [|i l IH]; cbn [map filter]; [reflexivity|].
  destruct ((Image.propertyId i =? id) && Image.isFeatured i);
    cbn [Image.withFeatured Image.propertyId];
    destruct (Image.propertyId i =? pid); cbn [List.length]; now rewrite IH.
Qed.

Lemma featuredOf_unsetFeatured id pid l :
  featuredOf pid (PrismaI.unsetFeatured id l)
  = if pid =? id then O else featuredOf pid l.
Proof.
  unfold featuredOf, PrismaI.unsetFeatured.
  induction l as [|i l IH]; cbn [map filter].
  - destruct (pid =? id); reflexivity.
  - destruct (Z.eqb_spec (Image.propertyId i) id) as [E|E];
      destruct (Image.isFeatured i) eqn:F; cbn [andb];
      cbn [Image.withFeatured Image.propertyId Image.isFeatured];
      rewrite ?F; destruct (Z.eqb_spec (Image.propertyId i) pid) as [E'|E'];
      cbn [andb List.length]; rewrite IH;
      destruct (Z.eqb_spec pid id); try reflexivity; congruence.
Qed.

Lemma imagesOf_create next id featured files pid :
  imagesOf pid (PrismaI.create next id featured files)
  = if id =? pid then List.length files else O.
Proof.
  unfold imagesOf. revert next featured.
  induction files as [|f files IH]; intros next featured;
    cbn [PrismaI.create filter].
  - destruct (id =? pid); reflexivity.
  - cbn [Image.propertyId]. specialize (IH (next + 1) false).
    destruct (id =? pid); cbn [List.length]; now rewrite IH.
Qed.

Lemma featuredOf_create_false next id files pid :
  featuredOf pid (PrismaI.create next id false files) = O.
Proof.
  unfold featuredOf. revert next.
  induction files as [|f files IH]; intros next; cbn [PrismaI.create filter];
    [reflexivity|].
  cbn [Image.propertyId Image.isFeatured]. rewrite andb_false_r. apply IH.
Qed.

Lemma featuredOf_create next id featured files pid :
  files <> [] ->
  featuredOf pid (PrismaI.create next id featured files)
  = if (id =? pid) && featured then 1%nat else O.
Proof.
  destruct files as [|f files]; [contradiction|]. intros _.
  unfold featuredOf. cbn [PrismaI.create filter Image.propertyId
                          Image.isFeatured].
  pose proof (featuredOf_create_false (next + 1) id files pid) as H.
  unfold featuredOf in H.
  destruct ((id =? pid) && featured); cbn [List.length]; now rewrite H.
Qed.

Lemma imagesOf_setFeatured iid pid l :
  imagesOf pid (PrismaI.setFeatured iid l) = imagesOf pid l.
Proof.
  unfold imagesOf. induction l as [|i l IH]; cbn [PrismaI.setFeatured filter];
    [reflexivity|].
  destruct (Image.id i =? iid); cbn [filter Image.withFeatured Image.propertyId];
    destruct (Image.propertyId i =? pid); cbn [List.length]; now rewrite ?IH.
Qed.

Lemma featuredOf_setFeatured iid pid l j :
  PrismaI.findUnique l iid = Some j ->
  featuredOf pid (PrismaI.setFeatured iid l)
  = (featuredOf pid l
     + if Z.eqb (Image.propertyId j) pid && negb (Image.isFeatured j)
       then 1 else 0)%nat.
Proof.
  unfold featuredOf, PrismaI.findUnique.
  induction l as [|i l IH]; cbn [PrismaI.setFeatured filter find];
    [discriminate|].
  destruct (Image.id i =? iid).
  - intros [= ->]. cbn [filter Image.withFeatured Image.propertyId
                        Image.isFeatured].
    destruct (Image.propertyId j =? pid), (Image.isFeatured j);
      cbn [andb negb List.length]; lia.
  - intros H. cbn [filter]. specialize (IH H).
    destruct ((Image.propertyId i =? pid) && Image.isFeatured i);
      cbn [List.length]; lia.
Qed.

Lemma imagesOf_remove iid pid l j :
  PrismaI.findUnique l iid = Some j ->
  (imagesOf pid (PrismaI.remove iid l)
   + if Z.eqb (Image.propertyId j) pid then 1 else 0)%nat
  = imagesOf pid l.
Proof.
  unfold imagesOf, PrismaI.findUnique.
  induction l as [|i l IH]; cbn [PrismaI.remove filter find]; [discriminate|].
  destruct (Image.id i =? iid).
  - intros [= ->]. destruct (Image.propertyId j =? pid); cbn [List.length]; lia.
  - intros H. cbn [filter]. specialize (IH H).
    destruct (Image.propertyId i =? pid); cbn [List.length]; lia.
Qed.

Lemma featuredOf_remove iid pid l j :
  PrismaI.findUnique l iid = Some j ->
  (featuredOf pid (PrismaI.remove iid l)
   + if Z.eqb (Image.propertyId j) pid && Image.isFeatured j then 1 else 0)%nat
  = featuredOf pid l.
Proof.
  unfold featuredOf, PrismaI.findUnique.
  induction l as [|i l IH]; cbn [PrismaI.remove filter find]; [discriminate|].
  destruct (Image.id i =? iid).
  - intros [= ->].
    destruct ((Image.propertyId j =? pid) && Image.isFeatured j);
      cbn [List.length]; lia.
  - intros H. cbn [filter]. specialize (IH H).
    destruct ((Image.propertyId i =? pid) && Image.isFeatured i);
      cbn [List.length]; lia.
Qed.

Lemma imagesOf_removeOf id pid l :
  imagesOf pid (PrismaI.removeOf id l)
  = if pid =? id then O else imagesOf pid l.
Proof.
  unfold imagesOf, PrismaI.removeOf.
  induction l as [|i l IH]; cbn [filter].
  - destruct (pid =? id); reflexivity.
  - destruct (Z.eqb_spec (Image.propertyId i) id) as [E|E]; cbn [negb filter].
    + rewrite IH. destruct (Z.eqb_spec pid id) as [->|N]; [reflexivity|].
      destruct (Z.eqb_spec (Image.propertyId i) pid); [congruence|reflexivity].
    + destruct (Z.eqb_spec (Image.propertyId i) pid) as [E'|E'];
        cbn [List.length]; rewrite IH;
        destruct (Z.eqb_spec pid id); try reflexivity; congruence.
Qed.

Lemma featuredOf_removeOf id pid l :
  featuredOf pid (PrismaI.removeOf id l)
  = if pid =? id then O else featuredOf pid l.
Proof.
  unfold featuredOf, PrismaI.removeOf.
  induction l as [|i l IH]; cbn [filter].
  - destruct (pid =? id); reflexivity.
  - destruct (Z.eqb_spec (Image.propertyId i) id) as [E|E]; cbn [negb filter].
    + rewrite IH. destruct (Z.eqb_spec pid id) as [->|N]; [reflexivity|].
      destruct (Z.eqb_spec (Image.propertyId i) pid); [congruence|reflexivity].
    + destruct (Z.eqb_spec (Image.propertyId i) pid) as [E'|E'];
        destruct (Image.isFeatured i); cbn [andb List.length]; rewrite IH;
        destruct (Z.eqb_spec pid id); try reflexivity; congruence.
Qed.

(** *** The limit of 20 images *)

Lemma serve_withinLimit db rq : withinLimit db -> withinLimit (serve db rq).
Proof.
  unfold withinLimit. intros H pid.
  destruct (serve_Served db rq)
    as [rq|op|user name Hn Hf|user id name w Hfw Hu Hname|user id w Hfw Hu
       |user id pid' w p Hfw Hu Hp Hin|user id pid' w Hfw Hu
       |s id feat files p featured Hp Hfiles Hcount Hfeat
       |s pid' iid p image Hp Himg|s pid' iid p image Hp Himg
       |s id p Hp Hnob Hnor];
    cbn [Db.images Db.withStore Db.withWishlists Db.withImages]; try apply H.
  - rewrite imagesOf_app, imagesOf_create.
    assert (E : imagesOf pid (if featured
                              then PrismaI.unsetFeatured id (Db.images db)
                              else Db.images db)
                = imagesOf pid (Db.images db))
      by (destruct featured; [apply imagesOf_unsetFeatured|reflexivity]).
    rewrite E. destruct (Z.eqb_spec id pid) as [->|_].
    + rewrite count_is_imagesOf in Hcount. lia.
    + rewrite Nat.add_0_r. apply H.
  - pose proof (imagesOf_remove iid pid _ image Himg) as R.
    specialize (H pid).
    destruct (Image.isFeatured image);
      [destruct (PrismaI.findFirst _ pid')|];
      rewrite ?imagesOf_setFeatured; lia.
  - rewrite imagesOf_setFeatured, imagesOf_unsetFeatured. apply H.
  - rewrite imagesOf_removeOf. destruct (pid =? id); [lia|apply H].
Qed.

(** X22.  No property ever gets more than 20 images: when this holds of
    the tables, it still holds after any requests have been served. *)
Theorem image_limit_kept rqs : forall db,
  withinLimit db -> withinLimit (serveAll db rqs).
Proof.
  induction rqs as [|rq rqs IH]; intros db H; [exact H|].
  cbn [serveAll fold_left]. apply IH, serve_withinLimit, H.
Qed.

(** From no image at all, after the requests of [Cases.uploads]. *)
Lemma image_limit_kept_witness :
  withinLimit (serveAll Cases.db0 Cases.uploads)
  /\ imagesOf 1 (Db.images (serveAll Cases.db0 Cases.uploads)) = 1%nat.
Proof.
  split; [|reflexivity].
  apply (image_limit_kept Cases.uploads Cases.db0).
  intros pid. apply Nat.le_0_l.
Defined.

(** *** The featured image *)

Lemma image_find_unique l j :
  NoDup (map Image.id l) -> In j l ->
  PrismaI.findUnique l (Image.id j) = Some j.
Proof.
  unfold PrismaI.findUnique.
  induction l as [|i l IH]; cbn [map find]; [intros _ []|].
  intros Hnd [->|Hj].
  - now rewrite Z.eqb_refl.
  - inversion Hnd as [|? ? Hn Hd]; subst.
    destruct (Z.eqb_spec (Image.id i) (Image.id j)) as [E|_]; [|now apply IH].
    exfalso. apply Hn. rewrite E. now apply in_map.
Qed.

Lemma findUniqueOf_inv l iid pid j :
  PrismaI.findUniqueOf l iid pid = Some j ->
  In j l /\ Image.id j = iid /\ Image.propertyId j = pid.
Proof.
  intros H. apply find_some in H as (Hj & E).
  apply andb_true_iff in E as (E1 & E2).
  apply Z.eqb_eq in E1, E2. auto.
Qed.

Lemma findFirst_inv l pid j :
  PrismaI.findFirst l pid = Some j -> In j l /\ Image.propertyId j = pid.
Proof.
  intros H. apply find_some in H as (Hj & E). apply Z.eqb_eq in E. auto.
Qed.

Lemma findFirst_None l pid :
  PrismaI.findFirst l pid = None -> imagesOf pid l = O.
Proof.
  unfold PrismaI.findFirst, imagesOf.
  induction l as [|i l IH]; cbn [find filter]; [reflexivity|].
  destruct (Image.propertyId i =? pid); [discriminate|exact IH].
Qed.

Lemma featuredOf_zero pid l j :
  featuredOf pid l = O -> In j l -> Image.propertyId j = pid ->
  Image.isFeatured j = false.
Proof.
  unfold featuredOf. induction l as [|i l IH]; cbn [filter]; [intros _ []|].
  intros H [->|Hj] E.
  - rewrite E, Z.eqb_refl in H. cbn [andb] in H.
    destruct (Image.isFeatured j); [discriminate H|reflexivity].
  - apply IH; auto.
    destruct ((Image.propertyId i =? pid) && Image.isFeatured i);
      [discriminate H|exact H].
Qed.

Lemma map_id_unsetFeatured pid l :
  map Image.id (PrismaI.unsetFeatured pid l) = map Image.id l.
Proof.
  unfold PrismaI.unsetFeatured. rewrite map_map. apply map_ext.
  intros i. destruct ((Image.propertyId i =? pid) && Image.isFeatured i);
    reflexivity.
Qed.

Lemma map_id_setFeatured iid l :
  map Image.id (PrismaI.setFeatured iid l) = map Image.id l.
Proof.
  induction l as [|i l IH]; cbn [PrismaI.setFeatured map]; [reflexivity|].
  destruct (Image.id i =? iid); cbn [map]; [reflexivity|now rewrite IH].
Qed.

Lemma NoDup_map_id_remove iid l :
  NoDup (map Image.id l) -> NoDup (map Image.id (PrismaI.remove iid l)).
Proof.
  induction l as [|i l IH]; cbn [PrismaI.remove map]; [auto|].
  intros Hnd. inversion Hnd as [|? ? Hn Hd]; subst.
  destruct (Image.id i =? iid); [exact Hd|].
  cbn [map]. constructor; [|now apply IH].
  intros H. apply Hn. apply in_map_iff in H as (j & E & Hj).
  rewrite <- E. apply in_map. now apply imageRemove_In in Hj.
Qed.

Lemma NoDup_map_id_filter (keep : Image.t -> bool) l :
  NoDup (map Image.id l) -> NoDup (map Image.id (filter keep l)).
Proof.
  induction l as [|i l IH]; cbn [filter map]; [auto|].
  intros Hnd. inversion Hnd as [|? ? Hn Hd]; subst.
  destruct (keep i); [|now apply IH].
  cbn [map]. constructor; [|now apply IH].
  intros H. apply Hn. apply in_map_iff in H as (j & E & Hj).
  rewrite <- E. apply in_map. now apply filter_In in Hj as (Hj & _).
Qed.

Lemma NoDup_map_id_create next pid featured files :
  NoDup (map Image.id (PrismaI.create next pid featured files)).
Proof.
  revert next featured.
  induction files as [|f files IH]; intros next featured;
    cbn [PrismaI.create map]; constructor; [|apply IH].
  intros H. apply in_map_iff in H as (j & E & Hj).
  apply create_In in Hj as (_ & B). cbn [Image.id] in E. lia.
Qed.

Lemma findUnique_unsetFeatured pid l iid j :
  PrismaI.findUnique l iid = Some j ->
  exists j', PrismaI.findUnique (PrismaI.unsetFeatured pid l) iid = Some j'
             /\ Image.propertyId j' = Image.propertyId j
             /\ (Image.propertyId j = pid -> Image.isFeatured j' = false).
Proof.
  unfold PrismaI.findUnique, PrismaI.unsetFeatured.
  induction l as [|i l IH]; cbn [map find]; [discriminate|].
  destruct (Z.eqb_spec (Image.propertyId i) pid) as [E|E];
    destruct (Image.isFeatured i) eqn:F; cbn [andb Image.withFeatured Image.id];
    destruct (Image.id i =? iid); try (intros H; exact (IH H));
    intros [= <-]; eexists; (split; [reflexivity|]); cbn; split; auto;
    intros; congruence.
Qed.

Lemma serve_imageKeys db rq : imageKeys db -> imageKeys (serve db rq).
Proof.
  intros (Hnd & Hlt).
  destruct (serve_Served db rq)
    as [rq|op|user name Hn Hf|user id name w Hfw Hu Hname|user id w Hfw Hu
       |user id pid' w p Hfw Hu Hp Hin|user id pid' w Hfw Hu
       |s id feat files p featured Hp Hfiles Hcount Hfeat
       |s pid' iid p image Hp Himg|s pid' iid p image Hp Himg
       |s id p Hp Hnob Hnor];
    unfold imageKeys;
    cbn [Db.images Db.nextImageId Db.withStore Db.withWishlists Db.withImages];
    try (split; assumption).
  - assert (Hkept : map Image.id
                      (if featured then PrismaI.unsetFeatured id (Db.images db)
                       else Db.images db) = map Image.id (Db.images db))
      by (destruct featured; [apply map_id_unsetFeatured|reflexivity]).
    split.
    + rewrite map_app, Hkept. apply NoDup_app; [exact Hnd| |].
      * apply NoDup_map_id_create.
      * intros a Ha Hb. apply in_map_iff in Ha as (i & <- & Hi).
        apply in_map_iff in Hb as (j & E & Hj).
        apply create_In in Hj as (_ & B). specialize (Hlt i Hi). lia.
    + intros i Hi. apply in_app_or in Hi as [Hi|Hi].
      * apply (in_map Image.id) in Hi. rewrite Hkept in Hi.
        apply in_map_iff in Hi as (j & <- & Hj). specialize (Hlt j Hj). lia.
      * apply create_In in Hi as (_ & B). lia.
  - assert (Hrem : NoDup (map Image.id (PrismaI.remove iid (Db.images db)))
                   /\ forall i, In i (PrismaI.remove iid (Db.images db)) ->
                                Image.id i < Db.nextImageId db).
    { split; [now apply NoDup_map_id_remove|].
      intros i Hi. apply Hlt. now apply imageRemove_In in Hi. }
    destruct (Image.isFeatured image); [|exact Hrem].
    destruct (PrismaI.findFirst _ pid'); [|exact Hrem].
    destruct Hrem as (Hnd' & Hlt'). split.
    + now rewrite map_id_setFeatured.
    + intros i Hi. apply setFeatured_In in Hi as (j & Hj & <- & _).
      now apply Hlt'.
  - split.
    + now rewrite map_id_setFeatured, map_id_unsetFeatured.
    + intros i Hi. apply setFeatured_In in Hi as (j & Hj & <- & _).
      apply unsetFeatured_In in Hj as (k & Hk & <- & _). now apply Hlt.
  - split; [now apply NoDup_map_id_filter|].
    intros i Hi. apply filter_In in Hi as (Hi & _). now apply Hlt.
Qed.

Lemma imagesOf_pos pid l j :
  In j l -> Image.propertyId j = pid -> exists n, imagesOf pid l = S n.
Proof.
  unfold imagesOf. induction l as [|i l IH]; cbn [filter]; [intros []|].
  intros [->|Hj] E.
  - rewrite E, Z.eqb_refl. cbn. eauto.
  - destruct (IH Hj E) as (n & Hn).
    destruct (Image.propertyId i =? pid); cbn [List.length]; rewrite Hn; eauto.
Qed.

Lemma serve_oneFeatured db rq :
  imageKeys db -> oneFeatured db -> wellAddressed db rq = true ->
  oneFeatured (serve db rq).
Proof.
  intros (Hnd & Hlt) Inv Hwell pid. pose proof (Inv pid) as Ipid.
  destruct (serve_Served db rq)
    as [rq|op|user name Hn Hf|user id name w Hfw Hu Hname|user id w Hfw Hu
       |user id pid' w p Hfw Hu Hp Hin|user id pid' w Hfw Hu
       |s id feat files p featured Hp Hfiles Hcount Hfeat
       |s pid' iid p image Hp Himg|s pid' iid p image Hp Himg
       |s id p Hp Hnob Hnor];
    cbn [Db.images Db.withStore Db.withWishlists Db.withImages];
    try exact Ipid.
  - (* upload *)
    rewrite featuredOf_app, imagesOf_app, imagesOf_create,
      (featuredOf_create _ _ _ _ _ Hfiles).
    assert (Hlen : exists n, List.length files = S n)
      by (destruct files; [contradiction|cbn; eauto]).
    destruct Hlen as (n & Hlen). rewrite Hlen.
    destruct featured.
    + rewrite featuredOf_unsetFeatured, imagesOf_unsetFeatured, andb_true_r.
      rewrite (Z.eqb_sym pid id).
      destruct (id =? pid).
      * replace (imagesOf pid (Db.images db) + S n)%nat
          with (S (imagesOf pid (Db.images db) + n)) by lia.
        reflexivity.
      * rewrite !Nat.add_0_r. exact Ipid.
    + rewrite andb_false_r, Nat.add_0_r.
      destruct (Z.eqb_spec id pid) as [->|_]; [|rewrite Nat.add_0_r; exact Ipid].
      rewrite count_is_imagesOf in Hfeat.
      destruct (imagesOf pid (Db.images db)) as [|m] eqn:Em.
      * specialize (Hfeat eq_refl). discriminate.
      * rewrite Ipid. cbn. reflexivity.
  - (* delete image *)
    cbn [wellAddressed] in Hwell. rewrite Himg in Hwell.
    apply Z.eqb_eq in Hwell.
    pose proof (imagesOf_remove iid pid _ image Himg) as R1.
    pose proof (featuredOf_remove iid pid _ image Himg) as R2.
    pose proof (featuredOf_le pid (PrismaI.remove iid (Db.images db))) as Hle.
    rewrite Hwell in R1, R2.
    set (left0 := PrismaI.remove iid (Db.images db)) in *.
    destruct (Image.isFeatured image) eqn:F.
    + destruct (PrismaI.findFirst left0 pid') as [a|] eqn:Ha.
      * apply findFirst_inv in Ha as (Hin & Hpa).
        assert (Hfa : PrismaI.findUnique left0 (Image.id a) = Some a)
          by (apply image_find_unique;
              [now apply NoDup_map_id_remove|exact Hin]).
        rewrite imagesOf_setFeatured, (featuredOf_setFeatured _ _ _ a Hfa).
        rewrite Hpa.
        destruct (Z.eqb_spec pid' pid) as [->|N]; cbn [andb] in *.
        -- destruct (imagesOf_pos pid _ a Hin Hpa) as (n & Hn).
           assert (Hz : featuredOf pid left0 = O).
           { rewrite Ipid in R2.
             destruct (imagesOf pid (Db.images db)); lia. }
           rewrite Hz, (featuredOf_zero pid _ a Hz Hin Hpa), Hn. reflexivity.
        -- rewrite Nat.add_0_r in *. rewrite R1, R2. exact Ipid.
      * destruct (Z.eqb_spec pid' pid) as [->|N]; cbn [andb] in *.
        -- rewrite (findFirst_None _ _ Ha) in *. lia.
        -- rewrite Nat.add_0_r in *. rewrite R1, R2. exact Ipid.
    + rewrite andb_false_r, Nat.add_0_r in R2. rewrite R2.
      destruct (Z.eqb_spec pid' pid) as [->|N].
      * rewrite Ipid in *.
        destruct (imagesOf pid (Db.images db)); [lia|].
        destruct (imagesOf pid left0); [lia|reflexivity].
      * rewrite Nat.add_0_r in R1. rewrite R1. exact Ipid.
  - (* set featured *)
    apply findUniqueOf_inv in Himg as (Hin & Hid & Hpi).
    pose proof (image_find_unique _ image Hnd Hin) as Hfi. rewrite Hid in Hfi.
    destruct (findUnique_unsetFeatured pid' _ iid image Hfi)
      as (j' & Hj' & Hpj & Hfj).
    rewrite imagesOf_setFeatured, imagesOf_unsetFeatured,
      (featuredOf_setFeatured _ _ _ j' Hj'), featuredOf_unsetFeatured.
    rewrite Hpj, Hpi, (Hfj Hpi). cbn [negb]. rewrite andb_true_r.
    rewrite (Z.eqb_sym pid pid').
    destruct (Z.eqb_spec pid' pid) as [->|N].
    + destruct (imagesOf_pos pid _ image Hin Hpi) as (n & Hn).
      rewrite Hn. reflexivity.
    + rewrite Nat.add_0_r. exact Ipid.
  - (* delete property *)
    rewrite featuredOf_removeOf, imagesOf_removeOf.
    destruct (pid =? id); [reflexivity|exact Ipid].
Qed.

(** X23.  With distinct image ids below the counter, a property that has
    images has exactly one featured image and one that has none has none,
    and this is kept by every sequence of requests in which each request to
    delete an image names, in its path, the property the image belongs
    to. *)
Theorem one_featured_image rqs : forall db,
  imageKeys db -> oneFeatured db ->
  allWellAddressed db rqs = true ->
  imageKeys (serveAll db rqs) /\ oneFeatured (serveAll db rqs).
Proof.
  induction rqs as [|rq rqs IH]; intros db Hk Inv Hw; [now split|].
  cbn [allWellAddressed] in Hw. apply andb_true_iff in Hw as (Hw & Hws).
  cbn [serveAll fold_left]. apply IH; auto.
  - now apply serve_imageKeys.
  - now apply serve_oneFeatured.
Qed.

(** From no image at all, after the requests of [Cases.uploads]: the image
    that is left is the featured one. *)
Lemma one_featured_image_witness :
  (imageKeys (serveAll Cases.db0 Cases.uploads)
   /\ oneFeatured (serveAll Cases.db0 Cases.uploads))
  /\ map Image.isFeatured (Db.images (serveAll Cases.db0 Cases.uploads))
     = [true].
Proof.
  split; [|reflexivity].
  apply (one_featured_image Cases.uploads Cases.db0).
  - split; [constructor|intros i []].
  - intros pid. reflexivity.
  - reflexivity.
Defined.

Lemma findUnique_remove_None iid l :
  NoDup (map Image.id l) ->
  PrismaI.findUnique (PrismaI.remove iid l) iid = None.
Proof.
  unfold PrismaI.findUnique.
  induction l as [|i l IH]; cbn [PrismaI.remove map find]; [reflexivity|].
  intros Hnd. inversion Hnd as [|? ? Hn Hd]; subst.
  destruct (Z.eqb_spec (Image.id i) iid) as [E|E].
  - destruct (find _ l) as [j|] eqn:F; [|reflexivity].
    apply find_some in F as (Hj & Ej). apply Z.eqb_eq in Ej.
    exfalso. apply Hn. rewrite E, <- Ej. now apply in_map.
  - cbn [find]. destruct (Z.eqb_spec (Image.id i) iid); [contradiction|].
    now apply IH.
Qed.

Lemma findUnique_setFeatured_None iid jid l :
  PrismaI.findUnique l iid = None ->
  PrismaI.findUnique (PrismaI.setFeatured jid l) iid = None.
Proof.
  unfold PrismaI.findUnique.
  induction l as [|i l IH]; cbn [PrismaI.setFeatured find]; [reflexivity|].
  destruct (Image.id i =? iid) eqn:E; [discriminate|].
  intros H. destruct (Image.id i =? jid); cbn [find Image.withFeatured Image.id];
    rewrite E; auto.
Qed.

(** X24.  [DELETE /properties/:propertyId/images/:imageId] looks the image
    up by its id alone: a host or an administrator who may update the
    property of the path deletes any image that exists, of whatever
    property it is (200, and the image is gone). *)
Theorem deleteImage_any_property db user propertyId imageId p image :
  imageKeys db ->
  User.role user = HOST \/ User.role user = ADMIN ->
  Prisma.propertyFindUnique (Db.store db) propertyId = Some p ->
  Property.hostId p = User.id user \/ User.role user = ADMIN ->
  PrismaI.findUnique (Db.images db) imageId = Some image ->
  fst (deleteImage (Some user) propertyId imageId db)
  = Reply.say 200 ImageDeleted
  /\ PrismaI.findUnique
       (Db.images (snd (deleteImage (Some user) propertyId imageId db)))
       imageId = None.
Proof.
  intros (Hnd & _) Hrole Hp Hown Himg.
  unfold deleteImage. rewrite (isHostOrAdmin_ok _ Hrole).
  cbn [guard bindR]. unfold ownProperty. rewrite Hp. cbn [need bindR].
  assert (E : negb (Property.hostId p =? User.id user)
              && negb (UserRole_eqb (User.role user) ADMIN) = false).
  { destruct Hown as [->| ->]; [rewrite Z.eqb_refl; reflexivity|].
    cbn. apply andb_false_r. }
  rewrite E. cbn [refuseIf bindR]. rewrite Himg. cbn [need bindR reply fst snd].
  split; [reflexivity|]. cbn [Db.withImages Db.images].
  pose proof (findUnique_remove_None imageId _ Hnd) as Hnone.
  destruct (Image.isFeatured image); [|exact Hnone].
  destruct (PrismaI.findFirst _ propertyId); [|exact Hnone].
  now apply findUnique_setFeatured_None.
Qed.

(** The host deletes the image of the flat through the path of the
    house. *)
Lemma deleteImage_any_property_witness :
  Image.propertyId Cases.photo <> 2
  /\ fst (deleteImage (Some Scenario.host) 2 1 Cases.gallery)
     = Reply.say 200 ImageDeleted
  /\ PrismaI.findUnique
       (Db.images (snd (deleteImage (Some Scenario.host) 2 1 Cases.gallery)))
       1
     = None.
Proof.
  split; [discriminate|].
  apply (deleteImage_any_property Cases.gallery Scenario.host 2 1
           Scenario.house Cases.photo).
  - split.
    + repeat constructor. intros [].
    + intros i [<-|[]]. reflexivity.
  - now left.
  - reflexivity.
  - now left.
  - reflexivity.
Defined.

(** ** The public listing *)





Lemma ceil_div total limit :
  0 < limit ->
  Js.ceil (inject_Z total / inject_Z limit) = (total + limit - 1) / limit.
Proof.
  intros H. destruct limit as [|p|p]; try lia.
  unfold Js.ceil, Qceiling, Qfloor, Qdiv, Qmult, Qinv, Qopp, inject_Z.
  cbn [Qnum Qden Pos.mul]. rewrite Z.mul_1_r.
  Z.to_euclidean_division_equations. nia.
Qed.

Lemma firstn_plus {A : Type} (a b : nat) (l : list A) :
  firstn (a + b) l = firstn a l ++ firstn b (skipn a l).
Proof.
  revert l. induction a as [|a IH]; intros l; [reflexivity|].
  destruct l as [|x l]; cbn [Nat.add firstn skipn app].
  - now rewrite firstn_nil.
  - now rewrite IH.
Qed.

Lemma chunks_cover {A : Type} (size : nat) (rows : list A) (m : nat) :
  flat_map (fun k => firstn size (skipn ((k - 1) * size) rows)) (seq 1 m)
  = firstn (m * size) rows.
Proof.
  induction m as [|m IH]; [reflexivity|].
  rewrite seq_S, flat_map_app, IH. cbn [flat_map]. rewrite app_nil_r.
  replace (1 + m - 1)%nat with m by lia.
  replace (S m * size)%nat with (m * size + size)%nat by lia.
  now rewrite firstn_plus.
Qed.

Lemma listPage_items {A : Type} (page limit : Z) (rows : list A) :
  1 <= limit -> 1 <= page ->
  listPage page limit rows
  = inr (firstn (Z.to_nat limit)
           (skipn ((Z.to_nat page - 1) * Z.to_nat limit) rows),
         Pagination.mk (Z.of_nat (List.length rows)) page limit
           (Some ((Z.of_nat (List.length rows) + limit - 1) / limit))).
Proof.
  intros Hl Hp. unfold listPage, findManyPage.
  destruct (Z.ltb_spec ((page - 1) * limit) 0); [nia|].
  destruct (Z.ltb_spec limit 0); [lia|].
  cbn [orElse bind ret].
  destruct (Z.eqb_spec limit 0); [lia|].
  rewrite ceil_div by lia. repeat f_equal.
  rewrite Z2Nat.inj_mul, Z2Nat.inj_sub by lia. reflexivity.
Qed.

Lemma flat_map_ext_seq {A : Type} (f g : nat -> list A) (m : nat) :
  (forall k, (1 <= k)%nat -> f k = g k) ->
  flat_map f (seq 1 m) = flat_map g (seq 1 m).
Proof.
  intros H. rewrite !flat_map_concat_map. f_equal.
  apply map_ext_in. intros k Hk. apply in_seq in Hk. apply H. lia.
Qed.

(** X26.  The pages of [GET /properties] cut the result into consecutive
    pieces: for a limit of 1 or more, every page from 1 on is answered
    with at most [limit] items and with [pages] the number of rows divided
    by the limit, rounded up; the pages after that one are empty; and
    pages 1 to [pages], one after the other, give every row once, in
    order. *)
Theorem listPage_partition {A : Type} (limit : Z) (rows : list A) :
  1 <= limit ->
  let pages := (Z.of_nat (List.length rows) + limit - 1) / limit in
  (forall page, 1 <= page ->
     exists items,
       listPage page limit rows
       = inr (items,
              Pagination.mk (Z.of_nat (List.length rows)) page limit
                (Some pages))
       /\ Z.of_nat (List.length items) <= limit
       /\ (pages < page -> items = []))
  /\ flat_map (fun k => itemsOf (listPage (Z.of_nat k) limit rows))
       (seq 1 (Z.to_nat pages))
     = rows.
Proof.
  intros Hl pages.
  assert (Hpages : Z.of_nat (List.length rows) <= pages * limit
                   /\ 0 <= pages).
  { subst pages. Z.to_euclidean_division_equations. nia. }
  split.
  - intros page Hp. eexists. split; [apply listPage_items; assumption|].
    split.
    + pose proof (firstn_le_length (Z.to_nat limit)
                    (skipn ((Z.to_nat page - 1) * Z.to_nat limit) rows)).
      lia.
    + intros Hlast. rewrite skipn_all2; [now rewrite firstn_nil|]. nia.
  - rewrite (flat_map_ext_seq _
               (fun k => firstn (Z.to_nat limit)
                           (skipn ((k - 1) * Z.to_nat limit) rows))).
    + rewrite chunks_cover. apply firstn_all2. nia.
    + intros k Hk. rewrite listPage_items by lia.
      unfold itemsOf. now rewrite Nat2Z.id.
Qed.

(** Five rows, two to a page. *)
Lemma listPage_partition_witness :
  flat_map (fun k => itemsOf (listPage (Z.of_nat k) 2 [1; 2; 3; 4; 5]))
    [1; 2; 3]%nat
  = [1; 2; 3; 4; 5]
  /\ itemsOf (listPage 3 2 [1; 2; 3; 4; 5]) = [5].
Proof.
  split; [|reflexivity].
  apply (listPage_partition 2 [1; 2; 3; 4; 5]). discriminate.
Defined.

(** ** The password rule *)

Example passwordRegex_examples :
  Regex.test passwordRegex (codeUnits "Passw0rd!") = true
  /\ Regex.test passwordRegex (codeUnits "password") = false
  /\ Regex.test passwordRegex (codeUnits "Pass w0rd!") = false
  /\ Regex.test passwordRegex (codeUnits "Pw0!") = false.
Proof. repeat split. Qed.

Lemma star_class_Exists (c d : N -> bool) (s : Regex.Str) :
  Regex.star c (Regex.matchK (Regex.Class d) (fun _ => true)) s = true ->
  Exists (fun x => d x = true) s.
Proof.
  induction s as [|x s IH]; cbn [Regex.star Regex.matchK]; intros H.
  - discriminate.
  - apply orb_true_iff in H. destruct H as [H|H].
    + apply andb_true_iff in H. now apply Exists_cons_hd.
    + apply andb_true_iff in H. apply Exists_cons_tl, IH, H.
Qed.

Lemma Exists_star_class (c d : N -> bool) (s : Regex.Str) :
  Forall (fun x => c x = true) s ->
  Exists (fun x => d x = true) s ->
  Regex.star c (Regex.matchK (Regex.Class d) (fun _ => true)) s = true.
Proof.
  induction s as [|x s IH]; intros Hc Hd; [inversion Hd|].
  cbn [Regex.star Regex.matchK]. apply orb_true_iff.
  inversion Hc as [|? ? Hx Hs]; subst.
  inversion Hd as [? ? Hdx|? ? Hds]; subst.
  - left. now rewrite Hdx.
  - right. rewrite Hx. cbn [andb]. now apply IH.
Qed.

Lemma star_end_Forall (c : N -> bool) (s : Regex.Str) :
  Regex.star c (Regex.matchK Regex.End (fun _ => true)) s = true
  <-> Forall (fun x => c x = true) s.
Proof.
  induction s as [|x s IH]; cbn [Regex.star Regex.matchK orb].
  - split; [constructor | reflexivity].
  - rewrite andb_true_iff, IH. split.
    + intros [Hx Hs]. now constructor.
    + intros H. inversion H; subst. now split.
Qed.

Lemma times_star_end (n : nat) (c : N -> bool) (s : Regex.Str) :
  Regex.times n c (Regex.star c (Regex.matchK Regex.End (fun _ => true))) s
  = true
  <-> (n <= List.length s)%nat /\ Forall (fun x => c x = true) s.
Proof.
  revert s. induction n as [|n IH]; intros s; cbn [Regex.times].
  - rewrite star_end_Forall. split; [intros H; split; [lia|exact H] | tauto].
  - destruct s as [|x s]; cbn [List.length].
    + split; [discriminate | lia].
    + rewrite andb_true_iff, IH. split.
      * intros [Hx [Hn Hs]]. split; [lia | now constructor].
      * intros [Hn H]. inversion H; subst. repeat split; [assumption|lia|assumption].
Qed.

Lemma allowed_dot (x : N) : allowed x = true -> dot x = true.
Proof.
  unfold allowed, uppercase, lowercase, digit, special, dot, between.
  cbn [existsb]. intros H.
  repeat match goal with
         | |- context [N.eqb ?a ?b] => destruct (N.eqb_spec a b); [subst; discriminate H|]
         end.
  reflexivity.
Qed.

(** X27.  [passwordRegex] accepts exactly the strings of 8 or more
    characters, all of them letters A-Z or a-z, digits or one of
    [@$!%*?&], that hold a lower-case letter, an upper-case letter, a
    digit and one of [@$!%*?&]. *)
Theorem passwordRegex_spec (s : Regex.Str) :
  Regex.test passwordRegex s = true <-> strongPassword s.
Proof.
  unfold Regex.test, passwordRegex, strongPassword.
  cbn [Regex.matchK]. rewrite !andb_true_iff, times_star_end.
  split.
  - intros (Hl & Hu & Hd & Hs & Hn & Hall).
    repeat split; try assumption; eapply star_class_Exists; eassumption.
  - intros (Hn & Hall & Hl & Hu & Hd & Hs).
    assert (Hdot : Forall (fun x => dot x = true) s).
    { eapply Forall_impl; [|exact Hall]. apply allowed_dot. }
    repeat split; try assumption; now apply Exists_star_class.
Qed.
